(** * GitGrade: the signal-scoring and tier-matching engine

    A shallow embedding of [signals.py], [tier_profiler.py] and
    [analyzer.py], and the properties of the scoring core proved on it.

    Conventions of the embedding.
    - A Python [str] is a [string]; the characters are ASCII, one Rocq
      character per Python character, so [len], [in], [startswith],
      [split] and [lower] are the functions of [PyStr] below.
    - A Python [int] is a [Z].
    - A Python [float] is a binary64 number, the kernel's [float]; its
      operations are the IEEE 754 ones Python uses.
    - A dict with the five fixed dimension keys is a record [Dim.t]; its
      iteration order is the order in which the source writes the keys.
    - A raised exception is the [Raised] outcome of the [Exc] monad. *)

From Stdlib Require Import ZArith QArith Qround List String Ascii Bool Lia.
From Stdlib Require Import DecimalString DecimalZ Floats Uint63 Sorted.
From Stdlib Require Import Permutation.
Import ListNotations.

Open Scope string_scope.
Open Scope Z_scope.

(* ================================================================== *)
(** ** Python string operations *)

Module PyStr.

(** [c.lower()] for one ASCII character. *)
Definition lower_char (c : ascii) : ascii :=
  let n := nat_of_ascii c in
  if (Nat.leb 65 n && Nat.leb n 90)%bool then ascii_of_nat (n + 32) else c.

(** [s.lower()] *)
Fixpoint lower (s : string) : string :=
  match s with
  | EmptyString => EmptyString
  | String c s' => String (lower_char c) (lower s')
  end.

(** [s.startswith(p)] *)
Definition startswith (s p : string) : bool := String.prefix p s.

(** [needle in hay] *)
Fixpoint contains (needle hay : string) : bool :=
  if String.prefix needle hay then true
  else match hay with
       | EmptyString => false
       | String _ hay' => contains needle hay'
       end.

(** [s.split(sep)] for a one-character separator. *)
Fixpoint split (sep : ascii) (s : string) : list string :=
  match s with
  | EmptyString => [EmptyString]
  | String c s' =>
      if Ascii.eqb c sep then EmptyString :: split sep s'
      else match split sep s' with
           | h :: t => String c h :: t
           | [] => [String c EmptyString]
           end
  end.

(** The characters [str.split()] treats as white space. *)
Definition is_space (c : ascii) : bool :=
  let n := nat_of_ascii c in
  ((Nat.leb 9 n && Nat.leb n 13) || (Nat.leb 28 n && Nat.leb n 32))%bool.

(** [s.split()]: the maximal runs of non-space characters. *)
Fixpoint words (s : string) : list string :=
  match s with
  | EmptyString => []
  | String c s' =>
      if is_space c then words s'
      else match s' with
           | EmptyString => [String c EmptyString]
           | String c' _ =>
               if is_space c' then String c EmptyString :: words s'
               else match words s' with
                    | h :: t => String c h :: t
                    | [] => [String c EmptyString]
                    end
           end
  end.

(** [sep.join(l)] *)
Fixpoint join (sep : string) (l : list string) : string :=
  match l with
  | [] => ""
  | [x] => x
  | x :: rest => x ++ sep ++ join sep rest
  end.

(** [str(n)] for an integer. *)
Definition str (n : Z) : string := NilZero.string_of_int (Z.to_int n).

(** Truth value of a string: the empty string is false. *)
Definition truthy (s : string) : bool :=
  match s with EmptyString => false | String _ _ => true end.

(** [len(s)] *)
Definition len (s : string) : Z := Z.of_nat (String.length s).

(** [s[:n]] *)
Definition take (n : nat) (s : string) : string := String.substring 0 n s.

(** [s.title()] for a lower-case word: the first letter upper-cased. *)
Definition upper_char (c : ascii) : ascii :=
  let n := nat_of_ascii c in
  if (Nat.leb 97 n && Nat.leb n 122)%bool then ascii_of_nat (n - 32) else c.

Definition title (s : string) : string :=
  match s with
  | EmptyString => EmptyString
  | String c s' => String (upper_char c) s'
  end.

End PyStr.

(** [sum(1 for x in l if f x)] and [len([x for x in l if f x])]. *)
Definition count_if {A : Type} (f : A -> bool) (l : list A) : Z :=
  Z.of_nat (List.length (List.filter f l)).

(** [x in l] for a list of strings. *)
Definition mem_str (x : string) (l : list string) : bool :=
  existsb (String.eqb x) l.

(* ================================================================== *)
(** ** Dicts over the five fixed dimensions *)

Module Dim.

Inductive key : Type :=
  Structure | Documentation | Tests | Commits | Dependencies.

Record t (A : Type) : Type := mk
  { structure : A; documentation : A; tests : A; commits : A;
    dependencies : A }.

Arguments mk {A} _ _ _ _ _.
Arguments structure {A} _.
Arguments documentation {A} _.
Arguments tests {A} _.
Arguments commits {A} _.
Arguments dependencies {A} _.

(** [d[k]] *)
Definition get {A : Type} (k : key) (d : t A) : A :=
  match k with
  | Structure => structure d
  | Documentation => documentation d
  | Tests => tests d
  | Commits => commits d
  | Dependencies => dependencies d
  end.

(** [d.keys()], [d.values()] and [d.items()], in insertion order. *)
Definition keys : list key :=
  [Structure; Documentation; Tests; Commits; Dependencies].

Definition values {A : Type} (d : t A) : list A :=
  List.map (fun k => get k d) keys.

Definition items {A : Type} (d : t A) : list (key * A) :=
  List.map (fun k => (k, get k d)) keys.

(** [{k: f(k, v) for k, v in d.items()}] *)
Definition map {A B : Type} (f : A -> B) (d : t A) : t B :=
  mk (f (structure d)) (f (documentation d)) (f (tests d))
     (f (commits d)) (f (dependencies d)).

(** The key as the source spells it. *)
Definition name (k : key) : string :=
  match k with
  | Structure => "structure"
  | Documentation => "documentation"
  | Tests => "tests"
  | Commits => "commits"
  | Dependencies => "dependencies"
  end.

(** [sum(d.values())] *)
Definition sum (d : t Z) : Z := List.fold_left Z.add (values d) 0.

End Dim.

(* ================================================================== *)
(** ** signals.py *)

Module Signals.

(** One entry of the file tree: a dict read only through
    [item.get("path", "")], so all that matters is whether the key
    ["path"] is present and what it holds. *)
Record FileTreeEntry : Type := { path : option string }.

(** One commit, as [get_commits] builds it; read only through
    [commit.get("message", "")]. *)
Record Commit : Type :=
  { message : option string; author : string; date : string;
    sha : string }.

(** [item.get("path", "")] *)
Definition get_path (item : FileTreeEntry) : string :=
  match path item with Some p => p | None => "" end.

(** [commit.get("message", "")] *)
Definition get_message (commit : Commit) : string :=
  match message commit with Some m => m | None => "" end.

Record SignalDetector : Type :=
  { file_tree : list FileTreeEntry;
    readme : string;
    commits : list Commit;
    branches : list string;
    languages : list (string * Z);
    folder_names : list string }.

(** [folders.add(x)].  The set is kept as a list without duplicates in
    first-insertion order; Python leaves the iteration order of a set
    open, and nothing proved below depends on it. *)
Definition set_add (x : string) (folders : list string) : list string :=
  if mem_str x folders then folders else (folders ++ [x])%list.

Definition _extract_folders (tree : list FileTreeEntry) : list string :=
  List.fold_left
    (fun folders item =>
       match PyStr.split "/" (get_path item) with
       | p0 :: _ :: _ => set_add p0 folders
       | _ => folders
       end)
    tree [].

(** [SignalDetector.__init__] *)
Definition init (tree : list FileTreeEntry) (readme : string)
    (commits : list Commit) (branches : list string)
    (languages : list (string * Z)) : SignalDetector :=
  {| file_tree := tree; readme := readme; commits := commits;
     branches := branches; languages := languages;
     folder_names := _extract_folders tree |}.

(** *** Signal 1: semantic folder structure *)

Definition semantic_good : list string :=
  ["src"; "tests"; "test"; "docs"; "config"; "models"; "controllers";
   "services"; "api"; "database"; "auth"; "ui"; "components"; "views"].

Definition semantic_bad : list string :=
  ["utils"; "helpers"; "misc"; "constants"; "functions"; "lib"; "tools"].

Definition signal_structure (self : SignalDetector) : Z * string :=
  let good_count :=
    count_if (fun f => mem_str (PyStr.lower f) semantic_good)
             (folder_names self) in
  let bad_count :=
    count_if (fun f => mem_str (PyStr.lower f) semantic_bad)
             (folder_names self) in
  let total_folders := Z.of_nat (List.length (folder_names self)) in
  let score :=
    if total_folders =? 0 then 5
    else if bad_count >? good_count then 8
    else if good_count >=? 3 then 18
    else if good_count >=? 1 then 12
    else 5 in
  let reason :=
    match folder_names self with
    | [] => "Flat structure"
    | _ :: _ =>
        "Folders: " ++ PyStr.join ", " (List.firstn 5 (folder_names self))
    end in
  (score, reason).

(** *** Signal 2: documentation depth *)

Definition sections : list (string * list string) :=
  [("overview", ["overview"; "about"; "description"; "what is"]);
   ("setup", ["setup"; "installation"; "install"; "getting started"]);
   ("usage", ["usage"; "how to use"; "tutorial"; "examples"]);
   ("architecture", ["architecture"; "design"; "structure"]);
   ("contributing", ["contributing"; "contribution"; "contribute"])].

Definition found_sections (readme_lower : string) : Z :=
  count_if (fun sk => existsb (fun kw => PyStr.contains kw readme_lower)
                              (snd sk))
           sections.

(** The source binds [has_examples] to the string literal itself, not
    to a test on the README; the embedding keeps it so. *)
Definition has_examples : string := "```".

Definition signal_documentation (self : SignalDetector) : Z * string :=
  if negb (PyStr.truthy (readme self)) then (0, "No README found")
  else
    let readme_lower := PyStr.lower (readme self) in
    let found := found_sections readme_lower in
    let has_structure := PyStr.len (readme self) >? 500 in
    let score :=
      Z.min 20 (found * 3
                + (if PyStr.truthy has_examples then 3 else 0)
                + (if has_structure then 2 else 0)) in
    let reason :=
      "Found " ++ PyStr.str found ++ "/5 key sections, "
      ++ (if PyStr.truthy has_examples then "has examples"
          else "no examples") in
    (score, reason).

(** *** Signal 3: test strategy *)

Definition test_files (self : SignalDetector) : list string :=
  List.map get_path
    (List.filter
       (fun item => PyStr.contains "test" (PyStr.lower (get_path item)))
       (file_tree self)).

Definition all_paths (self : SignalDetector) : list string :=
  List.map get_path (file_tree self).

Definition unit_indicator (self : SignalDetector) : Z :=
  count_if (fun f => PyStr.contains "unit" (PyStr.lower f)
                     || PyStr.contains "_test" f)%bool
           (test_files self).

Definition integration_indicator (self : SignalDetector) : Z :=
  count_if (fun f => PyStr.contains "integration" (PyStr.lower f)
                     || PyStr.contains "e2e" (PyStr.lower f))%bool
           (test_files self).

Definition coverage_indicator (self : SignalDetector) : bool :=
  existsb (fun f => PyStr.contains "coverage" (PyStr.lower f)
                    || PyStr.contains ".coveragerc" f)%bool
          (all_paths self).

Definition config_indicator (self : SignalDetector) : bool :=
  existsb (fun f => PyStr.contains "pytest.ini" f
                    || PyStr.contains "jest.config" f
                    || PyStr.contains "vitest" f)%bool
          (all_paths self).

Definition signal_tests (self : SignalDetector) : Z * string :=
  let test_count := Z.of_nat (List.length (test_files self)) in
  if test_count =? 0 then (0, "No tests found")
  else if (coverage_indicator self || config_indicator self)%bool then
    (18, PyStr.str test_count ++ " test files with coverage config")
  else if ((unit_indicator self >? 0)
           && (integration_indicator self >? 0))%bool then
    (15, "Unit + Integration tests (" ++ PyStr.str test_count ++ " files)")
  else if test_count >? 5 then
    (12, PyStr.str test_count ++ " test files")
  else
    (6, "Basic tests (" ++ PyStr.str test_count ++ " files)").

(** *** Signal 4: commit narrative quality *)

Definition quality_keywords : list string :=
  ["add"; "fix"; "refactor"; "improve"; "update"; "implement"; "feature"].

Definition conventional_prefixes : list string :=
  ["feat:"; "fix:"; "docs:"; "style:"; "test:"; "refactor:"; "chore:"].

Definition is_conventional (msg : string) : bool :=
  existsb (PyStr.startswith msg) conventional_prefixes.

Definition is_descriptive (msg : string) : bool :=
  ((Z.of_nat (List.length (PyStr.words msg)) >? 3)
   && existsb (fun kw => PyStr.contains kw msg) quality_keywords)%bool.

(** The loop over [self.commits[:50]]: the two counters after it. *)
Definition count_commits (cs : list Commit) : Z * Z :=
  List.fold_left
    (fun counts commit =>
       let msg := PyStr.lower (get_message commit) in
       let conventional_count :=
         if is_conventional msg then fst counts + 1 else fst counts in
       let descriptive_count :=
         if is_descriptive msg then snd counts + 1 else snd counts in
       (conventional_count, descriptive_count))
    (List.firstn 50 cs) (0, 0).

(** The quotient and the product are taken in exact rational
    arithmetic; the source takes them in binary64, and the integer the
    two give after [int] is the same (see [commits_score_binary64]
    below for the check on every pair of counts the fetcher can
    produce). *)
Definition signal_commits (self : SignalDetector) : Z * string :=
  match commits self with
  | [] => (0, "No commits")
  | _ :: _ =>
      let counts := count_commits (commits self) in
      let conventional_count := fst counts in
      let descriptive_count := snd counts in
      let quality_ratio :=
        (inject_Z (conventional_count + descriptive_count)
         / inject_Z (Z.max (Z.of_nat (List.length (commits self))) 1))%Q in
      let score := Z.min 20 (Qfloor (quality_ratio * inject_Z 20)) in
      let reason :=
        "Conventional: " ++ PyStr.str conventional_count
        ++ ", Descriptive: " ++ PyStr.str descriptive_count ++ "/"
        ++ PyStr.str (Z.of_nat (List.length (List.firstn 50 (commits self))))
      in
      (score, reason)
  end.

(** *** Signal 5: dependency health *)

Definition dep_names : list string :=
  ["requirements.txt"; "package.json"; "Gemfile"; "pom.xml"; "go.mod"].

Definition lock_names : list string :=
  ["package-lock.json"; "yarn.lock"; "Pipfile.lock"; "poetry.lock"].

Definition dep_files (self : SignalDetector) : list string :=
  List.map get_path
    (List.filter
       (fun item => existsb (fun df => PyStr.contains df (get_path item))
                            dep_names)
       (file_tree self)).

Definition lock_files (self : SignalDetector) : list string :=
  List.map get_path
    (List.filter
       (fun item => existsb (fun lf => PyStr.contains lf (get_path item))
                            lock_names)
       (file_tree self)).

Definition signal_dependencies (self : SignalDetector) : Z * string :=
  match dep_files self with
  | [] => (0, "No dependency files")
  | _ :: _ =>
      if (match lock_files self with [] => false | _ :: _ => true end
          && (Z.of_nat (List.length (lock_files self)) >? 0))%bool then
        (18, "Dependency files + lock files present")
      else if Z.of_nat (List.length (dep_files self)) >? 1 then
        (14, PyStr.str (Z.of_nat (List.length (dep_files self)))
             ++ " dependency files")
      else (10, "Basic dependency management")
  end.

(** [get_all_signals]: the dict of the five (score, reason) pairs. *)
Definition get_all_signals (self : SignalDetector) : Dim.t (Z * string) :=
  Dim.mk (signal_structure self) (signal_documentation self)
         (signal_tests self) (signal_commits self)
         (signal_dependencies self).

End Signals.

(* ================================================================== *)
(** ** tier_profiler.py *)

Module TierProfile.

Inductive tier : Type := beginner | intermediate | advanced.

(** The tier name as the source spells it. *)
Definition tier_name (t : tier) : string :=
  match t with
  | beginner => "beginner"
  | intermediate => "intermediate"
  | advanced => "advanced"
  end.

Definition TIER_PROFILES (t : tier) : Dim.t Z :=
  match t with
  | beginner => Dim.mk 5 3 0 4 2
  | intermediate => Dim.mk 14 12 10 12 12
  | advanced => Dim.mk 18 18 18 16 18
  end.

(** [TIER_PROFILES.items()] iterates in the order the dict is written. *)
Definition tiers : list tier := [beginner; intermediate; advanced].

Definition compute_profile_vector (signals : Dim.t (Z * string))
  : Dim.t Z := Dim.map fst signals.

(** The conversion of an [int] to a [float], exact below 2^53. *)
Definition float_of_Z (z : Z) : float :=
  match z with
  | Z0 => 0%float
  | Zpos _ => PrimFloat.of_uint63 (Uint63.of_Z z)
  | Zneg _ => PrimFloat.opp (PrimFloat.of_uint63 (Uint63.of_Z (- z)))
  end.

(** [sum(vec1[k] * vec2[k] for k in vec1.keys())], on integers. *)
Definition dot (vec1 vec2 : Dim.t Z) : Z :=
  List.fold_left Z.add
    (List.map (fun k => Dim.get k vec1 * Dim.get k vec2) Dim.keys) 0.

(** [sum(v**2 for v in vec.values())], on integers. *)
Definition sum_squares (vec : Dim.t Z) : Z :=
  List.fold_left Z.add (List.map (fun v => v ^ 2) (Dim.values vec)) 0.

(** [math.sqrt(sum(v**2 for v in vec.values()))] *)
Definition magnitude (vec : Dim.t Z) : float :=
  PrimFloat.sqrt (float_of_Z (sum_squares vec)).

Definition cosine_similarity (vec1 vec2 : Dim.t Z) : float :=
  let dot_product := dot vec1 vec2 in
  let mag1 := magnitude vec1 in
  let mag2 := magnitude vec2 in
  if (PrimFloat.eqb mag1 0 || PrimFloat.eqb mag2 0)%bool then 0%float
  else (float_of_Z dot_product / (mag1 * mag2))%float.

(** One turn of the loop of [match_tier]. *)
Definition match_step (profile_vector : Dim.t Z)
    (best : option tier * float) (t : tier) : option tier * float :=
  let similarity := cosine_similarity profile_vector (TIER_PROFILES t) in
  if PrimFloat.ltb (snd best) similarity then (Some t, similarity)
  else best.

Definition match_tier (profile_vector : Dim.t Z) : option tier * float :=
  List.fold_left (match_step profile_vector) tiers (None, (-1)%float).

Definition tier_order : list tier := [beginner; intermediate; advanced].

(** [tier_order.index(current_tier)] *)
Definition tier_index (current_tier : tier) : Z :=
  match current_tier with
  | beginner => 0
  | intermediate => 1
  | advanced => 2
  end.

Definition next_tier (current_tier : tier) : tier :=
  let current_idx := tier_index current_tier in
  if current_idx =? 2 then advanced
  else List.nth (Z.to_nat (current_idx + 1)) tier_order advanced.

Definition compute_gaps (profile_vector : Dim.t Z) (current_tier : tier)
  : Dim.t Z :=
  let next_profile := TIER_PROFILES (next_tier current_tier) in
  Dim.mk
    (Z.max 0 (Dim.structure next_profile - Dim.structure profile_vector))
    (Z.max 0 (Dim.documentation next_profile
              - Dim.documentation profile_vector))
    (Z.max 0 (Dim.tests next_profile - Dim.tests profile_vector))
    (Z.max 0 (Dim.commits next_profile - Dim.commits profile_vector))
    (Z.max 0 (Dim.dependencies next_profile
              - Dim.dependencies profile_vector)).

End TierProfile.

(* ================================================================== *)
(** ** Exceptions *)

Module Exc.

(** What a call does: it returns a value or raises an exception, kept
    as the text [str(e)] of the exception. *)
Inductive outcome (A : Type) : Type :=
| Returned (a : A)
| Raised (e : string).

Arguments Returned {A} _.
Arguments Raised {A} _.

Definition bind {A B : Type} (m : outcome A) (k : A -> outcome B)
  : outcome B :=
  match m with
  | Returned a => k a
  | Raised e => Raised e
  end.

Definition is_raised {A : Type} (m : outcome A) : bool :=
  match m with Returned _ => false | Raised _ => true end.

End Exc.

Notation "x <- m ;; k" := (Exc.bind m (fun x => k))
  (at level 61, m at next level, right associativity).

(* ================================================================== *)
(** ** analyzer.py *)

Module Analyzer.

Import Exc.

(** The dict [get_repo_info] builds; it is passed through untouched. *)
Record RepoInfo : Type :=
  { name : option string; description : option string;
    stars : Z; forks : Z }.

(** The fetcher, seen from [analyze]: what each of its six calls does
    during this analysis. *)
Record GitHubFetcher : Type :=
  { get_repo_info : outcome RepoInfo;
    get_file_tree : outcome (list Signals.FileTreeEntry);
    get_readme : outcome string;
    get_commits : outcome (list Signals.Commit);
    get_branches : outcome (list string);
    get_languages : outcome (list (string * Z)) }.

(** The record returned on success. *)
Record Report : Type :=
  { score : Z;
    tier : string;
    tier_similarity : float;
    profile : Dim.t Z;
    gaps : Dim.t Z;
    signals : Dim.t string;
    summary : string;
    roadmap : list string;
    repo_info : RepoInfo;
    commit_count : Z;
    branch_count : Z;
    languages : list (string * Z);
    status : string }.

(** The record returned on failure: these two keys and no other. *)
Record ErrorRecord : Type := { error : string; error_status : string }.

Inductive AnalysisResult : Type :=
| Success (r : Report)
| Failure (r : ErrorRecord).

(** *** The roadmap *)

Definition display_roadmap (dimension : Dim.key) : string :=
  match dimension with
  | Dim.Structure =>
      "📁 Reorganize into semantic folders (src/, tests/, docs/, config/) instead of utils/helpers"
  | Dim.Documentation =>
      "📝 Add comprehensive README: Overview, Setup, Usage, Architecture sections with code examples"
  | Dim.Tests =>
      "✅ Implement test strategy: unit tests for core logic, integration tests for APIs, coverage >70%"
  | Dim.Commits =>
      "📌 Use conventional commits (feat:, fix:, docs:) with descriptive messages, commit regularly"
  | Dim.Dependencies =>
      "📦 Add lock files (package-lock.json, poetry.lock) and pin dependency versions"
  end.

Definition high_message (dimension : Dim.key) : string :=
  "🔥 HIGH PRIORITY: " ++ display_roadmap dimension.

Definition medium_message (dimension : Dim.key) : string :=
  "📈 " ++ display_roadmap dimension.

Definition advanced_recommendations : list string :=
  ["🚀 Add GitHub Actions for CI/CD: automated testing and deployment";
   "🌐 Set up issue templates and project boards for better collaboration";
   "📊 Add code coverage badges and dependency update workflows"].

Definition fallback_message : string :=
  "🌟 Excellent repository! Consider open-sourcing or contributing to existing projects.".

(** The body of each [for dimension, gap in gaps.items()] loop:
    [emit] the message of every dimension whose gap passes [test]. *)
Definition for_gaps (gaps : Dim.t Z) (test : Z -> bool)
    (emit : Dim.key -> string) (roadmap : list string) : list string :=
  List.fold_left
    (fun roadmap item =>
       if test (snd item) then (roadmap ++ [emit (fst item)])%list
       else roadmap)
    (Dim.items gaps) roadmap.

Definition _generate_roadmap (gaps profile : Dim.t Z) : list string :=
  let roadmap := [] in
  let roadmap := for_gaps gaps (fun gap => gap >? 8) high_message roadmap in
  let roadmap :=
    for_gaps gaps (fun gap => (4 <=? gap) && (gap <=? 8))%bool
             medium_message roadmap in
  let roadmap :=
    if Dim.sum profile >? 80 then (roadmap ++ advanced_recommendations)%list
    else roadmap in
  let roadmap :=
    match roadmap with
    | [] => [fallback_message]
    | _ :: _ => roadmap
    end in
  List.firstn 5 roadmap.

(** *** The summary *)

(** [sorted(l, key=lambda x: x[1])], and with [reverse=True] when
    [before] is [>=]: an insertion sort that keeps equal keys in their
    original order, as Python's sort does. *)
Fixpoint insert_by (before : Z -> Z -> bool) (x : Dim.key * Z)
    (l : list (Dim.key * Z)) : list (Dim.key * Z) :=
  match l with
  | [] => [x]
  | y :: l' =>
      if before (snd x) (snd y) then x :: l
      else y :: insert_by before x l'
  end.

Definition sorted_by (before : Z -> Z -> bool) (l : list (Dim.key * Z))
  : list (Dim.key * Z) :=
  List.fold_right (insert_by before) [] l.

Definition display_names (k : Dim.key) : string :=
  match k with
  | Dim.Structure => "Project Structure"
  | Dim.Documentation => "Documentation"
  | Dim.Tests => "Testing"
  | Dim.Commits => "Commit Quality"
  | Dim.Dependencies => "Dependency Management"
  end.

Definition make_summary (profile_vector : Dim.t Z) : string :=
  let strengths :=
    List.firstn 2 (sorted_by Z.geb (Dim.items profile_vector)) in
  let weaknesses :=
    List.firstn 2 (sorted_by Z.leb (Dim.items profile_vector)) in
  let strength_names := List.map (fun s => display_names (fst s)) strengths in
  let weakness_names := List.map (fun w => display_names (fst w)) weaknesses in
  "Strong in " ++ PyStr.join ", " strength_names
  ++ ". Needs improvement in " ++ PyStr.join ", " weakness_names ++ ".".

(** [min(100, max(0, score))] *)
Definition clamp_score (score : Z) : Z := Z.min 100 (Z.max 0 score).

Section Analyze.

(** [base64.b64decode(s).decode('utf-8')], a collaborator of the
    analysis: it returns the decoded text or raises. *)
Variable b64decode_utf8 : string -> outcome string.

(** The README decoding, with its own [try]/[except]. *)
Definition decode_readme (readme_content : string) : string :=
  if PyStr.truthy readme_content then
    if PyStr.len readme_content >? 100 then
      match b64decode_utf8 readme_content with
      | Returned text => text
      | Raised _ => PyStr.take 2000 readme_content
      end
    else readme_content
  else "".

(** The body of the [try] of [analyze]. *)
Definition analyze_body (fetcher : GitHubFetcher) : outcome Report :=
  repo_info <- get_repo_info fetcher ;;
  file_tree <- get_file_tree fetcher ;;
  readme_content <- get_readme fetcher ;;
  commits <- get_commits fetcher ;;
  branches <- get_branches fetcher ;;
  languages <- get_languages fetcher ;;
  let readme := decode_readme readme_content in
  let detector :=
    Signals.init file_tree readme commits branches languages in
  let signals := Signals.get_all_signals detector in
  let profile_vector := TierProfile.compute_profile_vector signals in
  let matched := TierProfile.match_tier profile_vector in
  let similarity := snd matched in
  (* [tier_order.index(None)] raises when no tier was chosen *)
  tier <- match fst matched with
          | Some t => Returned t
          | None => Raised "None is not in list"
          end ;;
  let gaps := TierProfile.compute_gaps profile_vector tier in
  let score := Dim.sum profile_vector in
  Returned
    {| score := clamp_score score;
       tier := PyStr.title (TierProfile.tier_name tier);
       (* before the rounding to one decimal for display *)
       tier_similarity := (similarity * 100)%float;
       profile := profile_vector;
       gaps := gaps;
       signals := Dim.map snd signals;
       summary := make_summary profile_vector;
       roadmap := _generate_roadmap gaps profile_vector;
       repo_info := repo_info;
       commit_count := Z.of_nat (List.length commits);
       branch_count := Z.of_nat (List.length branches);
       languages := languages;
       status := "success" |}.

(** [analyze]: the [try] body, and the [except Exception] around it. *)
Definition analyze (fetcher : GitHubFetcher) : AnalysisResult :=
  match analyze_body fetcher with
  | Returned report => Success report
  | Raised e =>
      Failure {| error := "Analysis failed: " ++ e;
                 error_status := "error" |}
  end.

End Analyze.

End Analyzer.

(* ================================================================== *)
(** ** github_fetcher.py *)

Module Fetcher.

Import Exc.

(** [s.rstrip(c)] for a one-character set. *)
Fixpoint rstrip (c : ascii) (s : string) : string :=
  match s with
  | EmptyString => EmptyString
  | String a s' =>
      match rstrip c s' with
      | EmptyString =>
          if Ascii.eqb a c then EmptyString else String a EmptyString
      | String b r => String a (String b r)
      end
  end.

(** [l[-k]] for [k] at least 1: the [k]-th element from the end, or
    [IndexError]. *)
Definition from_end (k : nat) (l : list string) : outcome string :=
  if Nat.ltb (List.length l) k then Raised "list index out of range"
  else Returned (List.nth (List.length l - k) l EmptyString).

Record GitHubFetcher : Type :=
  { owner : string; repo : string; repo_url : string }.

(** [GitHubFetcher.__init__] *)
Definition init (repo_url : string) : outcome GitHubFetcher :=
  let parts := PyStr.split "/" (rstrip "/" repo_url) in
  owner <- from_end 2 parts ;;
  repo <- from_end 1 parts ;;
  Returned {| owner := owner; repo := repo; repo_url := repo_url |}.

(** What [requests.get] gives back when it returns: the status code and
    what [response.json()] does, which is to return the parsed body or to
    raise. *)
Record Response (A : Type) : Type :=
  { status_code : Z; json : outcome A }.

Arguments status_code {A} _.
Arguments json {A} _.

(** The body of the README endpoint, read through
    [.get("content", "")]. *)
Record ReadmeJson : Type := { content : option string }.

(** The body of the tree endpoint, read through [.get("tree", [])]. *)
Record TreeJson : Type := { tree : option (list Signals.FileTreeEntry) }.

(** One item of the commits endpoint, read through
    [c.get("commit", {}).get("message", "")],
    [c.get("commit", {}).get("author", {}).get("name", "")],
    [c.get("commit", {}).get("author", {}).get("date", "")] and
    [c.get("sha", "")]. *)
Record AuthorJson : Type :=
  { author_name : option string; author_date : option string }.

Record CommitBodyJson : Type :=
  { body_message : option string; body_author : option AuthorJson }.

Record CommitJson : Type :=
  { commit : option CommitBodyJson; commit_sha : option string }.

(** [d.get(key, "")] on an optional string. *)
Definition or_empty (v : option string) : string :=
  match v with Some x => x | None => EmptyString end.

(** [c.get("commit", {})] and [.get("author", {})]: a missing dict reads
    as the empty dict. *)
Definition body_of (c : CommitJson) : CommitBodyJson :=
  match commit c with
  | Some b => b
  | None => {| body_message := None; body_author := None |}
  end.

Definition author_of (b : CommitBodyJson) : AuthorJson :=
  match body_author b with
  | Some a => a
  | None => {| author_name := None; author_date := None |}
  end.

(** The dict built for one commit. *)
Definition commit_record (c : CommitJson) : Signals.Commit :=
  {| Signals.message := Some (or_empty (body_message (body_of c)));
     Signals.author := or_empty (author_name (author_of (body_of c)));
     Signals.date := or_empty (author_date (author_of (body_of c)));
     Signals.sha := or_empty (commit_sha c) |}.

Section Requests.

(** [response.raise_for_status()], a method of the HTTP library: it
    returns or raises, by the status of the response. *)
Variable raise_for_status : forall A : Type, Response A -> outcome unit.

Definition get_file_tree (http : outcome (Response TreeJson))
  : outcome (list Signals.FileTreeEntry) :=
  response <- http ;;
  _ <- raise_for_status TreeJson response ;;
  data <- json response ;;
  Returned (match tree data with Some t => t | None => [] end).

Definition get_readme (http : outcome (Response ReadmeJson))
  : outcome string :=
  response <- http ;;
  if status_code response =? 200 then
    data <- json response ;;
    Returned (or_empty (content data))
  else Returned EmptyString.

Definition get_commits (http : outcome (Response (list CommitJson)))
  : outcome (list Signals.Commit) :=
  response <- http ;;
  _ <- raise_for_status (list CommitJson) response ;;
  commits <- json response ;;
  Returned (List.map commit_record commits).

Definition get_languages (http : outcome (Response (list (string * Z))))
  : outcome (list (string * Z)) :=
  response <- http ;;
  _ <- raise_for_status (list (string * Z)) response ;;
  json response.

End Requests.

End Fetcher.

(* ================================================================== *)
(** ** app.py *)

Module App.

Import Exc.

(** [s.lstrip()], [s.rstrip()] and [s.strip()]: white space removed at
    the ends. *)
Fixpoint lstrip (s : string) : string :=
  match s with
  | EmptyString => EmptyString
  | String c s' => if PyStr.is_space c then lstrip s' else s
  end.

Fixpoint rstrip (s : string) : string :=
  match s with
  | EmptyString => EmptyString
  | String a s' =>
      match rstrip s' with
      | EmptyString =>
          if PyStr.is_space a then EmptyString else String a EmptyString
      | String b r => String a (String b r)
      end
  end.

Definition strip (s : string) : string := lstrip (rstrip s).

(** The body of the response: the record [analyze] returned, or the
    dict with the one key "error". *)
Inductive Body : Type :=
| Result (r : Analyzer.AnalysisResult)
| ErrorOnly (error : string).

Section Route.

Variable b64decode_utf8 : string -> outcome string.

(** The network, seen from the route: what the six fetch calls of a
    fetcher do. *)
Variable network : Fetcher.GitHubFetcher -> Analyzer.GitHubFetcher.

(** The route [/analyze], from the field "repo_url" of the request body
    (absent, or a string) to the body and the status of the response. *)
Definition analyze (repo_url_field : option string) : Body * Z :=
  let repo_url := strip (Fetcher.or_empty repo_url_field) in
  if negb (PyStr.truthy repo_url) then
    (ErrorOnly "Please provide a repository URL", 400)
  else
    match Fetcher.init repo_url with
    | Returned fetcher =>
        (Result (Analyzer.analyze b64decode_utf8 (network fetcher)), 200)
    | Raised e => (ErrorOnly ("Analysis failed: " ++ e), 500)
    end.

End Route.

End App.

(* ================================================================== *)
(** * The vocabulary of the specification *)

Import Signals.
Import TierProfile.

(** The documentation score as the specification words it: the bonus of
    3 is granted when the README holds a fenced code block. *)
Definition documentation_formula (readme : string) : Z :=
  match readme with
  | EmptyString => 0
  | String _ _ =>
      Z.min 20 (Signals.found_sections (PyStr.lower readme) * 3
                + 3 * (if PyStr.contains "```" readme then 1 else 0)
                + 2 * (if PyStr.len readme >? 500 then 1 else 0))
  end.

(** The unit and integration flags of the tests signal, over the test
    files. *)
Definition has_unit (test_files : list string) : bool :=
  existsb (fun f => PyStr.contains "unit" (PyStr.lower f)
                    || PyStr.contains "_test" f)%bool test_files.

Definition has_integration (test_files : list string) : bool :=
  existsb (fun f => PyStr.contains "integration" (PyStr.lower f)
                    || PyStr.contains "e2e" (PyStr.lower f))%bool test_files.

(** [f z] for every integer [z] from 0 to [n]. *)
Fixpoint all_upto (n : nat) (f : Z -> bool) : bool :=
  match n with
  | O => f 0
  | S k => (f (Z.of_nat n) && all_upto k f)%bool
  end.

(** [int(x)] for a finite float: truncation toward zero. *)
Definition int_of_float (x : float) : Z :=
  match Prim2SF x with
  | S754_finite s m e =>
      let v := match e with
               | Zneg k => Z.shiftr (Zpos m) (Zpos k)
               | _ => Z.shiftl (Zpos m) e
               end in
      if s then - v else v
  | _ => 0
  end.

(** The score of [signal_commits] as the source computes it, in
    binary64, from the sum [k] of the two counters and the length [n] of
    the commit list. *)
Definition commits_score_binary64 (k n : Z) : Z :=
  let quality_ratio :=
    (TierProfile.float_of_Z k / TierProfile.float_of_Z (Z.max n 1))%float in
  Z.min 20 (int_of_float (quality_ratio * 20)%float).

(** A profile vector as the data model has it: every score in [0,20]. *)
Definition in_range (p : Dim.t Z) : Prop :=
  forall k, 0 <= Dim.get k p <= 20.

Definition zero_vector : Dim.t Z := Dim.mk 0 0 0 0 0.

(** The tier immediately above, "advanced" staying where it is. *)
Definition tier_above (t : TierProfile.tier) : TierProfile.tier :=
  match t with
  | TierProfile.beginner => TierProfile.intermediate
  | TierProfile.intermediate => TierProfile.advanced
  | TierProfile.advanced => TierProfile.advanced
  end.

(** Between 1 - 2^-52 and 1 + 2^-52: the binary64 numbers within one
    rounding step of 1. *)
Definition near_one (x : float) : bool :=
  (PrimFloat.leb 0x1.ffffffffffffep-1 x
   && PrimFloat.leb x 0x1.0000000000001p+0)%bool.

(** [cosine_similarity v v] as a function of the sum of squares of [v]. *)
Definition self_similarity (s : Z) : float :=
  let mag := PrimFloat.sqrt (TierProfile.float_of_Z s) in
  (TierProfile.float_of_Z s / (mag * mag))%float.

(** The loop of [match_tier] on the three similarities. *)
Definition pick (sb si sa : float) : option TierProfile.tier * float :=
  List.fold_left
    (fun best ts =>
       if PrimFloat.ltb (snd best) (snd ts) then (Some (fst ts), snd ts)
       else best)
    [(TierProfile.beginner, sb); (TierProfile.intermediate, si);
     (TierProfile.advanced, sa)]
    (None, (-1)%float).

Definition sim_of (sb si sa : float) (t : TierProfile.tier) : float :=
  match t with
  | TierProfile.beginner => sb
  | TierProfile.intermediate => si
  | TierProfile.advanced => sa
  end.

(** The chosen tier has the highest similarity, and every tier before it
    a strictly lower one. *)
Definition decision_ok (sb si sa : float) : bool :=
  match fst (pick sb si sa) with
  | None => false
  | Some t =>
      forallb
        (fun t' =>
           PrimFloat.leb (sim_of sb si sa t') (sim_of sb si sa t)
           && (if TierProfile.tier_index t' <? TierProfile.tier_index t
               then PrimFloat.ltb (sim_of sb si sa t') (sim_of sb si sa t)
               else true))%bool
        TierProfile.tiers
  end.

(** [cosine_similarity] from the two magnitudes and the dot product. *)
Definition cos_of (mag1 : float) (dot_product : Z) (mag2 : float) : float :=
  if (PrimFloat.eqb mag1 0 || PrimFloat.eqb mag2 0)%bool then 0%float
  else (TierProfile.float_of_Z dot_product / (mag1 * mag2))%float.

Definition mag_beginner : float :=
  Eval vm_compute in TierProfile.magnitude
                       (TierProfile.TIER_PROFILES TierProfile.beginner).
Definition mag_intermediate : float :=
  Eval vm_compute in TierProfile.magnitude
                       (TierProfile.TIER_PROFILES TierProfile.intermediate).
Definition mag_advanced : float :=
  Eval vm_compute in TierProfile.magnitude
                       (TierProfile.TIER_PROFILES TierProfile.advanced).

(** [decision_ok] from the sum of squares of the profile and its dot
    products with the three references. *)
Definition tier_check (ss db di da : Z) : bool :=
  let mag := PrimFloat.sqrt (TierProfile.float_of_Z ss) in
  decision_ok (cos_of mag db mag_beginner) (cos_of mag di mag_intermediate)
              (cos_of mag da mag_advanced).

(** *** The check over all profiles, on primitive integers

    The same computation again with the sums held in 63-bit machine
    integers, which the kernel evaluates much faster than [Z]; the
    lemmas below carry its result back to [tier_check]. *)

(** [f i] for the [fuel] integers from [i] on. *)
Fixpoint all_from (fuel : nat) (i : int) (f : int -> bool) : bool :=
  match fuel with
  | O => true
  | S k => if f i then all_from k (i + 1)%uint63 f else false
  end.

(** What [decision_ok] asks of the chosen tier [t]. *)
Definition ok_at (t : TierProfile.tier) (sb si sa : float) : bool :=
  let s := sim_of sb si sa t in
  (PrimFloat.leb sb s && PrimFloat.leb si s && PrimFloat.leb sa s
   && match t with
      | TierProfile.beginner => true
      | TierProfile.intermediate => PrimFloat.ltb sb s
      | TierProfile.advanced => PrimFloat.ltb sb s && PrimFloat.ltb si s
      end)%bool.

(** [decision_ok], the loop unrolled. *)
Definition decision_tree (sb si sa : float) : bool :=
  if PrimFloat.ltb (-1) sb then
    if PrimFloat.ltb sb si then
      if PrimFloat.ltb si sa then ok_at TierProfile.advanced sb si sa
      else ok_at TierProfile.intermediate sb si sa
    else
      if PrimFloat.ltb sb sa then ok_at TierProfile.advanced sb si sa
      else ok_at TierProfile.beginner sb si sa
  else false.

Definition cos63 (mag1 : float) (dot_product : int) (mag2 : float) : float :=
  if (PrimFloat.eqb mag1 0 || PrimFloat.eqb mag2 0)%bool then 0%float
  else (PrimFloat.of_uint63 dot_product / (mag1 * mag2))%float.

Definition tier_check63 (ss db di da : int) : bool :=
  let mag := PrimFloat.sqrt (PrimFloat.of_uint63 ss) in
  decision_tree (cos63 mag db mag_beginner) (cos63 mag di mag_intermediate)
                (cos63 mag da mag_advanced).

(** One loop per dimension, over the scores below [n]; the sum of
    squares and the three dot products are built up one dimension at a
    time. *)
Definition check_dependencies (n : nat) (ss db di da : int) : bool :=
  all_from n 0%uint63 (fun e =>
    tier_check63 (ss + e * e) (db + e * 2) (di + e * 12)
                 (da + e * 18))%uint63.

Definition check_commits (n : nat) (ss db di da : int) : bool :=
  all_from n 0%uint63 (fun d =>
    check_dependencies n (ss + d * d) (db + d * 4) (di + d * 12)
                       (da + d * 16))%uint63.

Definition check_tests (n : nat) (ss db di da : int) : bool :=
  all_from n 0%uint63 (fun c =>
    check_commits n (ss + c * c) (db + c * 0) (di + c * 10)
                  (da + c * 18))%uint63.

Definition check_documentation (n : nat) (ss db di da : int) : bool :=
  all_from n 0%uint63 (fun b =>
    check_tests n (ss + b * b) (db + b * 3) (di + b * 12)
                (da + b * 18))%uint63.

Definition tier_check_all (n : nat) : bool :=
  all_from n 0%uint63 (fun a =>
    check_documentation n (a * a) (a * 5) (a * 14) (a * 18))%uint63.

(** A vector with sum of squares [s] is the zero vector, or has a
    non-zero magnitude and a similarity to itself that is [near_one]. *)
Definition self_check (s : Z) : bool :=
  ((s =? 0)
   || (negb (PrimFloat.eqb (PrimFloat.sqrt (TierProfile.float_of_Z s)) 0)
       && near_one (self_similarity s)))%bool.

(** The priority band of a roadmap message: 0 for a high-priority
    message, 1 for a medium-priority one, 2 for the three advanced
    recommendations and 3 for anything else, which in a roadmap is the
    fallback message. *)
Definition priority (s : string) : nat :=
  if PyStr.startswith s "🔥 HIGH PRIORITY: " then 0%nat
  else if PyStr.startswith s "📈 " then 1%nat
  else if mem_str s Analyzer.advanced_recommendations then 2%nat
  else 3%nat.

Definition by_priority (x y : string) : Prop :=
  (priority x <= priority y)%nat.

(** The first fetch stage that raises, in the order [analyze] calls
    them, with the text of its exception. *)
Definition first_failure (fetcher : Analyzer.GitHubFetcher)
  : option string :=
  match Analyzer.get_repo_info fetcher with
  | Exc.Raised e => Some e
  | Exc.Returned _ =>
  match Analyzer.get_file_tree fetcher with
  | Exc.Raised e => Some e
  | Exc.Returned _ =>
  match Analyzer.get_readme fetcher with
  | Exc.Raised e => Some e
  | Exc.Returned _ =>
  match Analyzer.get_commits fetcher with
  | Exc.Raised e => Some e
  | Exc.Returned _ =>
  match Analyzer.get_branches fetcher with
  | Exc.Raised e => Some e
  | Exc.Returned _ =>
  match Analyzer.get_languages fetcher with
  | Exc.Raised e => Some e
  | Exc.Returned _ => None
  end end end end end end.

(** Some fetch stage raises. *)
Definition some_fetch_raises (fetcher : Analyzer.GitHubFetcher) : bool :=
  (Exc.is_raised (Analyzer.get_repo_info fetcher)
   || Exc.is_raised (Analyzer.get_file_tree fetcher)
   || Exc.is_raised (Analyzer.get_readme fetcher)
   || Exc.is_raised (Analyzer.get_commits fetcher)
   || Exc.is_raised (Analyzer.get_branches fetcher)
   || Exc.is_raised (Analyzer.get_languages fetcher))%bool.

(** The two counters, each as a count over the inspected messages. *)
Definition conventional_count (cs : list Commit) : Z :=
  count_if (fun c => is_conventional (PyStr.lower (get_message c)))
           (List.firstn 50 cs).

Definition descriptive_count (cs : list Commit) : Z :=
  count_if (fun c => is_descriptive (PyStr.lower (get_message c)))
           (List.firstn 50 cs).

(** Sample inputs. *)
Definition commit_of (m : string) : Commit :=
  {| message := Some m; author := "dev"; date := "2024-01-01"; sha := "0" |}.

Definition detector_of_commits (cs : list Commit) : SignalDetector :=
  init [] "" cs [] [].

Definition entry_of (p : string) : FileTreeEntry := {| path := Some p |}.

Definition detector_of_tree (tree : list FileTreeEntry) : SignalDetector :=
  init tree "" [] [] [].

Definition failing_fetcher : Analyzer.GitHubFetcher :=
  {| Analyzer.get_repo_info :=
       Exc.Returned {| Analyzer.name := Some "repo";
                       Analyzer.description := None;
                       Analyzer.stars := 3; Analyzer.forks := 0 |};
     Analyzer.get_file_tree :=
       Exc.Returned [ {| path := Some "src/app.py" |} ];
     Analyzer.get_readme := Exc.Returned "";
     Analyzer.get_commits := Exc.Raised "404 Client Error: Not Found";
     Analyzer.get_branches := Exc.Returned ["main"];
     Analyzer.get_languages := Exc.Returned [("Python", 1200)] |}.

Definition working_fetcher : Analyzer.GitHubFetcher :=
  {| Analyzer.get_repo_info :=
       Exc.Returned {| Analyzer.name := Some "repo";
                       Analyzer.description := None;
                       Analyzer.stars := 3; Analyzer.forks := 0 |};
     Analyzer.get_file_tree :=
       Exc.Returned [ {| path := Some "src/app.py" |};
                      {| path := Some "tests/test_app.py" |};
                      {| path := Some "requirements.txt" |} ];
     Analyzer.get_readme := Exc.Returned "Overview";
     Analyzer.get_commits := Exc.Returned [commit_of "feat: first version"];
     Analyzer.get_branches := Exc.Returned ["main"];
     Analyzer.get_languages := Exc.Returned [("Python", 1200)] |}.

(** The dimensions with a high and with a medium gap, in key order. *)
Definition high_dimensions (gaps : Dim.t Z) : list Dim.key :=
  List.filter (fun k => Dim.get k gaps >? 8) Dim.keys.

Definition medium_dimensions (gaps : Dim.t Z) : list Dim.key :=
  List.filter (fun k => (4 <=? Dim.get k gaps) && (Dim.get k gaps <=? 8))%bool
              Dim.keys.

(** The messages of a roadmap before the fallback and the truncation. *)
Definition roadmap_messages (gaps profile : Dim.t Z) : list string :=
  (List.map Analyzer.high_message (high_dimensions gaps)
   ++ List.map Analyzer.medium_message (medium_dimensions gaps)
   ++ (if Dim.sum profile >? 80 then Analyzer.advanced_recommendations
       else []))%list.

(** The two counts of the structure signal, on a list of folder names. *)
Definition good_count (folders : list string) : Z :=
  count_if (fun f => mem_str (PyStr.lower f) semantic_good) folders.

Definition bad_count (folders : list string) : Z :=
  count_if (fun f => mem_str (PyStr.lower f) semantic_bad) folders.

(** The entries of a tree that name a dependency file, and a lock file. *)
Definition dep_count (tree : list FileTreeEntry) : Z :=
  count_if (fun item => existsb (fun df => PyStr.contains df (get_path item))
                                dep_names) tree.

Definition lock_count (tree : list FileTreeEntry) : Z :=
  count_if (fun item => existsb (fun lf => PyStr.contains lf (get_path item))
                                lock_names) tree.

(** The characters of a string. *)
Fixpoint chars (s : string) : list ascii :=
  match s with
  | EmptyString => []
  | String c s' => c :: chars s'
  end.

(** The first segment of a path with a separator, if it has one. *)
Definition top_folder (item : FileTreeEntry) : option string :=
  match PyStr.split "/" (get_path item) with
  | p0 :: _ :: _ => Some p0
  | _ => None
  end.

(** The two lists the summary names: the first two dimensions of the
    profile sorted by falling score, and by rising score. *)
Definition strengths (profile : Dim.t Z) : list (Dim.key * Z) :=
  List.firstn 2 (Analyzer.sorted_by Z.geb (Dim.items profile)).

Definition weaknesses (profile : Dim.t Z) : list (Dim.key * Z) :=
  List.firstn 2 (Analyzer.sorted_by Z.leb (Dim.items profile)).

(** Between 0 and 1 + 2^-52. *)
Definition in_unit (x : float) : bool :=
  (PrimFloat.leb 0 x && PrimFloat.leb x 0x1.0000000000001p+0)%bool.

(** The three similarities of a profile lie [in_unit], from the sum of
    squares of the profile and its three dot products. *)
Definition sim_range_check (ss db di da : Z) : bool :=
  let mag := PrimFloat.sqrt (TierProfile.float_of_Z ss) in
  (in_unit (cos_of mag db mag_beginner)
   && in_unit (cos_of mag di mag_intermediate)
   && in_unit (cos_of mag da mag_advanced))%bool.

Definition sim_range_check63 (ss db di da : int) : bool :=
  let mag := PrimFloat.sqrt (PrimFloat.of_uint63 ss) in
  (in_unit (cos63 mag db mag_beginner)
   && in_unit (cos63 mag di mag_intermediate)
   && in_unit (cos63 mag da mag_advanced))%bool.

(** A check [leaf] on every profile with scores below [n], one loop per
    dimension as in [tier_check_all]. *)
Section Sweep.

Variable leaf : int -> int -> int -> int -> bool.

Definition sweep_dependencies (n : nat) (ss db di da : int) : bool :=
  all_from n 0%uint63 (fun e =>
    leaf (ss + e * e) (db + e * 2) (di + e * 12) (da + e * 18))%uint63.

Definition sweep_commits (n : nat) (ss db di da : int) : bool :=
  all_from n 0%uint63 (fun d =>
    sweep_dependencies n (ss + d * d) (db + d * 4) (di + d * 12)
                       (da + d * 16))%uint63.

Definition sweep_tests (n : nat) (ss db di da : int) : bool :=
  all_from n 0%uint63 (fun c =>
    sweep_commits n (ss + c * c) (db + c * 0) (di + c * 10)
                  (da + c * 18))%uint63.

Definition sweep_documentation (n : nat) (ss db di da : int) : bool :=
  all_from n 0%uint63 (fun b =>
    sweep_tests n (ss + b * b) (db + b * 3) (di + b * 12)
                (da + b * 18))%uint63.

Definition sweep_all (n : nat) : bool :=
  all_from n 0%uint63 (fun a =>
    sweep_documentation n (a * a) (a * 5) (a * 14) (a * 18))%uint63.

End Sweep.

(** A sample [raise_for_status]: an exception for the statuses from 400
    to 599. *)
Definition sample_raise_for_status (A : Type) (r : Fetcher.Response A)
  : Exc.outcome unit :=
  if (400 <=? Fetcher.status_code r) && (Fetcher.status_code r <? 600)
  then Exc.Raised "404 Client Error: Not Found"
  else Exc.Returned tt.

Definition sample_commit_items : list Fetcher.CommitJson :=
  [ {| Fetcher.commit := None; Fetcher.commit_sha := Some "a1" |};
    {| Fetcher.commit :=
         Some {| Fetcher.body_message := None;
                 Fetcher.body_author := None |};
       Fetcher.commit_sha := None |} ].

(* ================================================================== *)
(** * Properties *)

(** ** Counting and strings *)

Section Counting.

Context {A : Type}.
Variable f : A -> bool.

Lemma count_if_nil : count_if f [] = 0.
Proof. reflexivity. Qed.

Lemma count_if_cons (x : A) (l : list A) :
  count_if f (x :: l) = (if f x then 1 else 0) + count_if f l.
Proof.
  unfold count_if; simpl. destruct (f x); cbn [List.length]; lia.
Qed.

Lemma count_if_nonneg (l : list A) : 0 <= count_if f l.
Proof. unfold count_if. lia. Qed.

Lemma count_if_le_length (l : list A) :
  count_if f l <= Z.of_nat (List.length l).
Proof.
  unfold count_if. apply Nat2Z.inj_le, List.filter_length_le.
Qed.

Lemma count_if_pos_existsb (l : list A) :
  (count_if f l >? 0) = existsb f l.
Proof.
  induction l as [|x l IH]; [reflexivity|].
  rewrite count_if_cons. simpl existsb.
  pose proof (count_if_nonneg l) as Hl.
  destruct (f x); cbn [orb].
  - apply Z.gtb_lt. lia.
  - rewrite Z.add_0_l. exact IH.
Qed.

Lemma count_if_app (l1 l2 : list A) :
  count_if f (l1 ++ l2) = count_if f l1 + count_if f l2.
Proof.
  unfold count_if. rewrite List.filter_app, List.length_app. lia.
Qed.

End Counting.

Lemma length_filter_map {A B : Type} (g : A -> B) (f : A -> bool)
    (l : list A) :
  Z.of_nat (List.length (List.map g (List.filter f l))) = count_if f l.
Proof. unfold count_if. now rewrite List.length_map. Qed.

Lemma append_nonempty_r (s t : string) : t <> "" -> (s ++ t)%string <> "".
Proof.
  intros Ht H. destruct s; simpl in H; [contradiction | discriminate].
Qed.

Lemma append_nonempty_l (s t : string) : s <> "" -> (s ++ t)%string <> "".
Proof.
  intros Hs H. destruct s; [contradiction | discriminate].
Qed.

(* ================================================================== *)
(** ** The documentation signal *)


(** What the code computes on a non-empty README: the bonus of 3 is
    always granted, whatever the README holds. *)
Lemma signal_documentation_score (self : SignalDetector) :
  fst (signal_documentation self) =
    match readme self with
    | EmptyString => 0
    | String _ _ =>
        Z.min 20 (found_sections (PyStr.lower (readme self)) * 3 + 3
                  + (if PyStr.len (readme self) >? 500 then 2 else 0))
    end.
Proof.
  unfold signal_documentation. destruct (readme self); reflexivity.
Qed.

Lemma found_sections_bounds (s : string) : 0 <= found_sections s <= 5.
Proof.
  unfold found_sections. split.
  - apply count_if_nonneg.
  - apply (count_if_le_length _ sections).
Qed.

(** C1 (the code at the failing input): a README with no section
    keyword, no fenced code block and fewer than 500 characters scores 3,
    where the documented formula [documentation_formula] gives 0; the
    rationale reports examples that the README does not have. *)
Theorem signal_documentation_fence_always_counted :
  signal_documentation (init [] "hello" [] [] [])
    = (3, "Found 0/5 key sections, has examples")
  /\ documentation_formula "hello" = 0
  /\ PyStr.contains "```" "hello" = false.
Proof. repeat split; vm_compute; reflexivity. Qed.

(* ================================================================== *)
(** ** The tests signal *)

Section TestsSignal.

Variable self : SignalDetector.

(** The count of entries whose lower-cased path contains "test". *)
Let test_count : Z :=
  count_if (fun item => PyStr.contains "test" (PyStr.lower (get_path item)))
           (file_tree self).

Lemma test_files_length :
  Z.of_nat (List.length (test_files self)) = test_count.
Proof. unfold test_files. apply length_filter_map. Qed.

Lemma unit_flag :
  (unit_indicator self >? 0) = has_unit (test_files self).
Proof. apply count_if_pos_existsb. Qed.

Lemma integration_flag :
  (integration_indicator self >? 0) = has_integration (test_files self).
Proof. apply count_if_pos_existsb. Qed.

Lemma signal_tests_score :
  fst (signal_tests self) =
    if test_count =? 0 then 0
    else if (coverage_indicator self || config_indicator self)%bool then 18
    else if (has_unit (test_files self)
             && has_integration (test_files self))%bool then 15
    else if test_count >? 5 then 12
    else 6.
Proof.
  unfold signal_tests.
  rewrite test_files_length, unit_flag, integration_flag.
  destruct (test_count =? 0); [reflexivity|].
  destruct (coverage_indicator self || config_indicator self)%bool;
    [reflexivity|].
  destruct (has_unit (test_files self)
            && has_integration (test_files self))%bool; [reflexivity|].
  destruct (test_count >? 5); reflexivity.
Qed.

End TestsSignal.

Lemma existsb_contains_config (needle : string) (l : list string) :
  (needle = "pytest.ini" \/ needle = "jest.config" \/ needle = "vitest") ->
  existsb (PyStr.contains needle) l = true ->
  existsb (fun f => PyStr.contains "pytest.ini" f
                    || PyStr.contains "jest.config" f
                    || PyStr.contains "vitest" f)%bool l = true.
Proof.
  intros Hn H. apply List.existsb_exists in H as (f & Hin & Hf).
  apply List.existsb_exists. exists f. split; [exact Hin|].
  destruct Hn as [-> | [-> | ->]]; rewrite Hf;
    rewrite ?orb_true_r; reflexivity.
Qed.

(** C2: the tests signal follows the fixed decision order, first
    matching rule wins: 0 when no path contains "test"
    (case-insensitively), else 18 when the coverage or the config flag
    holds, else 15 when the unit and the integration flags both hold,
    else 12 when more than 5 paths contain "test", else 6; and a tree
    with 3 such paths, one of them containing "pytest.ini", scores 18. *)
Theorem signal_tests_decision_order (self : SignalDetector) :
  let test_count :=
    count_if (fun item => PyStr.contains "test" (PyStr.lower (get_path item)))
             (file_tree self) in
  fst (signal_tests self) =
    (if test_count =? 0 then 0
     else if (coverage_indicator self || config_indicator self)%bool then 18
     else if (has_unit (test_files self)
              && has_integration (test_files self))%bool then 15
     else if test_count >? 5 then 12
     else 6)
  /\ (test_count = 3 ->
      existsb (PyStr.contains "pytest.ini") (test_files self) = true ->
      fst (signal_tests self) = 18).
Proof.
  intro test_count. split.
  - apply signal_tests_score.
  - intros H3 Hini. rewrite signal_tests_score. fold test_count.
    rewrite H3. change (3 =? 0) with false. cbv iota.
    assert (Hcfg : config_indicator self = true).
    { unfold config_indicator.
      apply existsb_contains_config with (needle := "pytest.ini");
        [now left|].
      apply List.existsb_exists in Hini as (f & Hin & Hf).
      apply List.existsb_exists. exists f. split; [|exact Hf].
      unfold test_files in Hin. unfold all_paths.
      apply List.in_map_iff in Hin as (item & <- & Hitem).
      apply List.in_map. apply List.filter_In in Hitem. tauto. }
    rewrite Hcfg, orb_true_r. reflexivity.
Qed.

Lemma signal_tests_decision_order_witness :
  let self :=
    init [ {| path := Some "tests/test_api.py" |};
           {| path := Some "tests/test_db.py" |};
           {| path := Some "tests/pytest.ini" |};
           {| path := Some "README.md" |} ] "" [] [] [] in
  count_if (fun item => PyStr.contains "test" (PyStr.lower (get_path item)))
           (file_tree self) = 3
  /\ existsb (PyStr.contains "pytest.ini") (test_files self) = true
  /\ fst (signal_tests self) = 18.
Proof.
  intro self.
  assert (H3 : count_if
                 (fun item =>
                    PyStr.contains "test" (PyStr.lower (get_path item)))
                 (file_tree self) = 3) by (vm_compute; reflexivity).
  assert (Hini : existsb (PyStr.contains "pytest.ini") (test_files self)
                 = true) by (vm_compute; reflexivity).
  split; [exact H3 | split; [exact Hini|]].
  exact (proj2 (signal_tests_decision_order self) H3 Hini).
Defined.

(* ================================================================== *)
(** ** The commits signal *)

Lemma count_commits_loop (l : list Commit) (a b : Z) :
  List.fold_left
    (fun counts commit =>
       let msg := PyStr.lower (get_message commit) in
       (if is_conventional msg then fst counts + 1 else fst counts,
        if is_descriptive msg then snd counts + 1 else snd counts))
    l (a, b)
  = (a + count_if (fun c => is_conventional (PyStr.lower (get_message c))) l,
     b + count_if (fun c => is_descriptive (PyStr.lower (get_message c))) l).
Proof.
  revert a b. induction l as [|c l IH]; intros a b.
  - simpl. rewrite !count_if_nil. f_equal; lia.
  - cbn [List.fold_left]. cbv zeta. cbn [fst snd].
    rewrite IH, !count_if_cons.
    destruct (is_conventional _), (is_descriptive _); f_equal; lia.
Qed.

Lemma count_commits_counts (cs : list Commit) :
  count_commits cs = (conventional_count cs, descriptive_count cs).
Proof.
  unfold count_commits. apply (count_commits_loop (List.firstn 50 cs) 0 0).
Qed.

(** The floor of an exact quotient times 20 is an integer division. *)
Lemma Qfloor_ratio_times_20 (k : Z) (n : positive) :
  Qfloor ((inject_Z k / inject_Z (Zpos n)) * inject_Z 20)%Q
  = (k * 20) / Zpos n.
Proof.
  unfold Qdiv, Qinv, Qmult, inject_Z, Qfloor. cbn [Qnum Qden].
  rewrite Z.mul_1_r, Pos.mul_1_l, Pos.mul_1_r. reflexivity.
Qed.

Lemma signal_commits_score (self : SignalDetector) :
  fst (signal_commits self) =
    match commits self with
    | [] => 0
    | _ :: _ =>
        Z.min 20 ((conventional_count (commits self)
                   + descriptive_count (commits self)) * 20
                  / Z.of_nat (List.length (commits self)))
    end.
Proof.
  unfold signal_commits. destruct (commits self) as [|c cs] eqn:E;
    [reflexivity|].
  cbv zeta. cbn [fst]. rewrite count_commits_counts. cbn [fst snd].
  set (n := Z.of_nat (List.length (c :: cs))).
  assert (Hn : 1 <= n) by (subst n; cbn [List.length]; lia).
  rewrite Z.max_l by lia.
  destruct n as [|p|p] eqn:En; try lia.
  rewrite Qfloor_ratio_times_20. reflexivity.
Qed.

Lemma counts_le_inspected (cs : list Commit) :
  0 <= conventional_count cs + descriptive_count cs
    <= 2 * Z.min 50 (Z.of_nat (List.length cs)).
Proof.
  unfold conventional_count, descriptive_count.
  pose proof (count_if_nonneg
    (fun c => is_conventional (PyStr.lower (get_message c)))
    (List.firstn 50 cs)).
  pose proof (count_if_nonneg
    (fun c => is_descriptive (PyStr.lower (get_message c)))
    (List.firstn 50 cs)).
  pose proof (count_if_le_length
    (fun c => is_conventional (PyStr.lower (get_message c)))
    (List.firstn 50 cs)).
  pose proof (count_if_le_length
    (fun c => is_descriptive (PyStr.lower (get_message c)))
    (List.firstn 50 cs)).
  rewrite List.length_firstn in *. lia.
Qed.

Lemma signal_commits_range (self : SignalDetector) :
  0 <= fst (signal_commits self) <= 20.
Proof.
  rewrite signal_commits_score.
  destruct (commits self) as [|c cs]; [lia|].
  pose proof (counts_le_inspected (c :: cs)) as [H0 _].
  assert (0 <= (conventional_count (c :: cs) + descriptive_count (c :: cs))
               * 20 / Z.of_nat (List.length (c :: cs))).
  { apply Z.div_pos; [lia | cbn [List.length]; lia]. }
  lia.
Qed.

(** A message that starts with "feat:" still does once lower-cased. *)
Lemma prefix_lower (p s : string) :
  String.prefix p s = true ->
  String.prefix (PyStr.lower p) (PyStr.lower s) = true.
Proof.
  revert s. induction p as [|a p IH]; intros s H;
    [destruct s; reflexivity|].
  destruct s as [|b s]; [discriminate|]. simpl in H. simpl.
  destruct (ascii_dec a b) as [->|]; [|discriminate].
  destruct (ascii_dec (PyStr.lower_char b) (PyStr.lower_char b));
    [auto | congruence].
Qed.

Lemma feat_is_conventional (m : string) :
  PyStr.startswith m "feat:" = true ->
  is_conventional (PyStr.lower m) = true.
Proof.
  intro H. unfold is_conventional, conventional_prefixes.
  cbn [existsb]. unfold PyStr.startswith in *.
  apply prefix_lower in H. change (PyStr.lower "feat:") with "feat:" in H.
  rewrite H. reflexivity.
Qed.

Lemma count_if_all {A : Type} (f : A -> bool) (l : list A) :
  List.Forall (fun x => f x = true) l ->
  count_if f l = Z.of_nat (List.length l).
Proof.
  induction 1 as [|x l Hx _ IH]; [reflexivity|].
  rewrite count_if_cons, Hx, IH. cbn [List.length]. lia.
Qed.

(** C3: the commits signal is 0 on the empty list and otherwise
    min(20, floor((conventional + descriptive) / total * 20)), the two
    counts taken over the first 50 commits and the total over the whole
    list; it always lies in [0,20]; ten messages starting with "feat:"
    score 20; one message can count twice, which takes the ratio above 1;
    a hundred conventional commits, of which fifty are inspected, score
    10. *)
Theorem signal_commits_quality_ratio :
  (forall self : SignalDetector,
     let cs := commits self in
     let total_commit_count := Z.of_nat (List.length cs) in
     fst (signal_commits self) =
       match cs with
       | [] => 0
       | _ :: _ =>
           Z.min 20 ((conventional_count cs + descriptive_count cs) * 20
                     / total_commit_count)
       end
     /\ 0 <= fst (signal_commits self) <= 20
     /\ (List.length cs = 10%nat ->
         List.Forall
           (fun c => PyStr.startswith (get_message c) "feat:" = true) cs ->
         fst (signal_commits self) = 20))
  /\ (let cs := [commit_of "feat: add the new parser"] in
      conventional_count cs = 1 /\ descriptive_count cs = 1
      /\ fst (signal_commits (detector_of_commits cs)) = 20)
  /\ (let cs := List.repeat (commit_of "feat: x") 100 in
      conventional_count cs = 50 /\ descriptive_count cs = 0
      /\ fst (signal_commits (detector_of_commits cs)) = 10).
Proof.
  split; [|split; [|vm_compute; auto]; vm_compute; auto].
  intros self cs total. split; [apply signal_commits_score|].
  split; [apply signal_commits_range|].
  intros Hlen Hall. rewrite signal_commits_score. fold cs.
  destruct cs as [|c cs'] eqn:E; [discriminate|]. rewrite <- E in *.
  assert (Hconv : conventional_count cs = 10).
  { unfold conventional_count.
    rewrite List.firstn_all2 by (rewrite Hlen; lia).
    rewrite count_if_all; [rewrite Hlen; reflexivity|].
    eapply List.Forall_impl; [|exact Hall].
    intros a Ha. now apply feat_is_conventional. }
  pose proof (counts_le_inspected cs) as [_ Hup].
  assert (Hd : 0 <= descriptive_count cs).
  { apply count_if_nonneg. }
  rewrite Hconv, Hlen in *. change (Z.of_nat 10) with 10 in *.
  assert (20 <= (10 + descriptive_count cs) * 20 / 10).
  { apply Z.div_le_lower_bound; lia. }
  lia.
Qed.

Lemma signal_commits_quality_ratio_witness :
  let self := detector_of_commits (List.repeat (commit_of "feat: x") 10) in
  List.length (commits self) = 10%nat
  /\ List.Forall
       (fun c => PyStr.startswith (get_message c) "feat:" = true)
       (commits self)
  /\ fst (signal_commits self) = 20.
Proof.
  intro self.
  assert (Hlen : List.length (commits self) = 10%nat) by reflexivity.
  assert (Hall : List.Forall
                   (fun c => PyStr.startswith (get_message c) "feat:" = true)
                   (commits self)).
  { repeat constructor. }
  split; [exact Hlen | split; [exact Hall|]].
  exact (proj2 (proj2 (proj1 signal_commits_quality_ratio self)) Hlen Hall).
Defined.

(* ================================================================== *)
(** ** Exhaustive checks over a range of integers *)

Lemma all_upto_spec (n : nat) (f : Z -> bool) :
  all_upto n f = true -> forall z, 0 <= z <= Z.of_nat n -> f z = true.
Proof.
  induction n as [|n IH]; intros H z Hz.
  - replace z with 0 by lia. exact H.
  - cbn [all_upto] in H. apply andb_true_iff in H as [Hn Hrest].
    destruct (Z.eq_dec z (Z.of_nat (S n))) as [->|Hne]; [exact Hn|].
    apply IH; [exact Hrest | lia].
Qed.

(* ================================================================== *)
(** ** The commits signal in binary64 *)

(** On every pair of counts the pipeline can produce (at most 100
    counted messages, and a list of at most 400 commits where the
    fetcher asks for 100), the binary64 computation of the source and
    the exact one of [signal_commits] give the same score. *)
Lemma commits_score_binary64_agrees (k n : Z) :
  0 <= k <= 100 -> 0 <= n <= 400 ->
  commits_score_binary64 k n = Z.min 20 (k * 20 / Z.max n 1).
Proof.
  intros Hk Hn.
  assert (H : all_upto 100 (fun k => all_upto 400 (fun n =>
                commits_score_binary64 k n
                =? Z.min 20 (k * 20 / Z.max n 1))) = true)
    by (vm_cast_no_check (eq_refl true)).
  apply all_upto_spec with (z := k) in H; [|exact Hk].
  apply all_upto_spec with (z := n) in H; [|exact Hn].
  now apply Z.eqb_eq.
Qed.

(** So the score of [signal_commits] is the one the source computes in
    binary64, on every commit list of at most 400 commits. *)
Lemma signal_commits_binary64 (self : SignalDetector) :
  (List.length (commits self) <= 400)%nat ->
  fst (signal_commits self) =
    match commits self with
    | [] => 0
    | _ :: _ =>
        commits_score_binary64
          (conventional_count (commits self)
           + descriptive_count (commits self))
          (Z.of_nat (List.length (commits self)))
    end.
Proof.
  intro Hlen. rewrite signal_commits_score.
  destruct (commits self) as [|c cs] eqn:E; [reflexivity|].
  pose proof (counts_le_inspected (c :: cs)) as Hk.
  rewrite commits_score_binary64_agrees by lia.
  rewrite Z.max_l by (cbn [List.length]; lia). reflexivity.
Qed.

(* ================================================================== *)
(** ** Cosine similarity and the tier matcher *)


Lemma in_range_fields (a b c d e : Z) :
  in_range (Dim.mk a b c d e) ->
  0 <= a <= 20 /\ 0 <= b <= 20 /\ 0 <= c <= 20 /\ 0 <= d <= 20
  /\ 0 <= e <= 20.
Proof.
  intro H. repeat split;
    first [ apply (H Dim.Structure) | apply (H Dim.Documentation)
          | apply (H Dim.Tests) | apply (H Dim.Commits)
          | apply (H Dim.Dependencies) ].
Qed.

Lemma dot_self (v : Dim.t Z) : dot v v = sum_squares v.
Proof.
  destruct v as [a b c d e]. unfold dot, sum_squares. cbn. ring.
Qed.

Lemma cosine_similarity_cos_of (v1 v2 : Dim.t Z) :
  cosine_similarity v1 v2
  = cos_of (magnitude v1) (dot v1 v2) (magnitude v2).
Proof. reflexivity. Qed.

Lemma match_tier_pick (p : Dim.t Z) :
  match_tier p
  = pick (cosine_similarity p (TIER_PROFILES beginner))
         (cosine_similarity p (TIER_PROFILES intermediate))
         (cosine_similarity p (TIER_PROFILES advanced)).
Proof. reflexivity. Qed.

Lemma pick_snd (sb si sa : float) (t : tier) :
  fst (pick sb si sa) = Some t ->
  pick sb si sa = (Some t, sim_of sb si sa t).
Proof.
  unfold pick. cbn [List.fold_left fst snd].
  destruct (PrimFloat.ltb (-1) sb); cbn [fst snd];
    (destruct (PrimFloat.ltb _ si); cbn [fst snd]);
    (destruct (PrimFloat.ltb _ sa); cbn [fst snd]);
    intros [= <-]; reflexivity.
Qed.

Lemma decision_ok_spec (sb si sa : float) :
  decision_ok sb si sa = true ->
  exists t,
    pick sb si sa = (Some t, sim_of sb si sa t)
    /\ (forall t', PrimFloat.leb (sim_of sb si sa t') (sim_of sb si sa t)
                   = true)
    /\ (forall t', tier_index t' < tier_index t ->
                   PrimFloat.ltb (sim_of sb si sa t') (sim_of sb si sa t)
                   = true).
Proof.
  unfold decision_ok. destruct (fst (pick sb si sa)) as [t|] eqn:E;
    [|discriminate].
  intro H. exists t. split; [now apply pick_snd|].
  rewrite List.forallb_forall in H.
  assert (Hall : forall t', In t' tiers) by (intros []; cbn; tauto).
  split; intros t'; specialize (H t' (Hall t'));
    apply andb_true_iff in H as [Hle Hlt]; [exact Hle|].
  intro Hidx. apply Z.ltb_lt in Hidx. rewrite Hidx in Hlt. exact Hlt.
Qed.

(** *** Machine integers and the check over all profiles *)

Lemma decision_tree_ok (sb si sa : float) :
  decision_tree sb si sa = true -> decision_ok sb si sa = true.
Proof.
  unfold decision_tree, decision_ok, pick, ok_at.
  cbn [List.fold_left fst snd].
  destruct (PrimFloat.ltb (-1) sb); [|discriminate]. cbn [fst snd].
  destruct (PrimFloat.ltb sb si); cbn [fst snd];
    (destruct (PrimFloat.ltb _ sa) eqn:E3; cbn [fst snd sim_of];
     intro H;
     repeat match goal with
            | H : (_ && _)%bool = true |- _ =>
                apply andb_true_iff in H; destruct H
            end;
     cbn; repeat (apply andb_true_iff; split); auto).
Qed.

Lemma float_of_Z_to_Z (x : int) :
  float_of_Z (Uint63.to_Z x) = PrimFloat.of_uint63 x.
Proof.
  unfold float_of_Z. destruct (Uint63.to_Z x) eqn:E.
  - assert (x = 0%uint63) as ->
      by (apply Uint63.to_Z_inj; rewrite E; reflexivity).
    reflexivity.
  - rewrite <- E, Uint63.of_to_Z. reflexivity.
  - pose proof (Uint63.to_Z_bounded x). lia.
Qed.

Lemma wB_value : Uint63.wB = 9223372036854775808.
Proof. reflexivity. Qed.

Lemma to_Z_add_small (x y : int) :
  Uint63.to_Z x + Uint63.to_Z y < Uint63.wB ->
  Uint63.to_Z (x + y)%uint63 = Uint63.to_Z x + Uint63.to_Z y.
Proof.
  intro H. rewrite Uint63.add_spec. apply Z.mod_small.
  pose proof (Uint63.to_Z_bounded x). pose proof (Uint63.to_Z_bounded y).
  lia.
Qed.

Lemma to_Z_mul_small (x y : int) :
  Uint63.to_Z x <= 20 -> Uint63.to_Z y <= 20 ->
  Uint63.to_Z (x * y)%uint63 = Uint63.to_Z x * Uint63.to_Z y
  /\ 0 <= Uint63.to_Z x * Uint63.to_Z y <= 400.
Proof.
  intros Hx Hy.
  pose proof (Uint63.to_Z_bounded x). pose proof (Uint63.to_Z_bounded y).
  assert (Hb : 0 <= Uint63.to_Z x * Uint63.to_Z y <= 400) by nia.
  split; [|exact Hb].
  rewrite Uint63.mul_spec. apply Z.mod_small. rewrite wB_value. lia.
Qed.

Lemma to_Z_of_small (z : Z) :
  0 <= z <= 20 -> Uint63.to_Z (Uint63.of_Z z) = z.
Proof.
  intro H. rewrite Uint63.of_Z_spec. apply Z.mod_small.
  rewrite wB_value. lia.
Qed.

Lemma all_from_spec (fuel : nat) (f : int -> bool) :
  forall i : int,
    all_from fuel i f = true ->
    Uint63.to_Z i + Z.of_nat fuel < Uint63.wB ->
    forall z, Uint63.to_Z i <= z < Uint63.to_Z i + Z.of_nat fuel ->
              f (Uint63.of_Z z) = true.
Proof.
  induction fuel as [|k IH]; intros i H Hw z Hz; [lia|].
  cbn [all_from] in H. destruct (f i) eqn:Hi; [|discriminate].
  destruct (Z.eq_dec z (Uint63.to_Z i)) as [->|Hne].
  - now rewrite Uint63.of_to_Z.
  - assert (H1 : Uint63.to_Z (i + 1)%uint63 = Uint63.to_Z i + 1).
    { rewrite to_Z_add_small; change (Uint63.to_Z 1) with 1; lia. }
    apply (IH (i + 1)%uint63 H); rewrite H1; lia.
Qed.

Lemma tier_check_all_spec (n : nat) :
  tier_check_all n = true ->
  Z.of_nat n < Uint63.wB ->
  forall a b c d e : Z,
    0 <= a < Z.of_nat n -> 0 <= b < Z.of_nat n -> 0 <= c < Z.of_nat n ->
    0 <= d < Z.of_nat n -> 0 <= e < Z.of_nat n ->
    let ia := Uint63.of_Z a in let ib := Uint63.of_Z b in
    let ic := Uint63.of_Z c in let id := Uint63.of_Z d in
    let ie := Uint63.of_Z e in
    tier_check63 (ia * ia + ib * ib + ic * ic + id * id + ie * ie)%uint63
                 (ia * 5 + ib * 3 + ic * 0 + id * 4 + ie * 2)%uint63
                 (ia * 14 + ib * 12 + ic * 10 + id * 12 + ie * 12)%uint63
                 (ia * 18 + ib * 18 + ic * 18 + id * 16 + ie * 18)%uint63
    = true.
Proof.
  intros Hall Hn a b c d e Ha Hb Hc Hd He.
  assert (H0 : Uint63.to_Z 0%uint63 = 0) by reflexivity.
  unfold tier_check_all in Hall.
  pose proof (all_from_spec n _ 0%uint63 Hall) as Ha'.
  rewrite H0 in Ha'. specialize (Ha' Hn a Ha). cbv beta in Ha'.
  unfold check_documentation in Ha'.
  pose proof (all_from_spec n _ 0%uint63 Ha') as Hb'.
  rewrite H0 in Hb'. specialize (Hb' Hn b Hb). cbv beta in Hb'.
  unfold check_tests in Hb'.
  pose proof (all_from_spec n _ 0%uint63 Hb') as Hc'.
  rewrite H0 in Hc'. specialize (Hc' Hn c Hc). cbv beta in Hc'.
  unfold check_commits in Hc'.
  pose proof (all_from_spec n _ 0%uint63 Hc') as Hd'.
  rewrite H0 in Hd'. specialize (Hd' Hn d Hd). cbv beta in Hd'.
  unfold check_dependencies in Hd'.
  pose proof (all_from_spec n _ 0%uint63 Hd') as He'.
  rewrite H0 in He'. specialize (He' Hn e He). cbv beta in He'.
  exact He'.
Qed.

Lemma cos63_cos_of (mag1 : float) (d : int) (mag2 : float) :
  cos63 mag1 d mag2 = cos_of mag1 (Uint63.to_Z d) mag2.
Proof. unfold cos63, cos_of. now rewrite float_of_Z_to_Z. Qed.

Lemma tier_check63_tier_check (ss db di da : int) :
  tier_check63 ss db di da = true ->
  tier_check (Uint63.to_Z ss) (Uint63.to_Z db) (Uint63.to_Z di)
             (Uint63.to_Z da) = true.
Proof.
  unfold tier_check63, tier_check. cbv zeta.
  rewrite !cos63_cos_of, float_of_Z_to_Z. apply decision_tree_ok.
Qed.

Lemma weighted_sum63 (a b c d e : Z) (wa wb wc wd we : int) :
  0 <= a <= 20 -> 0 <= b <= 20 -> 0 <= c <= 20 -> 0 <= d <= 20 ->
  0 <= e <= 20 ->
  Uint63.to_Z wa <= 20 -> Uint63.to_Z wb <= 20 -> Uint63.to_Z wc <= 20 ->
  Uint63.to_Z wd <= 20 -> Uint63.to_Z we <= 20 ->
  Uint63.to_Z (Uint63.of_Z a * wa + Uint63.of_Z b * wb + Uint63.of_Z c * wc
               + Uint63.of_Z d * wd + Uint63.of_Z e * we)%uint63
  = a * Uint63.to_Z wa + b * Uint63.to_Z wb + c * Uint63.to_Z wc
    + d * Uint63.to_Z wd + e * Uint63.to_Z we.
Proof.
  intros Ha Hb Hc Hd He Hwa Hwb Hwc Hwd Hwe.
  pose proof wB_value as HwB.
  destruct (to_Z_mul_small (Uint63.of_Z a) wa) as [Ma Ba];
    rewrite ?to_Z_of_small in *; try lia.
  destruct (to_Z_mul_small (Uint63.of_Z b) wb) as [Mb Bb];
    rewrite ?to_Z_of_small in *; try lia.
  destruct (to_Z_mul_small (Uint63.of_Z c) wc) as [Mc Bc];
    rewrite ?to_Z_of_small in *; try lia.
  destruct (to_Z_mul_small (Uint63.of_Z d) wd) as [Md Bd];
    rewrite ?to_Z_of_small in *; try lia.
  destruct (to_Z_mul_small (Uint63.of_Z e) we) as [Me Be];
    rewrite ?to_Z_of_small in *; try lia.
  assert (S1 : Uint63.to_Z (Uint63.of_Z a * wa + Uint63.of_Z b * wb)%uint63
               = a * Uint63.to_Z wa + b * Uint63.to_Z wb).
  { rewrite to_Z_add_small; rewrite Ma, Mb; lia. }
  assert (S2 : Uint63.to_Z (Uint63.of_Z a * wa + Uint63.of_Z b * wb
                            + Uint63.of_Z c * wc)%uint63
               = a * Uint63.to_Z wa + b * Uint63.to_Z wb
                 + c * Uint63.to_Z wc).
  { rewrite to_Z_add_small; rewrite S1, Mc; lia. }
  assert (S3 : Uint63.to_Z (Uint63.of_Z a * wa + Uint63.of_Z b * wb
                            + Uint63.of_Z c * wc + Uint63.of_Z d * wd)%uint63
               = a * Uint63.to_Z wa + b * Uint63.to_Z wb
                 + c * Uint63.to_Z wc + d * Uint63.to_Z wd).
  { rewrite to_Z_add_small; rewrite S2, Md; lia. }
  rewrite to_Z_add_small; rewrite S3, Me; lia.
Qed.

(** Every profile of the data model passes the check: 21^5 profiles,
    each evaluated in binary64. *)
Lemma tier_check_all_21 : tier_check_all 21 = true.
Proof. vm_cast_no_check (eq_refl true). Qed.

Lemma tier_check_small (a b c d e : Z) :
  0 <= a <= 20 -> 0 <= b <= 20 -> 0 <= c <= 20 -> 0 <= d <= 20 ->
  0 <= e <= 20 ->
  tier_check (a * a + b * b + c * c + d * d + e * e)
             (a * 5 + b * 3 + c * 0 + d * 4 + e * 2)
             (a * 14 + b * 12 + c * 10 + d * 12 + e * 12)
             (a * 18 + b * 18 + c * 18 + d * 16 + e * 18) = true.
Proof.
  intros Ha Hb Hc Hd He. pose proof tier_check_all_21 as Hall.
  assert (Hn : Z.of_nat 21 < Uint63.wB) by (rewrite wB_value; lia).
  assert (H21 : Z.of_nat 21 = 21) by reflexivity.
  pose proof (tier_check_all_spec 21 Hall Hn a b c d e) as H.
  rewrite H21 in H.
  specialize (H ltac:(lia) ltac:(lia) ltac:(lia) ltac:(lia) ltac:(lia)).
  cbv zeta in H. apply tier_check63_tier_check in H.
  pose proof (to_Z_of_small a Ha) as Ea. pose proof (to_Z_of_small b Hb) as Eb.
  pose proof (to_Z_of_small c Hc) as Ec. pose proof (to_Z_of_small d Hd) as Ed.
  pose proof (to_Z_of_small e He) as Ee.
  rewrite (weighted_sum63 a b c d e _ _ _ _ _ Ha Hb Hc Hd He) in H
    by (rewrite ?Ea, ?Eb, ?Ec, ?Ed, ?Ee; lia).
  rewrite (weighted_sum63 a b c d e 5 3 0 4 2 Ha Hb Hc Hd He) in H
    by (intro; discriminate).
  rewrite (weighted_sum63 a b c d e 14 12 10 12 12 Ha Hb Hc Hd He) in H
    by (intro; discriminate).
  rewrite (weighted_sum63 a b c d e 18 18 18 16 18 Ha Hb Hc Hd He) in H
    by (intro; discriminate).
  rewrite Ea, Eb, Ec, Ed, Ee in H.
  exact H.
Qed.

Lemma decision_ok_tier_check (p : Dim.t Z) :
  decision_ok (cosine_similarity p (TIER_PROFILES beginner))
              (cosine_similarity p (TIER_PROFILES intermediate))
              (cosine_similarity p (TIER_PROFILES advanced))
  = tier_check (sum_squares p) (dot p (TIER_PROFILES beginner))
               (dot p (TIER_PROFILES intermediate))
               (dot p (TIER_PROFILES advanced)).
Proof. reflexivity. Qed.

Lemma sums_by_dimension (a b c d e : Z) :
  let p := Dim.mk a b c d e in
  sum_squares p = a * a + b * b + c * c + d * d + e * e
  /\ dot p (TIER_PROFILES beginner) = a * 5 + b * 3 + c * 0 + d * 4 + e * 2
  /\ dot p (TIER_PROFILES intermediate)
     = a * 14 + b * 12 + c * 10 + d * 12 + e * 12
  /\ dot p (TIER_PROFILES advanced)
     = a * 18 + b * 18 + c * 18 + d * 16 + e * 18.
Proof.
  unfold sum_squares, dot, Dim.values, Dim.keys.
  cbn [List.map List.fold_left Dim.get TIER_PROFILES Dim.structure
       Dim.documentation Dim.tests Dim.commits Dim.dependencies].
  repeat split; ring.
Qed.

Lemma tier_check_in_range (p : Dim.t Z) :
  in_range p ->
  decision_ok (cosine_similarity p (TIER_PROFILES beginner))
              (cosine_similarity p (TIER_PROFILES intermediate))
              (cosine_similarity p (TIER_PROFILES advanced)) = true.
Proof.
  destruct p as [a b c d e]. intro H.
  apply in_range_fields in H as (Ha & Hb & Hc & Hd & He).
  rewrite decision_ok_tier_check.
  destruct (sums_by_dimension a b c d e) as (-> & -> & -> & ->).
  now apply tier_check_small.
Qed.

Lemma sim_of_cosine (p : Dim.t Z) (t : tier) :
  sim_of (cosine_similarity p (TIER_PROFILES beginner))
         (cosine_similarity p (TIER_PROFILES intermediate))
         (cosine_similarity p (TIER_PROFILES advanced)) t
  = cosine_similarity p (TIER_PROFILES t).
Proof. destruct t; reflexivity. Qed.

Lemma cosine_zero_l (v : Dim.t Z) :
  cosine_similarity zero_vector v = 0%float.
Proof.
  rewrite cosine_similarity_cos_of. unfold cos_of.
  change (PrimFloat.eqb (magnitude zero_vector) 0) with true.
  reflexivity.
Qed.

Lemma cosine_zero_r (v : Dim.t Z) :
  cosine_similarity v zero_vector = 0%float.
Proof.
  rewrite cosine_similarity_cos_of. unfold cos_of.
  change (PrimFloat.eqb (magnitude zero_vector) 0) with true.
  rewrite orb_true_r. reflexivity.
Qed.

Lemma in_range_example : in_range (Dim.mk 12 6 6 20 10).
Proof. intros []; cbn; lia. Qed.

(** C4: on every profile of the data model, [match_tier] returns the
    tier whose reference has the highest cosine similarity to the
    profile, and every tier that comes before it in the order beginner,
    intermediate, advanced has a strictly lower one, so that among tiers
    with equal similarity the first is returned; the all-zero profile
    has similarity 0 to every tier and matches "beginner". *)
Theorem match_tier_first_highest :
  (forall p : Dim.t Z,
     in_range p ->
     exists t : tier,
       match_tier p = (Some t, cosine_similarity p (TIER_PROFILES t))
       /\ (forall t', PrimFloat.leb (cosine_similarity p (TIER_PROFILES t'))
                                    (cosine_similarity p (TIER_PROFILES t))
                      = true)
       /\ (forall t', tier_index t' < tier_index t ->
                      PrimFloat.ltb (cosine_similarity p (TIER_PROFILES t'))
                                    (cosine_similarity p (TIER_PROFILES t))
                      = true))
  /\ (forall t, cosine_similarity zero_vector (TIER_PROFILES t) = 0%float)
  /\ match_tier zero_vector = (Some beginner, 0%float).
Proof.
  split; [|split; [intro t; apply cosine_zero_l | reflexivity]].
  intros p Hp. apply tier_check_in_range in Hp.
  apply decision_ok_spec in Hp as (t & Hpick & Hmax & Hfirst).
  exists t. rewrite match_tier_pick, Hpick, sim_of_cosine.
  split; [reflexivity|]. split; intros t'.
  - specialize (Hmax t'). now rewrite !sim_of_cosine in Hmax.
  - intro Hlt. specialize (Hfirst t' Hlt).
    now rewrite !sim_of_cosine in Hfirst.
Qed.

Lemma match_tier_first_highest_witness :
  let p := Dim.mk 12 6 6 20 10 in
  in_range p
  /\ exists t : tier,
       match_tier p = (Some t, cosine_similarity p (TIER_PROFILES t))
       /\ (forall t', PrimFloat.leb (cosine_similarity p (TIER_PROFILES t'))
                                    (cosine_similarity p (TIER_PROFILES t))
                      = true)
       /\ (forall t', tier_index t' < tier_index t ->
                      PrimFloat.ltb (cosine_similarity p (TIER_PROFILES t'))
                                    (cosine_similarity p (TIER_PROFILES t))
                      = true).
Proof.
  intro p. split; [exact in_range_example|].
  exact (proj1 match_tier_first_highest p in_range_example).
Defined.

(** *** The similarity of a vector to itself *)

Lemma self_check_all : all_upto 2000 self_check = true.
Proof. vm_cast_no_check (eq_refl true). Qed.

Lemma cosine_self (v : Dim.t Z) :
  PrimFloat.eqb (magnitude v) 0 = false ->
  cosine_similarity v v = self_similarity (sum_squares v).
Proof.
  intro Hm. rewrite cosine_similarity_cos_of. unfold cos_of.
  rewrite Hm, dot_self. reflexivity.
Qed.

Lemma sum_squares_range (v : Dim.t Z) :
  in_range v -> v <> zero_vector -> 1 <= sum_squares v <= 2000.
Proof.
  destruct v as [a b c d e]. intros H Hnz.
  apply in_range_fields in H as (Ha & Hb & Hc & Hd & He).
  destruct (sums_by_dimension a b c d e) as (-> & _).
  assert (Hne : ~ (a = 0 /\ b = 0 /\ c = 0 /\ d = 0 /\ e = 0)).
  { intros (-> & -> & -> & -> & ->). now apply Hnz. }
  nia.
Qed.

(** C5, as the code has it: the similarity is 0 as soon as one of the
    two magnitudes is 0, in particular against the zero vector on either
    side; and the similarity of a non-zero vector of the data model to
    itself is 1 up to one rounding step of binary64: it lies between
    1 - 2^-52 and 1 + 2^-52. *)
Theorem cosine_similarity_zero_and_self :
  (forall v1 v2 : Dim.t Z,
     (PrimFloat.eqb (magnitude v1) 0 || PrimFloat.eqb (magnitude v2) 0)%bool
       = true ->
     cosine_similarity v1 v2 = 0%float)
  /\ (forall v : Dim.t Z,
        cosine_similarity zero_vector v = 0%float
        /\ cosine_similarity v zero_vector = 0%float)
  /\ (forall v : Dim.t Z,
        in_range v -> v <> zero_vector ->
        near_one (cosine_similarity v v) = true).
Proof.
  split; [|split].
  - intros v1 v2 H. rewrite cosine_similarity_cos_of. unfold cos_of.
    now rewrite H.
  - intro v. split; [apply cosine_zero_l | apply cosine_zero_r].
  - intros v Hv Hnz. pose proof (sum_squares_range v Hv Hnz) as Hs.
    pose proof (all_upto_spec 2000 self_check self_check_all
                  (sum_squares v)) as Hc.
    assert (Hb : 0 <= sum_squares v <= Z.of_nat 2000) by lia.
    specialize (Hc Hb). unfold self_check in Hc.
    destruct (sum_squares v =? 0) eqn:E; [apply Z.eqb_eq in E; lia|].
    cbn [orb] in Hc. apply andb_true_iff in Hc as [Hm Hone].
    apply negb_true_iff in Hm. rewrite cosine_self; [exact Hone|exact Hm].
Qed.

Lemma cosine_similarity_zero_and_self_witness :
  let v := Dim.mk 12 6 6 20 10 in
  in_range v /\ v <> zero_vector
  /\ near_one (cosine_similarity v v) = true.
Proof.
  intro v.
  assert (Hnz : v <> zero_vector) by discriminate.
  split; [exact in_range_example | split; [exact Hnz|]].
  exact (proj2 (proj2 cosine_similarity_zero_and_self) v
               in_range_example Hnz).
Defined.

(** C5 as stated fails: the vector (1,1,0,0,0) is not zero and its
    similarity to itself is 1 - 2^-52, not 1 (the square root of 2,
    rounded, squares to more than 2); and the "advanced" reference has a
    similarity to itself that is not 1 either. *)
Lemma cosine_self_not_one :
  let v := Dim.mk 1 1 0 0 0 in
  v <> zero_vector
  /\ PrimFloat.eqb (cosine_similarity v v) 1 = false
  /\ cosine_similarity v v = 0x1.ffffffffffffep-1%float
  /\ PrimFloat.eqb (cosine_similarity (TIER_PROFILES advanced)
                                      (TIER_PROFILES advanced)) 1 = false.
Proof.
  intro v. split; [discriminate|].
  repeat split; vm_compute; reflexivity.
Qed.

(* ================================================================== *)
(** ** The gap calculator *)

Lemma next_tier_above (t : tier) : next_tier t = tier_above t.
Proof. destruct t; reflexivity. Qed.

(** C6: [compute_gaps] compares the profile with the reference of the
    tier immediately above the current one ("advanced" for "advanced"),
    each gap is max(0, reference - profile), no gap is negative, and the
    "advanced" reference has all-zero gaps at tier "advanced". *)
Theorem compute_gaps_next_tier (p : Dim.t Z) (t : tier) :
  next_tier t = tier_above t
  /\ (forall k,
        Dim.get k (compute_gaps p t)
        = Z.max 0 (Dim.get k (TIER_PROFILES (tier_above t)) - Dim.get k p))
  /\ (forall k, 0 <= Dim.get k (compute_gaps p t))
  /\ compute_gaps (TIER_PROFILES advanced) advanced = zero_vector.
Proof.
  split; [apply next_tier_above|].
  split; [|split; [|reflexivity]].
  - intro k. unfold compute_gaps. rewrite next_tier_above.
    destruct k; reflexivity.
  - intro k. unfold compute_gaps.
    destruct k;
      cbn [Dim.get Dim.structure Dim.documentation Dim.tests Dim.commits
           Dim.dependencies];
      lia.
Qed.

(* ================================================================== *)
(** ** Entries without a path *)

Section IgnoredEntry.

(** An entry that reads as the empty path: the key is absent, or it is
    present and holds the empty string. *)
Variable entry : FileTreeEntry.
Hypothesis entry_empty : get_path entry = "".

Variables pre post : list FileTreeEntry.

Lemma extract_folders_ignores :
  _extract_folders (pre ++ entry :: post) = _extract_folders (pre ++ post).
Proof.
  unfold _extract_folders. rewrite !List.fold_left_app.
  cbn [List.fold_left]. rewrite entry_empty. reflexivity.
Qed.

Lemma filter_ignores (f : string -> bool) :
  f "" = false ->
  List.filter (fun item => f (get_path item)) (pre ++ entry :: post)
  = List.filter (fun item => f (get_path item)) (pre ++ post).
Proof.
  intro Hf. rewrite !List.filter_app. cbn [List.filter].
  now rewrite entry_empty, Hf.
Qed.

Lemma existsb_ignores (f : string -> bool) :
  f "" = false ->
  existsb f (List.map get_path (pre ++ entry :: post))
  = existsb f (List.map get_path (pre ++ post)).
Proof.
  intro Hf. rewrite !List.map_app, !List.existsb_app.
  cbn [List.map existsb]. now rewrite entry_empty, Hf.
Qed.

Variable readme : string.
Variable commits : list Commit.
Variable branches : list string.
Variable languages : list (string * Z).

Let with_entry : SignalDetector :=
  init (pre ++ entry :: post) readme commits branches languages.
Let without : SignalDetector :=
  init (pre ++ post) readme commits branches languages.

Lemma test_files_ignore : test_files with_entry = test_files without.
Proof.
  unfold test_files, with_entry, without, init. cbn [file_tree]. f_equal.
  apply (filter_ignores (fun p => PyStr.contains "test" (PyStr.lower p))).
  reflexivity.
Qed.

Lemma dep_files_ignore : dep_files with_entry = dep_files without.
Proof.
  unfold dep_files, with_entry, without, init. cbn [file_tree]. f_equal.
  apply (filter_ignores
           (fun p => existsb (fun df => PyStr.contains df p) dep_names)).
  reflexivity.
Qed.

Lemma lock_files_ignore : lock_files with_entry = lock_files without.
Proof.
  unfold lock_files, with_entry, without, init. cbn [file_tree]. f_equal.
  apply (filter_ignores
           (fun p => existsb (fun lf => PyStr.contains lf p) lock_names)).
  reflexivity.
Qed.

Lemma signal_tests_ignores : signal_tests with_entry = signal_tests without.
Proof.
  unfold signal_tests, unit_indicator, integration_indicator,
    coverage_indicator, config_indicator, all_paths.
  rewrite test_files_ignore.
  unfold with_entry, without, init. cbn [file_tree].
  rewrite !existsb_ignores by reflexivity. reflexivity.
Qed.

Lemma signal_dependencies_ignores :
  signal_dependencies with_entry = signal_dependencies without.
Proof.
  unfold signal_dependencies.
  now rewrite dep_files_ignore, lock_files_ignore.
Qed.

Lemma get_all_signals_ignores :
  get_all_signals with_entry = get_all_signals without.
Proof.
  unfold get_all_signals.
  rewrite signal_tests_ignores, signal_dependencies_ignores.
  unfold signal_structure, with_entry, without, init. cbn [folder_names].
  rewrite extract_folders_ignores. reflexivity.
Qed.

End IgnoredEntry.

(** C10: an entry without a "path" key reads as the empty path; it adds
    no top-level folder, is no test file, no dependency file and no lock
    file, and the five signals are what they are without it, and what
    they are with an entry whose path is the empty string. *)
Theorem missing_path_is_empty_path
    (pre post : list FileTreeEntry) (readme : string)
    (commits : list Commit) (branches : list string)
    (languages : list (string * Z)) :
  let missing := {| path := None |} in
  let empty := {| path := Some "" |} in
  let detector tree := init tree readme commits branches languages in
  get_path missing = ""
  /\ folder_names (detector (pre ++ missing :: post)%list)
     = folder_names (detector (pre ++ post)%list)
  /\ test_files (detector (pre ++ missing :: post)%list)
     = test_files (detector (pre ++ post)%list)
  /\ dep_files (detector (pre ++ missing :: post)%list)
     = dep_files (detector (pre ++ post)%list)
  /\ lock_files (detector (pre ++ missing :: post)%list)
     = lock_files (detector (pre ++ post)%list)
  /\ get_all_signals (detector (pre ++ missing :: post)%list)
     = get_all_signals (detector (pre ++ post)%list)
  /\ get_all_signals (detector (pre ++ missing :: post)%list)
     = get_all_signals (detector (pre ++ empty :: post)%list).
Proof.
  intros missing empty detector.
  assert (Hm : get_path missing = "") by reflexivity.
  assert (He : get_path empty = "") by reflexivity.
  split; [reflexivity|].
  split; [apply (extract_folders_ignores missing Hm)|].
  split; [apply (test_files_ignore missing Hm)|].
  split; [apply (dep_files_ignore missing Hm)|].
  split; [apply (lock_files_ignore missing Hm)|].
  split; [apply (get_all_signals_ignores missing Hm)|].
  unfold detector.
  rewrite (get_all_signals_ignores missing Hm).
  rewrite (get_all_signals_ignores empty He). reflexivity.
Qed.

(* ================================================================== *)
(** ** Score ranges and rationales *)

Lemma signal_structure_range (self : SignalDetector) :
  0 <= fst (signal_structure self) <= 20
  /\ snd (signal_structure self) <> "".
Proof.
  unfold signal_structure. cbv zeta. cbn [fst snd]. split.
  - destruct (_ =? 0); [lia|]. destruct (_ >? _); [lia|].
    destruct (_ >=? 3); [lia|]. destruct (_ >=? 1); lia.
  - destruct (folder_names self); discriminate.
Qed.

Lemma signal_documentation_range (self : SignalDetector) :
  0 <= fst (signal_documentation self) <= 20
  /\ snd (signal_documentation self) <> "".
Proof.
  split.
  - rewrite signal_documentation_score.
    destruct (readme self); [lia|].
    pose proof (found_sections_bounds (PyStr.lower (String a s))).
    destruct (_ >? 500); lia.
  - unfold signal_documentation.
    destruct (negb (PyStr.truthy (readme self))); discriminate.
Qed.

Lemma signal_tests_range (self : SignalDetector) :
  0 <= fst (signal_tests self) <= 20 /\ snd (signal_tests self) <> "".
Proof.
  unfold signal_tests. cbv zeta.
  destruct (_ =? 0); [cbn; split; [lia|discriminate]|].
  destruct (_ || _)%bool;
    [cbn [fst snd]; split; [lia|apply append_nonempty_r; discriminate]|].
  destruct (_ && _)%bool; [cbn [fst snd]; split; [lia|discriminate]|].
  destruct (_ >? 5); cbn [fst snd]; split; try lia;
    [apply append_nonempty_r|]; discriminate.
Qed.

Lemma signal_commits_rationale (self : SignalDetector) :
  snd (signal_commits self) <> "".
Proof.
  unfold signal_commits. destruct (commits self); discriminate.
Qed.

Lemma signal_dependencies_range (self : SignalDetector) :
  0 <= fst (signal_dependencies self) <= 20
  /\ snd (signal_dependencies self) <> "".
Proof.
  unfold signal_dependencies. destruct (dep_files self);
    [cbn; split; [lia|discriminate]|].
  destruct (_ && _)%bool; [cbn; split; [lia|discriminate]|].
  destruct (_ >? 1); cbn [fst snd]; split; try lia;
    [apply append_nonempty_r|]; discriminate.
Qed.

Lemma get_all_signals_range (self : SignalDetector) (k : Dim.key) :
  0 <= fst (Dim.get k (get_all_signals self)) <= 20
  /\ snd (Dim.get k (get_all_signals self)) <> "".
Proof.
  destruct k; cbn [Dim.get get_all_signals Dim.structure Dim.documentation
                   Dim.tests Dim.commits Dim.dependencies].
  - apply signal_structure_range.
  - apply signal_documentation_range.
  - apply signal_tests_range.
  - split; [apply signal_commits_range | apply signal_commits_rationale].
  - apply signal_dependencies_range.
Qed.

Lemma profile_in_range (self : SignalDetector) :
  in_range (compute_profile_vector (get_all_signals self)).
Proof.
  intro k. pose proof (get_all_signals_range self k) as [H _].
  destruct k; exact H.
Qed.

Lemma sum_in_range (p : Dim.t Z) : in_range p -> 0 <= Dim.sum p <= 100.
Proof.
  destruct p as [a b c d e]. intro H.
  apply in_range_fields in H as (Ha & Hb & Hc & Hd & He).
  unfold Dim.sum, Dim.values, Dim.keys.
  cbn [List.map List.fold_left Dim.get Dim.structure Dim.documentation
       Dim.tests Dim.commits Dim.dependencies].
  lia.
Qed.

(* ================================================================== *)
(** ** The analysis pipeline *)

Section Pipeline.

Variable b64decode_utf8 : string -> Exc.outcome string.

(** What a successful analysis returns is built from the signals of
    one detector. *)
Lemma analyze_success (fetcher : Analyzer.GitHubFetcher)
    (report : Analyzer.Report) :
  Analyzer.analyze b64decode_utf8 fetcher = Analyzer.Success report ->
  first_failure fetcher = None
  /\ exists self : SignalDetector,
       Analyzer.profile report
       = compute_profile_vector (get_all_signals self)
       /\ Analyzer.signals report = Dim.map snd (get_all_signals self)
       /\ Analyzer.score report
          = Analyzer.clamp_score (Dim.sum (Analyzer.profile report))
       /\ Analyzer.status report = "success".
Proof.
  unfold Analyzer.analyze, Analyzer.analyze_body, first_failure.
  destruct fetcher as [ri ft rd cm br lg]. cbn [Analyzer.get_repo_info
    Analyzer.get_file_tree Analyzer.get_readme Analyzer.get_commits
    Analyzer.get_branches Analyzer.get_languages].
  destruct ri as [ri|e]; [|discriminate].
  destruct ft as [ft|e]; [|discriminate].
  destruct rd as [rd|e]; [|discriminate].
  destruct cm as [cm|e]; [|discriminate].
  destruct br as [br|e]; [|discriminate].
  destruct lg as [lg|e]; [|discriminate].
  cbn [Exc.bind]. cbv zeta.
  destruct (fst (match_tier _)) as [t|]; [|discriminate].
  cbn [Exc.bind]. intros [= <-]. split; [reflexivity|].
  eexists. cbn [Analyzer.profile Analyzer.signals Analyzer.score
                Analyzer.status].
  repeat split; reflexivity.
Qed.

(** A raising fetch stage ends the analysis in the error record. *)
Lemma analyze_failure (fetcher : Analyzer.GitHubFetcher) (e : string) :
  first_failure fetcher = Some e ->
  Analyzer.analyze b64decode_utf8 fetcher
  = Analyzer.Failure {| Analyzer.error := "Analysis failed: " ++ e;
                        Analyzer.error_status := "error" |}.
Proof.
  unfold Analyzer.analyze, Analyzer.analyze_body, first_failure.
  destruct fetcher as [ri ft rd cm br lg]. cbn [Analyzer.get_repo_info
    Analyzer.get_file_tree Analyzer.get_readme Analyzer.get_commits
    Analyzer.get_branches Analyzer.get_languages].
  destruct ri as [ri|e1]; [|intros [= <-]; reflexivity].
  destruct ft as [ft|e1]; [|intros [= <-]; reflexivity].
  destruct rd as [rd|e1]; [|intros [= <-]; reflexivity].
  destruct cm as [cm|e1]; [|intros [= <-]; reflexivity].
  destruct br as [br|e1]; [|intros [= <-]; reflexivity].
  destruct lg as [lg|e1]; [|intros [= <-]; reflexivity].
  discriminate.
Qed.

Lemma some_fetch_raises_first (fetcher : Analyzer.GitHubFetcher) :
  some_fetch_raises fetcher = true ->
  exists e, first_failure fetcher = Some e.
Proof.
  unfold some_fetch_raises, first_failure.
  destruct fetcher as [ri ft rd cm br lg]. cbn [Analyzer.get_repo_info
    Analyzer.get_file_tree Analyzer.get_readme Analyzer.get_commits
    Analyzer.get_branches Analyzer.get_languages].
  destruct ri as [ri|e]; [|eauto].
  destruct ft as [ft|e]; [|eauto].
  destruct rd as [rd|e]; [|eauto].
  destruct cm as [cm|e]; [|eauto].
  destruct br as [br|e]; [|eauto].
  destruct lg as [lg|e]; [|eauto].
  discriminate.
Qed.

End Pipeline.

(** C9: when a fetch stage raises, [analyze] returns the error record,
    which holds the message of the first stage that raised and the
    status "error" and nothing else, and it returns no success record. *)
Theorem analyze_fetch_failure_is_error_record
    (b64decode_utf8 : string -> Exc.outcome string)
    (fetcher : Analyzer.GitHubFetcher) :
  some_fetch_raises fetcher = true ->
  exists e : string,
    first_failure fetcher = Some e
    /\ Analyzer.analyze b64decode_utf8 fetcher
       = Analyzer.Failure {| Analyzer.error := "Analysis failed: " ++ e;
                             Analyzer.error_status := "error" |}
    /\ forall report,
         Analyzer.analyze b64decode_utf8 fetcher <> Analyzer.Success report.
Proof.
  intro H. apply some_fetch_raises_first in H as [e He]. exists e.
  split; [exact He|].
  rewrite (analyze_failure b64decode_utf8 fetcher e He).
  split; [reflexivity | discriminate].
Qed.

Lemma analyze_fetch_failure_is_error_record_witness :
  some_fetch_raises failing_fetcher = true
  /\ exists e : string,
       first_failure failing_fetcher = Some e
       /\ Analyzer.analyze (fun s => Exc.Returned s) failing_fetcher
          = Analyzer.Failure
              {| Analyzer.error := "Analysis failed: " ++ e;
                 Analyzer.error_status := "error" |}
       /\ forall report,
            Analyzer.analyze (fun s => Exc.Returned s) failing_fetcher
            <> Analyzer.Success report.
Proof.
  assert (H : some_fetch_raises failing_fetcher = true) by reflexivity.
  split; [exact H|].
  exact (analyze_fetch_failure_is_error_record
           (fun s => Exc.Returned s) failing_fetcher H).
Defined.

(** C7: each of the five signals of a detector has a score in [0,20]
    and a non-empty rationale; the profile they give sums to a total in
    [0,100], which the clamp of [analyze] leaves as it is; and every
    success record of [analyze] carries such a profile, such rationales
    and a score in [0,100]. *)
Theorem signals_and_total_in_range :
  (forall (self : SignalDetector) (k : Dim.key),
     0 <= fst (Dim.get k (get_all_signals self)) <= 20
     /\ snd (Dim.get k (get_all_signals self)) <> "")
  /\ (forall self : SignalDetector,
        let profile := compute_profile_vector (get_all_signals self) in
        0 <= Dim.sum profile <= 100
        /\ Analyzer.clamp_score (Dim.sum profile) = Dim.sum profile)
  /\ (forall b64decode_utf8 fetcher report,
        Analyzer.analyze b64decode_utf8 fetcher = Analyzer.Success report ->
        in_range (Analyzer.profile report)
        /\ (forall k, Dim.get k (Analyzer.signals report) <> "")
        /\ Analyzer.score report = Dim.sum (Analyzer.profile report)
        /\ 0 <= Analyzer.score report <= 100).
Proof.
  split; [exact get_all_signals_range|].
  assert (Hsum : forall self : SignalDetector,
            let profile := compute_profile_vector (get_all_signals self) in
            0 <= Dim.sum profile <= 100
            /\ Analyzer.clamp_score (Dim.sum profile) = Dim.sum profile).
  { intros self profile.
    pose proof (sum_in_range profile (profile_in_range self)) as H.
    split; [exact H|]. unfold Analyzer.clamp_score. lia. }
  split; [exact Hsum|].
  intros b64 fetcher report H.
  apply analyze_success in H as (_ & self & Hp & Hs & Hsc & _).
  destruct (Hsum self) as [Hr Hc]. cbv zeta in Hr, Hc.
  rewrite Hsc, Hp, Hc, Hs.
  split; [apply profile_in_range|].
  split; [|split; [reflexivity | exact Hr]].
  intro k. pose proof (get_all_signals_range self k) as [_ Hk].
  destruct k; exact Hk.
Qed.

Lemma signals_and_total_in_range_witness :
  exists report,
    Analyzer.analyze (fun s => Exc.Returned s) working_fetcher
    = Analyzer.Success report
    /\ Analyzer.score report = 54
    /\ in_range (Analyzer.profile report)
    /\ (forall k, Dim.get k (Analyzer.signals report) <> "")
    /\ Analyzer.score report = Dim.sum (Analyzer.profile report)
    /\ 0 <= Analyzer.score report <= 100.
Proof.
  assert (H : { report | Analyzer.analyze (fun s => Exc.Returned s)
                           working_fetcher = Analyzer.Success report
                         /\ Analyzer.score report = 54 }).
  { eexists. vm_compute. split; reflexivity. }
  destruct H as [report [Hr H54]]. exists report.
  split; [exact Hr | split; [exact H54|]].
  exact (proj2 (proj2 signals_and_total_in_range)
               (fun s => Exc.Returned s) working_fetcher report Hr).
Defined.

(* ================================================================== *)
(** ** The roadmap *)

Section SortedLists.

Context {A : Type}.
Variable R : A -> A -> Prop.

Lemma StronglySorted_app (l1 l2 : list A) :
  StronglySorted R l1 -> StronglySorted R l2 ->
  (forall x y, In x l1 -> In y l2 -> R x y) ->
  StronglySorted R (l1 ++ l2).
Proof.
  induction l1 as [|a l1 IH]; intros H1 H2 H12; [exact H2|].
  apply StronglySorted_inv in H1 as [H1 Ha]. cbn [app]. constructor.
  - apply IH; [exact H1 | exact H2 |].
    intros x y Hx Hy. apply H12; [now right | exact Hy].
  - apply List.Forall_app. split; [exact Ha|].
    apply List.Forall_forall. intros y Hy. apply H12; [now left|exact Hy].
Qed.

Lemma In_firstn (n : nat) (l : list A) (x : A) :
  In x (List.firstn n l) -> In x l.
Proof.
  revert l. induction n as [|n IH]; intros [|a l] H; try contradiction.
  cbn [List.firstn] in H. destruct H as [->|H]; [now left|].
  right. now apply IH.
Qed.

Lemma StronglySorted_firstn (n : nat) (l : list A) :
  StronglySorted R l -> StronglySorted R (List.firstn n l).
Proof.
  revert l. induction n as [|n IH]; intros [|a l] H;
    cbn [List.firstn]; try constructor.
  - apply IH. now apply StronglySorted_inv in H.
  - apply StronglySorted_inv in H as [_ Ha].
    apply List.Forall_forall. intros y Hy. apply In_firstn in Hy.
    revert y Hy. now apply List.Forall_forall.
Qed.

Lemma StronglySorted_constant (f : A -> nat) (k : nat) (l : list A) :
  (forall x y, f x <= f y -> R x y)%nat ->
  (forall x, In x l -> f x = k) ->
  StronglySorted R l.
Proof.
  intros HR. induction l as [|a l IH]; intro H; constructor.
  - apply IH. intros x Hx. apply H. now right.
  - apply List.Forall_forall. intros y Hy. apply HR.
    rewrite (H a), (H y); [lia | now right | now left].
Qed.

End SortedLists.

(** Each of the two loops over the gaps appends the messages of the
    dimensions that pass its test, in the order of the keys. *)
Lemma for_gaps_filter (gaps : Dim.t Z) (test : Z -> bool)
    (emit : Dim.key -> string) (roadmap : list string) :
  Analyzer.for_gaps gaps test emit roadmap
  = (roadmap
     ++ List.map emit
          (List.filter (fun k => test (Dim.get k gaps)) Dim.keys))%list.
Proof.
  unfold Analyzer.for_gaps, Dim.items. revert roadmap.
  induction Dim.keys as [|k ks IH]; intro roadmap.
  - cbn. now rewrite List.app_nil_r.
  - cbn [List.map List.fold_left List.filter fst snd]. rewrite IH.
    destruct (test (Dim.get k gaps)); [|reflexivity].
    cbn [List.map]. now rewrite <- List.app_assoc.
Qed.

Lemma generate_roadmap_messages (gaps profile : Dim.t Z) :
  Analyzer._generate_roadmap gaps profile
  = List.firstn 5
      match roadmap_messages gaps profile with
      | [] => [Analyzer.fallback_message]
      | _ :: _ => roadmap_messages gaps profile
      end.
Proof.
  unfold Analyzer._generate_roadmap, roadmap_messages. cbv zeta.
  rewrite !for_gaps_filter. cbn [app].
  fold (high_dimensions gaps). fold (medium_dimensions gaps).
  destruct (Dim.sum profile >? 80).
  - now rewrite <- List.app_assoc.
  - now rewrite List.app_nil_r.
Qed.

Lemma priority_high (d : Dim.key) :
  priority (Analyzer.high_message d) = 0%nat.
Proof. destruct d; vm_compute; reflexivity. Qed.

Lemma priority_medium (d : Dim.key) :
  priority (Analyzer.medium_message d) = 1%nat.
Proof. destruct d; vm_compute; reflexivity. Qed.

Lemma priority_advanced (s : string) :
  In s Analyzer.advanced_recommendations -> priority s = 2%nat.
Proof.
  intros [<-|[<-|[<-|[]]]]; vm_compute; reflexivity.
Qed.

Lemma priority_fallback : priority Analyzer.fallback_message = 3%nat.
Proof. vm_compute; reflexivity. Qed.

(** Where each message of [roadmap_messages] comes from. *)
Lemma roadmap_messages_origin (gaps profile : Dim.t Z) (s : string) :
  In s (roadmap_messages gaps profile) ->
  (priority s = 0%nat
   /\ exists d, s = Analyzer.high_message d /\ Dim.get d gaps > 8)
  \/ (priority s = 1%nat
      /\ exists d, s = Analyzer.medium_message d
                   /\ 4 <= Dim.get d gaps <= 8)
  \/ (priority s = 2%nat
      /\ In s Analyzer.advanced_recommendations /\ Dim.sum profile > 80).
Proof.
  unfold roadmap_messages. intro H.
  apply List.in_app_or in H as [H|H]; [|apply List.in_app_or in H as [H|H]].
  - left. apply List.in_map_iff in H as (d & <- & Hd).
    split; [apply priority_high|]. exists d. split; [reflexivity|].
    apply List.filter_In in Hd as [_ Hd]. apply Z.gtb_lt in Hd. lia.
  - right; left. apply List.in_map_iff in H as (d & <- & Hd).
    split; [apply priority_medium|]. exists d. split; [reflexivity|].
    apply List.filter_In in Hd as [_ Hd].
    apply andb_true_iff in Hd as [H4 H8].
    apply Z.leb_le in H4. apply Z.leb_le in H8. lia.
  - right; right. destruct (Dim.sum profile >? 80) eqn:E; [|contradiction].
    split; [now apply priority_advanced|]. split; [exact H|].
    apply Z.gtb_lt in E. lia.
Qed.

Lemma roadmap_messages_sorted (gaps profile : Dim.t Z) :
  StronglySorted by_priority (roadmap_messages gaps profile).
Proof.
  unfold roadmap_messages.
  assert (HR : forall x y, (priority x <= priority y)%nat -> by_priority x y)
    by (intros x y H; exact H).
  assert (Hh : forall x,
             In x (List.map Analyzer.high_message (high_dimensions gaps)) ->
             priority x = 0%nat).
  { intros x H. apply List.in_map_iff in H as (d & <- & _).
    apply priority_high. }
  assert (Hm : forall x,
             In x (List.map Analyzer.medium_message
                            (medium_dimensions gaps)) ->
             priority x = 1%nat).
  { intros x H. apply List.in_map_iff in H as (d & <- & _).
    apply priority_medium. }
  assert (Ha : forall x,
             In x (if Dim.sum profile >? 80
                   then Analyzer.advanced_recommendations else []) ->
             priority x = 2%nat).
  { intros x H. destruct (Dim.sum profile >? 80); [|contradiction].
    now apply priority_advanced. }
  apply StronglySorted_app.
  - exact (StronglySorted_constant by_priority priority 0%nat _ HR Hh).
  - apply StronglySorted_app.
    + exact (StronglySorted_constant by_priority priority 1%nat _ HR Hm).
    + exact (StronglySorted_constant by_priority priority 2%nat _ HR Ha).
    + intros x y Hx Hy. unfold by_priority.
      rewrite (Hm x Hx), (Ha y Hy). lia.
  - intros x y Hx Hy. unfold by_priority. rewrite (Hh x Hx).
    lia.
Qed.

Lemma roadmap_messages_empty (gaps profile : Dim.t Z) :
  roadmap_messages gaps profile = [] ->
  (forall d, Dim.get d gaps < 4) /\ Dim.sum profile <= 80.
Proof.
  unfold roadmap_messages. intro H.
  apply List.app_eq_nil in H as [Hh H].
  apply List.app_eq_nil in H as [Hm Ha].
  split.
  - intro d.
    assert (Hd : In d Dim.keys) by (destruct d; cbn; tauto).
    destruct (Dim.get d gaps >? 8) eqn:E8.
    + assert (Hin : In d (high_dimensions gaps))
        by (apply List.filter_In; split; assumption).
      apply (List.in_map Analyzer.high_message) in Hin.
      rewrite Hh in Hin. contradiction.
    + destruct (4 <=? Dim.get d gaps) eqn:E4.
      * assert (Hin : In d (medium_dimensions gaps)).
        { apply List.filter_In. split; [exact Hd|].
          rewrite E4. cbn [andb]. apply Z.leb_le.
          destruct (Z.gtb_spec (Dim.get d gaps) 8); [discriminate|lia]. }
        apply (List.in_map Analyzer.medium_message) in Hin.
        rewrite Hm in Hin. contradiction.
      * apply Z.leb_gt in E4. exact E4.
  - destruct (Z.gtb_spec (Dim.sum profile) 80) as [Hgt|Hle]; [|lia].
    discriminate.
Qed.

(** C8: the roadmap has at most 5 entries and is ordered by priority
    band; a high-priority message belongs to a dimension with gap > 8, a
    medium-priority one to a dimension with gap in [4,8], the advanced
    recommendations appear only when the profile sums to more than 80,
    and the fallback message appears only alone, when no dimension has a
    gap of 4 or more and the profile sums to at most 80. *)
Theorem roadmap_at_most_five_by_priority (gaps profile : Dim.t Z) :
  let roadmap := Analyzer._generate_roadmap gaps profile in
  (List.length roadmap <= 5)%nat
  /\ StronglySorted by_priority roadmap
  /\ (forall s, In s roadmap -> priority s = 0%nat ->
        exists d, s = Analyzer.high_message d /\ Dim.get d gaps > 8)
  /\ (forall s, In s roadmap -> priority s = 1%nat ->
        exists d, s = Analyzer.medium_message d
                  /\ 4 <= Dim.get d gaps <= 8)
  /\ (forall s, In s roadmap -> priority s = 2%nat ->
        In s Analyzer.advanced_recommendations /\ Dim.sum profile > 80)
  /\ (forall s, In s roadmap -> priority s = 3%nat ->
        s = Analyzer.fallback_message
        /\ roadmap = [Analyzer.fallback_message]
        /\ (forall d, Dim.get d gaps < 4) /\ Dim.sum profile <= 80).
Proof.
  intro roadmap. subst roadmap. rewrite generate_roadmap_messages.
  split; [apply List.firstn_le_length|].
  destruct (roadmap_messages gaps profile) as [|m ms] eqn:E.
  - (* only the fallback *)
    pose proof (roadmap_messages_empty gaps profile E) as [Hg Hs].
    cbn [List.firstn].
    split; [repeat constructor|].
    assert (Hp : forall k s, In s [Analyzer.fallback_message] ->
                             priority s = k -> k = 3%nat).
    { intros k s [<-|[]] <-. apply priority_fallback. }
    split; [intros s Hin Hk; apply Hp in Hk; [discriminate|exact Hin]|].
    split; [intros s Hin Hk; apply Hp in Hk; [discriminate|exact Hin]|].
    split; [intros s Hin Hk; apply Hp in Hk; [discriminate|exact Hin]|].
    intros s [<-|[]] _. repeat split; assumption.
  - rewrite <- E.
    assert (Horigin : forall s,
              In s (List.firstn 5 (roadmap_messages gaps profile)) ->
              (priority s = 0%nat
               /\ exists d, s = Analyzer.high_message d
                            /\ Dim.get d gaps > 8)
              \/ (priority s = 1%nat
                  /\ exists d, s = Analyzer.medium_message d
                               /\ 4 <= Dim.get d gaps <= 8)
              \/ (priority s = 2%nat
                  /\ In s Analyzer.advanced_recommendations
                  /\ Dim.sum profile > 80)).
    { intros s Hs. apply In_firstn in Hs.
      now apply roadmap_messages_origin. }
    split; [apply StronglySorted_firstn, roadmap_messages_sorted|].
    split; [|split; [|split]]; intros s Hs Hp;
      destruct (Horigin s Hs) as [(Hq & H)|[(Hq & H)|(Hq & H)]];
      rewrite Hq in Hp; try discriminate; exact H.
Qed.

(** Five high-priority gaps and a profile above 80 give eight messages,
    of which the roadmap keeps the five high-priority ones. *)
Example roadmap_truncated :
  Analyzer._generate_roadmap (Dim.mk 9 9 9 9 9) (Dim.mk 20 20 20 20 20)
  = List.map Analyzer.high_message Dim.keys
  /\ List.length (roadmap_messages (Dim.mk 9 9 9 9 9)
                                   (Dim.mk 20 20 20 20 20)) = 8%nat.
Proof. split; vm_compute; reflexivity. Qed.

(* ================================================================== *)
(** ** The examples of the specification *)

Example structure_examples :
  fst (signal_structure (detector_of_tree [])) = 5
  /\ fst (signal_structure
            (detector_of_tree [entry_of "utils/a.py"; entry_of "helpers/b.py"]))
     = 8
  /\ fst (signal_structure
            (detector_of_tree [entry_of "src/a.py"; entry_of "tests/t.py";
                               entry_of "docs/index.md"])) = 18
  /\ fst (signal_structure (detector_of_tree [entry_of "src/a.py"])) = 12.
Proof. repeat split; vm_compute; reflexivity. Qed.

Example dependencies_examples :
  fst (signal_dependencies (detector_of_tree [entry_of "main.py"])) = 0
  /\ fst (signal_dependencies
            (detector_of_tree [entry_of "requirements.txt";
                               entry_of "poetry.lock"])) = 18.
Proof. repeat split; vm_compute; reflexivity. Qed.

Example tests_examples :
  fst (signal_tests (detector_of_tree [entry_of "main.py"])) = 0
  /\ fst (signal_tests
            (detector_of_tree [entry_of "tests/test_a.py";
                               entry_of "tests/test_b.py";
                               entry_of "tests/pytest.ini"])) = 18.
Proof. repeat split; vm_compute; reflexivity. Qed.

Example commits_examples :
  fst (signal_commits (detector_of_commits [])) = 0
  /\ fst (signal_commits
            (detector_of_commits (List.repeat (commit_of "feat: x") 10)))
     = 20.
Proof. repeat split; vm_compute; reflexivity. Qed.

(** Scaling a profile does not change the tier it matches. *)
Example match_tier_scaled :
  fst (match_tier (Dim.mk 10 10 10 10 10)) = Some advanced
  /\ fst (match_tier (Dim.mk 20 20 20 20 20)) = Some advanced.
Proof. repeat split; vm_compute; reflexivity. Qed.

(* ================================================================== *)
(** * More properties of the code *)

(** ** The structure signal *)

Lemma count_if_permutation {A : Type} (f : A -> bool) (l l' : list A) :
  Permutation l l' -> count_if f l = count_if f l'.
Proof.
  induction 1 as [|x l l' _ IH|x y l|l l' l'' _ IH1 _ IH2].
  - reflexivity.
  - rewrite !count_if_cons, IH. reflexivity.
  - rewrite !count_if_cons. lia.
  - now rewrite IH1.
Qed.

Lemma count_if_map {A B : Type} (g : A -> B) (f : B -> bool) (l : list A) :
  count_if f (List.map g l) = count_if (fun x => f (g x)) l.
Proof.
  induction l as [|x l IH]; [reflexivity|].
  cbn [List.map]. rewrite !count_if_cons, IH. reflexivity.
Qed.

Lemma signal_structure_score (self : SignalDetector) :
  fst (signal_structure self) =
    if Z.of_nat (List.length (folder_names self)) =? 0 then 5
    else if bad_count (folder_names self) >? good_count (folder_names self)
         then 8
    else if good_count (folder_names self) >=? 3 then 18
    else if good_count (folder_names self) >=? 1 then 12
    else 5.
Proof. reflexivity. Qed.

(** X1: the structure score depends on the folder names only through
    their lower-case forms and not on their order: two detectors whose
    lower-cased folder names are permutations of one another get the
    same score. *)
Theorem signal_structure_order_and_case (self self' : SignalDetector) :
  Permutation (List.map PyStr.lower (folder_names self))
              (List.map PyStr.lower (folder_names self')) ->
  fst (signal_structure self) = fst (signal_structure self').
Proof.
  intro H. rewrite !signal_structure_score.
  assert (Hlen : List.length (folder_names self)
                 = List.length (folder_names self')).
  { apply Permutation_length in H. now rewrite !List.length_map in H. }
  assert (Hg : good_count (folder_names self)
               = good_count (folder_names self')).
  { unfold good_count.
    rewrite <- (count_if_map PyStr.lower (fun f => mem_str f semantic_good)).
    rewrite <- (count_if_map PyStr.lower (fun f => mem_str f semantic_good)
                             (folder_names self')).
    now apply count_if_permutation. }
  assert (Hb : bad_count (folder_names self)
               = bad_count (folder_names self')).
  { unfold bad_count.
    rewrite <- (count_if_map PyStr.lower (fun f => mem_str f semantic_bad)).
    rewrite <- (count_if_map PyStr.lower (fun f => mem_str f semantic_bad)
                             (folder_names self')).
    now apply count_if_permutation. }
  now rewrite Hlen, Hg, Hb.
Qed.

Lemma signal_structure_order_and_case_witness :
  let self := detector_of_tree [entry_of "SRC/a.py"; entry_of "Docs/b.md";
                                entry_of "tests/t.py"] in
  let self' := detector_of_tree [entry_of "tests/t.py"; entry_of "src/a.py";
                                 entry_of "docs/b.md"] in
  Permutation (List.map PyStr.lower (folder_names self))
              (List.map PyStr.lower (folder_names self'))
  /\ fst (signal_structure self) = fst (signal_structure self').
Proof.
  intros self self'.
  assert (H : Permutation (List.map PyStr.lower (folder_names self))
                          (List.map PyStr.lower (folder_names self'))).
  { change (Permutation ["src"; "docs"; "tests"] ["tests"; "src"; "docs"]).
    apply Permutation_sym, (Permutation_cons_app ["src"; "docs"] []).
    apply Permutation_refl. }
  split; [exact H|].
  exact (signal_structure_order_and_case self self' H).
Defined.

Lemma good_bad_disjoint (f : string) :
  mem_str f semantic_good = true -> mem_str f semantic_bad = false.
Proof.
  unfold mem_str, semantic_good. cbn [existsb]. intro H.
  repeat (apply orb_true_iff in H as [H|H];
          [apply String.eqb_eq in H; subst f; reflexivity|]).
  discriminate.
Qed.

Lemma good_plus_bad (folders : list string) :
  good_count folders + bad_count folders <= Z.of_nat (List.length folders).
Proof.
  unfold good_count, bad_count. induction folders as [|f l IH];
    [rewrite !count_if_nil; cbn; lia|].
  rewrite !count_if_cons. cbn [List.length].
  destruct (mem_str (PyStr.lower f) semantic_good) eqn:E.
  - rewrite (good_bad_disjoint _ E). lia.
  - destruct (mem_str (PyStr.lower f) semantic_bad); lia.
Qed.

(** X2: the structure score is one of 5, 8, 12 and 18; no folder counts
    as both good and bad; the score is 18 exactly when at least three
    folders are good and the bad ones do not outnumber them, and 8
    exactly when the bad folders outnumber the good ones. *)
Theorem signal_structure_levels (self : SignalDetector) :
  let good := good_count (folder_names self) in
  let bad := bad_count (folder_names self) in
  let score := fst (signal_structure self) in
  (score = 5 \/ score = 8 \/ score = 12 \/ score = 18)
  /\ good + bad <= Z.of_nat (List.length (folder_names self))
  /\ (score = 18 <-> 3 <= good /\ bad <= good)
  /\ (score = 8 <-> good < bad).
Proof.
  intros good bad score. subst score. rewrite signal_structure_score.
  fold good bad. pose proof (good_plus_bad (folder_names self)) as Hsum.
  fold good bad in Hsum.
  assert (Hg : 0 <= good) by apply count_if_nonneg.
  assert (Hb : 0 <= bad) by apply count_if_nonneg.
  destruct (Z.eqb_spec (Z.of_nat (List.length (folder_names self))) 0);
    [repeat split; try tauto; intros; lia|].
  destruct (Z.gtb_spec bad good); [repeat split; try tauto; intros; lia|].
  destruct (Z.geb_spec good 3); [repeat split; try tauto; intros; lia|].
  destruct (Z.geb_spec good 1); repeat split; try tauto; intros; lia.
Qed.

(** ** The dependencies signal *)

Lemma dep_files_count (self : SignalDetector) :
  Z.of_nat (List.length (dep_files self)) = dep_count (file_tree self).
Proof. unfold dep_files. apply length_filter_map. Qed.

Lemma lock_files_count (self : SignalDetector) :
  Z.of_nat (List.length (lock_files self)) = lock_count (file_tree self).
Proof. unfold lock_files. apply length_filter_map. Qed.

Lemma signal_dependencies_score (self : SignalDetector) :
  fst (signal_dependencies self) =
    if dep_count (file_tree self) =? 0 then 0
    else if lock_count (file_tree self) >? 0 then 18
    else if dep_count (file_tree self) >? 1 then 14
    else 10.
Proof.
  unfold signal_dependencies.
  rewrite <- dep_files_count, <- lock_files_count.
  destruct (dep_files self) as [|d ds]; [reflexivity|].
  replace (Z.of_nat (List.length (d :: ds)) =? 0) with false
    by (symmetry; apply Z.eqb_neq; cbn [List.length]; lia).
  destruct (lock_files self) as [|l ls]; cbn [andb].
  - change (Z.of_nat (List.length (@nil string)) >? 0) with false.
    cbv iota. destruct (_ >? 1); reflexivity.
  - replace (Z.of_nat (List.length (l :: ls)) >? 0) with true
      by (symmetry; apply Z.gtb_lt; cbn [List.length]; lia).
    reflexivity.
Qed.

(** X3: the dependencies score is settled by two counts over the tree,
    the entries whose path contains a dependency-file name and those
    whose path contains a lock-file name: 0 exactly when there is no
    dependency file (lock files alone do not count), 18 exactly when
    there is a dependency file and a lock file, 14 exactly when there
    are several dependency files and no lock file, 10 exactly when there
    is one dependency file and no lock file. *)
Theorem signal_dependencies_levels (self : SignalDetector) :
  let deps := dep_count (file_tree self) in
  let locks := lock_count (file_tree self) in
  let score := fst (signal_dependencies self) in
  (score = 0 <-> deps = 0)
  /\ (score = 18 <-> 0 < deps /\ 0 < locks)
  /\ (score = 14 <-> 1 < deps /\ locks = 0)
  /\ (score = 10 <-> deps = 1 /\ locks = 0).
Proof.
  intros deps locks score. subst score. rewrite signal_dependencies_score.
  fold deps locks.
  assert (Hd : 0 <= deps) by apply count_if_nonneg.
  assert (Hl : 0 <= locks) by apply count_if_nonneg.
  destruct (Z.eqb_spec deps 0); [repeat split; intros; lia|].
  destruct (Z.gtb_spec locks 0); [repeat split; intros; lia|].
  destruct (Z.gtb_spec deps 1); repeat split; intros; lia.
Qed.

(** ** The folder classifier *)

Lemma mem_str_In (x : string) (l : list string) :
  mem_str x l = true <-> In x l.
Proof.
  unfold mem_str. rewrite List.existsb_exists. split.
  - intros (y & Hy & E). apply String.eqb_eq in E. now subst.
  - intro H. exists x. split; [exact H | apply String.eqb_refl].
Qed.

Lemma set_add_In (x y : string) (l : list string) :
  In y (set_add x l) <-> y = x \/ In y l.
Proof.
  unfold set_add. destruct (mem_str x l) eqn:E.
  - apply mem_str_In in E. split; [tauto|]. intros [->|H]; assumption.
  - rewrite List.in_app_iff. cbn [In]. split.
    + intros [H|[H|[]]]; [now right | now left].
    + intros [->|H]; [right; now left | now left].
Qed.

Lemma set_add_NoDup (x : string) (l : list string) :
  NoDup l -> NoDup (set_add x l).
Proof.
  intro H. unfold set_add. destruct (mem_str x l) eqn:E; [exact H|].
  assert (Hx : ~ In x l).
  { intro Hin. apply mem_str_In in Hin. congruence. }
  apply NoDup_app; [exact H | repeat constructor; intros [] |].
  intros y Hy [<-|[]]. now apply Hx.
Qed.

Lemma extract_folders_loop (tree : list FileTreeEntry)
    (folders : list string) :
  let result :=
    List.fold_left
      (fun folders item =>
         match PyStr.split "/" (get_path item) with
         | p0 :: _ :: _ => set_add p0 folders
         | _ => folders
         end)
      tree folders in
  (NoDup folders -> NoDup result)
  /\ forall f, In f result
               <-> In f folders
                   \/ exists item, In item tree /\ top_folder item = Some f.
Proof.
  revert folders. induction tree as [|item tree IH]; intro folders.
  - cbn. split; [tauto|]. intro f. split; [tauto|].
    intros [H|(item & [] & _)]. exact H.
  - cbn [List.fold_left]. cbv zeta.
    match goal with
    | |- context [List.fold_left ?step tree ?acc] =>
        specialize (IH acc); cbv zeta in IH; destruct IH as [IHn IHi]
    end.
    split.
    + intro Hn. apply IHn.
      destruct (PyStr.split "/" (get_path item)) as [|p0 [|p1 rest]];
        try exact Hn. now apply set_add_NoDup.
    + intro f. rewrite IHi. unfold top_folder at 2.
      destruct (PyStr.split "/" (get_path item)) as [|p0 [|p1 rest]] eqn:E.
      * split; [intros [H|(i & Hi & Ht)]; [now left|right; exists i; split;
                 [now right|exact Ht]]|].
        intros [H|(i & [<-|Hi] & Ht)]; [now left| |right; now exists i].
        unfold top_folder in Ht. rewrite E in Ht. discriminate.
      * split; [intros [H|(i & Hi & Ht)]; [now left|right; exists i; split;
                 [now right|exact Ht]]|].
        intros [H|(i & [<-|Hi] & Ht)]; [now left| |right; now exists i].
        unfold top_folder in Ht. rewrite E in Ht. discriminate.
      * rewrite set_add_In. split.
        -- intros [[->|H]|(i & Hi & Ht)].
           ++ right. exists item. split; [now left|].
              unfold top_folder. now rewrite E.
           ++ now left.
           ++ right. exists i. split; [now right|exact Ht].
        -- intros [H|(i & [<-|Hi] & Ht)].
           ++ left. now right.
           ++ left. left. unfold top_folder in Ht. rewrite E in Ht.
              now injection Ht as <-.
           ++ right. now exists i.
Qed.

Lemma split_nonempty (sep : ascii) (s : string) : PyStr.split sep s <> [].
Proof.
  destruct s as [|c s]; [discriminate|]. cbn [PyStr.split].
  destruct (Ascii.eqb c sep); [discriminate|].
  destruct (PyStr.split sep s); discriminate.
Qed.

(** The first of several segments is what stands before the first
    separator. *)
Lemma split_first_segment (sep : ascii) (s f : string) :
  (exists r rest, PyStr.split sep s = f :: r :: rest)
  <-> exists tail, s = (f ++ String sep tail)%string /\ ~ In sep (chars f).
Proof.
  split.
  - revert f. induction s as [|c s IH]; intros f (r & rest & H).
    + discriminate.
    + cbn [PyStr.split] in H. destruct (Ascii.eqb_spec c sep) as [->|Hc].
      * injection H as <- _. exists s. split; [reflexivity | intros []].
      * destruct (PyStr.split sep s) as [|h t] eqn:E; [discriminate|].
        injection H as <- ->.
        destruct (IH h (ex_intro _ r (ex_intro _ rest eq_refl)))
          as (tail & -> & Hh).
        exists tail. split; [reflexivity|].
        intros [Hin|Hin]; [now apply Hc | now apply Hh].
  - intros (tail & -> & Hf). induction f as [|c f IH].
    + cbn [append PyStr.split]. rewrite Ascii.eqb_refl.
      destruct (PyStr.split sep tail) as [|r rest] eqn:E;
        [now apply split_nonempty in E|].
      now exists r, rest.
    + cbn [append PyStr.split].
      destruct (Ascii.eqb_spec c sep) as [->|Hc];
        [exfalso; apply Hf; now left|].
      destruct IH as (r & rest & ->); [intro Hin; apply Hf; now right|].
      now exists r, rest.
Qed.

Lemma top_folder_prefix (item : FileTreeEntry) (f : string) :
  top_folder item = Some f
  <-> exists tail, get_path item = (f ++ String "/" tail)%string
                   /\ ~ In "/"%char (chars f).
Proof.
  rewrite <- split_first_segment. unfold top_folder. split.
  - destruct (PyStr.split "/" (get_path item)) as [|p0 [|p1 rest]];
      try discriminate. intros [= <-]. now exists p1, rest.
  - intros (r & rest & ->). reflexivity.
Qed.

(** X4: the folder names of a tree are a set, with no name twice, and
    hold exactly the strings without "/" that stand before the first "/"
    of some entry's path; an entry whose path has no "/" gives none. *)
Theorem extract_folders_first_segments (tree : list FileTreeEntry) :
  NoDup (_extract_folders tree)
  /\ forall f : string,
       In f (_extract_folders tree)
       <-> exists item tail,
             In item tree
             /\ get_path item = (f ++ String "/" tail)%string
             /\ ~ In "/"%char (chars f).
Proof.
  destruct (extract_folders_loop tree []) as [Hn Hi]. cbv zeta in Hn, Hi.
  split; [apply Hn; constructor|].
  intro f. unfold _extract_folders. rewrite Hi. split.
  - intros [[]|(item & Hin & Ht)]. apply top_folder_prefix in Ht
      as (tail & Hp & Hf). now exists item, tail.
  - intros (item & tail & Hin & Hp & Hf). right. exists item.
    split; [exact Hin|]. apply top_folder_prefix. now exists tail.
Qed.

(** ** The roadmap again *)

Lemma high_dimensions_length (gaps : Dim.t Z) :
  (List.length (high_dimensions gaps) <= 5)%nat.
Proof.
  unfold high_dimensions.
  apply (List.filter_length_le (fun k => Dim.get k gaps >? 8) Dim.keys).
Qed.

Lemma In_firstn_app {A : Type} (n : nat) (l1 l2 : list A) (x : A) :
  (List.length l1 <= n)%nat -> In x l1 -> In x (List.firstn n (l1 ++ l2)).
Proof.
  intros Hlen Hin. rewrite List.firstn_app.
  rewrite List.firstn_all2 by exact Hlen.
  apply List.in_or_app. now left.
Qed.

Lemma roadmap_length_bounds (gaps profile : Dim.t Z) :
  (1 <= List.length (Analyzer._generate_roadmap gaps profile) <= 5)%nat.
Proof.
  rewrite generate_roadmap_messages. split; [|apply List.firstn_le_length].
  destruct (roadmap_messages gaps profile) as [|m ms]; cbn; lia.
Qed.

(** X5: the roadmap is never empty, and truncation never drops a
    high-priority message: every dimension with a gap above 8 has its
    high-priority message in the roadmap; and when the messages are at
    most five, none is dropped at all. *)
Theorem roadmap_keeps_high_priority (gaps profile : Dim.t Z) :
  let roadmap := Analyzer._generate_roadmap gaps profile in
  (1 <= List.length roadmap)%nat
  /\ (forall d, Dim.get d gaps > 8 -> In (Analyzer.high_message d) roadmap)
  /\ ((List.length (roadmap_messages gaps profile) <= 5)%nat ->
      forall s, In s (roadmap_messages gaps profile) -> In s roadmap).
Proof.
  intro roadmap. subst roadmap. rewrite generate_roadmap_messages.
  split; [|split].
  - destruct (roadmap_messages gaps profile) as [|m ms]; cbn; lia.
  - intros d Hd.
    assert (Hin : In (Analyzer.high_message d)
                     (List.map Analyzer.high_message (high_dimensions gaps))).
    { apply List.in_map. apply List.filter_In. split.
      - destruct d; cbn; tauto.
      - apply Z.gtb_lt. lia. }
    assert (Hfirst : In (Analyzer.high_message d)
                        (List.firstn 5 (roadmap_messages gaps profile))).
    { unfold roadmap_messages. apply In_firstn_app; [|exact Hin].
      rewrite List.length_map. apply high_dimensions_length. }
    destruct (roadmap_messages gaps profile); [destruct Hfirst|exact Hfirst].
  - intros Hlen s Hs.
    destruct (roadmap_messages gaps profile) as [|m ms] eqn:E;
      [destruct Hs|].
    now rewrite List.firstn_all2 by exact Hlen.
Qed.

(** ** The pipeline again *)

Lemma match_tier_found (p : Dim.t Z) :
  in_range p ->
  exists t, match_tier p = (Some t, cosine_similarity p (TIER_PROFILES t)).
Proof.
  intro Hp. apply tier_check_in_range in Hp.
  apply decision_ok_spec in Hp as (t & Hpick & _).
  exists t. now rewrite match_tier_pick, Hpick, sim_of_cosine.
Qed.

Section PipelineSuccess.

Variable b64decode_utf8 : string -> Exc.outcome string.

(** What [analyze] returns when the six fetch stages return. *)
Lemma analyze_returned (repo_info : Analyzer.RepoInfo)
    (tree : list FileTreeEntry) (readme_content : string)
    (commits : list Commit) (branches : list string)
    (languages : list (string * Z)) :
  let fetcher :=
    {| Analyzer.get_repo_info := Exc.Returned repo_info;
       Analyzer.get_file_tree := Exc.Returned tree;
       Analyzer.get_readme := Exc.Returned readme_content;
       Analyzer.get_commits := Exc.Returned commits;
       Analyzer.get_branches := Exc.Returned branches;
       Analyzer.get_languages := Exc.Returned languages |} in
  let self :=
    init tree (Analyzer.decode_readme b64decode_utf8 readme_content)
         commits branches languages in
  let profile := compute_profile_vector (get_all_signals self) in
  exists t,
    match_tier profile = (Some t, cosine_similarity profile (TIER_PROFILES t))
    /\ Analyzer.analyze b64decode_utf8 fetcher
       = Analyzer.Success
           {| Analyzer.score := Analyzer.clamp_score (Dim.sum profile);
              Analyzer.tier := PyStr.title (tier_name t);
              Analyzer.tier_similarity :=
                (cosine_similarity profile (TIER_PROFILES t) * 100)%float;
              Analyzer.profile := profile;
              Analyzer.gaps := compute_gaps profile t;
              Analyzer.signals := Dim.map snd (get_all_signals self);
              Analyzer.summary := Analyzer.make_summary profile;
              Analyzer.roadmap :=
                Analyzer._generate_roadmap (compute_gaps profile t) profile;
              Analyzer.repo_info := repo_info;
              Analyzer.commit_count := Z.of_nat (List.length commits);
              Analyzer.branch_count := Z.of_nat (List.length branches);
              Analyzer.languages := languages;
              Analyzer.status := "success" |}.
Proof.
  intros fetcher self profile.
  destruct (match_tier_found profile (profile_in_range self)) as [t Ht].
  exists t. split; [exact Ht|].
  unfold Analyzer.analyze, Analyzer.analyze_body, fetcher.
  cbn [Analyzer.get_repo_info Analyzer.get_file_tree Analyzer.get_readme
       Analyzer.get_commits Analyzer.get_branches Analyzer.get_languages
       Exc.bind].
  cbv zeta. fold self. fold profile. rewrite Ht. reflexivity.
Qed.

Lemma first_failure_none (fetcher : Analyzer.GitHubFetcher) :
  first_failure fetcher = None ->
  exists repo_info tree readme_content commits branches languages,
    fetcher =
      {| Analyzer.get_repo_info := Exc.Returned repo_info;
         Analyzer.get_file_tree := Exc.Returned tree;
         Analyzer.get_readme := Exc.Returned readme_content;
         Analyzer.get_commits := Exc.Returned commits;
         Analyzer.get_branches := Exc.Returned branches;
         Analyzer.get_languages := Exc.Returned languages |}.
Proof.
  unfold first_failure. destruct fetcher as [ri ft rd cm br lg].
  cbn [Analyzer.get_repo_info Analyzer.get_file_tree Analyzer.get_readme
       Analyzer.get_commits Analyzer.get_branches Analyzer.get_languages].
  destruct ri as [ri|e]; [|discriminate].
  destruct ft as [ft|e]; [|discriminate].
  destruct rd as [rd|e]; [|discriminate].
  destruct cm as [cm|e]; [|discriminate].
  destruct br as [br|e]; [|discriminate].
  destruct lg as [lg|e]; [|discriminate].
  intros _. now exists ri, ft, rd, cm, br, lg.
Qed.

End PipelineSuccess.

Lemma compute_gaps_bounds (p : Dim.t Z) (t : tier) (k : Dim.key) :
  in_range p -> 0 <= Dim.get k (compute_gaps p t) <= 18.
Proof.
  destruct p as [a b c d e]. intro H.
  apply in_range_fields in H as (Ha & Hb & Hc & Hd & He).
  unfold compute_gaps. rewrite next_tier_above.
  destruct t, k;
    cbn [Dim.get Dim.structure Dim.documentation Dim.tests Dim.commits
         Dim.dependencies tier_above TIER_PROFILES]; lia.
Qed.

(** X6: the scoring stage never fails: [analyze] returns a success
    record exactly when none of the six fetch stages raises, whatever
    the fetched data and whatever the base64 decoder does; and every
    error record it returns carries the text of the first fetch stage
    that raised. *)
Theorem analyze_succeeds_iff_fetches_return
    (b64decode_utf8 : string -> Exc.outcome string)
    (fetcher : Analyzer.GitHubFetcher) :
  (first_failure fetcher = None
   <-> exists report,
         Analyzer.analyze b64decode_utf8 fetcher = Analyzer.Success report)
  /\ (forall r,
        Analyzer.analyze b64decode_utf8 fetcher = Analyzer.Failure r ->
        exists e,
          first_failure fetcher = Some e
          /\ r = {| Analyzer.error := "Analysis failed: " ++ e;
                    Analyzer.error_status := "error" |}).
Proof.
  assert (Hok : first_failure fetcher = None ->
                exists report,
                  Analyzer.analyze b64decode_utf8 fetcher
                  = Analyzer.Success report).
  { intro H. apply first_failure_none in H
      as (ri & ft & rd & cm & br & lg & ->).
    destruct (analyze_returned b64decode_utf8 ri ft rd cm br lg)
      as (t & _ & Ha).
    eexists. exact Ha. }
  split; [split; [exact Hok|]|].
  - intros [report H]. now apply analyze_success in H.
  - intros r H. destruct (first_failure fetcher) as [e|] eqn:E.
    + exists e. split; [reflexivity|].
      rewrite (analyze_failure b64decode_utf8 fetcher e E) in H.
      now injection H as <-.
    + destruct (Hok eq_refl) as [report Hr]. congruence.
Qed.

(** X7: a success record is consistent: its tier is the capitalised name
    of a tier that [match_tier] chose for its profile, its gaps are
    those of the profile against the tier above, each between 0 and 18,
    its roadmap is the one generated from these gaps and has between 1
    and 5 entries, its counts are the lengths of the fetched lists, and
    its status is "success". *)
Theorem analyze_report_consistent
    (b64decode_utf8 : string -> Exc.outcome string)
    (fetcher : Analyzer.GitHubFetcher) (report : Analyzer.Report) :
  Analyzer.analyze b64decode_utf8 fetcher = Analyzer.Success report ->
  (exists t,
     fst (match_tier (Analyzer.profile report)) = Some t
     /\ Analyzer.tier report = PyStr.title (tier_name t)
     /\ Analyzer.gaps report = compute_gaps (Analyzer.profile report) t)
  /\ (Analyzer.tier report = "Beginner"
      \/ Analyzer.tier report = "Intermediate"
      \/ Analyzer.tier report = "Advanced")
  /\ (forall k, 0 <= Dim.get k (Analyzer.gaps report) <= 18)
  /\ Analyzer.roadmap report
     = Analyzer._generate_roadmap (Analyzer.gaps report)
                                  (Analyzer.profile report)
  /\ (1 <= List.length (Analyzer.roadmap report) <= 5)%nat
  /\ Exc.Returned (Analyzer.commit_count report)
     = Exc.bind (Analyzer.get_commits fetcher)
                (fun cs => Exc.Returned (Z.of_nat (List.length cs)))
  /\ Exc.Returned (Analyzer.branch_count report)
     = Exc.bind (Analyzer.get_branches fetcher)
                (fun bs => Exc.Returned (Z.of_nat (List.length bs)))
  /\ Analyzer.status report = "success".
Proof.
  intro H. pose proof H as H0. apply analyze_success in H0 as [Hf _].
  apply first_failure_none in Hf as (ri & ft & rd & cm & br & lg & ->).
  destruct (analyze_returned b64decode_utf8 ri ft rd cm br lg)
    as (t & Ht & Ha).
  cbv zeta in Ht, Ha. rewrite Ha in H. injection H as <-.
  cbn [Analyzer.profile Analyzer.tier Analyzer.gaps Analyzer.roadmap
       Analyzer.commit_count Analyzer.branch_count Analyzer.status
       Analyzer.get_commits Analyzer.get_branches Exc.bind].
  set (self := init ft (Analyzer.decode_readme b64decode_utf8 rd) cm br lg)
    in *.
  set (profile := compute_profile_vector (get_all_signals self)) in *.
  pose proof (profile_in_range self) as Hp. fold profile in Hp.
  split; [exists t; rewrite Ht; repeat split; reflexivity|].
  split; [destruct t; cbn; tauto|].
  split; [intro k; now apply compute_gaps_bounds|].
  split; [reflexivity|].
  split; [apply roadmap_length_bounds | repeat split; reflexivity].
Qed.

Lemma analyze_report_consistent_witness :
  exists report,
    Analyzer.analyze (fun s => Exc.Returned s) working_fetcher
    = Analyzer.Success report
    /\ Analyzer.tier report = "Intermediate"
    /\ Analyzer.gaps report = Dim.mk 6 12 12 0 8
    /\ Analyzer.status report = "success".
Proof.
  assert (H : { report | Analyzer.analyze (fun s => Exc.Returned s)
                           working_fetcher = Analyzer.Success report
                         /\ Analyzer.tier report = "Intermediate"
                         /\ Analyzer.gaps report = Dim.mk 6 12 12 0 8 }).
  { eexists. vm_compute. repeat split; reflexivity. }
  destruct H as [report (Hr & Ht & Hg)]. exists report.
  split; [exact Hr | split; [exact Ht | split; [exact Hg|]]].
  exact (proj2 (proj2 (proj2 (proj2 (proj2 (proj2 (proj2
           (analyze_report_consistent (fun s => Exc.Returned s)
              working_fetcher report Hr)))))))).
Defined.

(** ** The README decoding *)






(** ** The summary *)

Section Sorting.

Variable before : Z -> Z -> bool.
Hypothesis before_total : forall a b, before a b = false -> before b a = true.
Hypothesis before_trans :
  forall a b c, before a b = true -> before b c = true -> before a c = true.

Let ordered (x y : Dim.key * Z) : Prop := before (snd x) (snd y) = true.

Lemma insert_by_permutation (x : Dim.key * Z) (l : list (Dim.key * Z)) :
  Permutation (Analyzer.insert_by before x l) (x :: l).
Proof.
  induction l as [|y l IH]; [apply Permutation_refl|].
  cbn [Analyzer.insert_by]. destruct (before (snd x) (snd y)).
  - apply Permutation_refl.
  - eapply Permutation_trans; [apply perm_skip, IH | apply perm_swap].
Qed.

Lemma sorted_by_permutation (l : list (Dim.key * Z)) :
  Permutation (Analyzer.sorted_by before l) l.
Proof.
  unfold Analyzer.sorted_by. induction l as [|x l IH];
    [apply Permutation_refl|].
  cbn [List.fold_right].
  eapply Permutation_trans; [apply insert_by_permutation|].
  now apply perm_skip.
Qed.

Lemma insert_by_sorted (x : Dim.key * Z) (l : list (Dim.key * Z)) :
  StronglySorted ordered l ->
  StronglySorted ordered (Analyzer.insert_by before x l).
Proof.
  induction l as [|y l IH]; intro H; [repeat constructor|].
  cbn [Analyzer.insert_by]. destruct (before (snd x) (snd y)) eqn:E.
  - constructor; [exact H|]. constructor; [exact E|].
    apply StronglySorted_inv in H as [_ Hy].
    apply List.Forall_forall. intros z Hz.
    rewrite List.Forall_forall in Hy. unfold ordered.
    eapply before_trans; [exact E | now apply Hy].
  - apply StronglySorted_inv in H as [Hl Hy]. constructor; [now apply IH|].
    apply List.Forall_forall. intros z Hz.
    apply (Permutation_in _ (insert_by_permutation x l)) in Hz.
    destruct Hz as [<-|Hz]; [now apply before_total|].
    rewrite List.Forall_forall in Hy. now apply Hy.
Qed.

Lemma sorted_by_sorted (l : list (Dim.key * Z)) :
  StronglySorted ordered (Analyzer.sorted_by before l).
Proof.
  unfold Analyzer.sorted_by. induction l as [|x l IH]; [constructor|].
  cbn [List.fold_right]. now apply insert_by_sorted.
Qed.

Lemma sorted_split (n : nat) (l : list (Dim.key * Z)) :
  StronglySorted ordered l ->
  forall x y, In x (List.firstn n l) -> In y (List.skipn n l) -> ordered x y.
Proof.
  revert l. induction n as [|n IH]; intros l H x y Hx Hy; [destruct Hx|].
  destruct l as [|a l]; [destruct Hx|].
  apply StronglySorted_inv in H as [Hl Ha].
  cbn [List.firstn List.skipn] in Hx, Hy. destruct Hx as [<-|Hx].
  - rewrite List.Forall_forall in Ha. apply Ha.
    rewrite <- (List.firstn_skipn n l). apply List.in_or_app. now right.
  - now apply (IH l).
Qed.

(** The first two of the sorted items come before every other item. *)
Lemma first_two_before_the_rest (profile : Dim.t Z) (k k' : Dim.key)
    (v : Z) :
  In (k, v) (List.firstn 2 (Analyzer.sorted_by before (Dim.items profile))) ->
  ~ In k' (List.map fst (List.firstn 2 (Analyzer.sorted_by before
                                          (Dim.items profile)))) ->
  v = Dim.get k profile /\ before v (Dim.get k' profile) = true.
Proof.
  intros Hk Hk'.
  set (sorted := Analyzer.sorted_by before (Dim.items profile)) in *.
  assert (Hperm : Permutation sorted (Dim.items profile))
    by apply sorted_by_permutation.
  assert (Hitems : forall j w, In (j, w) (Dim.items profile) ->
                               w = Dim.get j profile).
  { intros j w H. unfold Dim.items in H.
    apply List.in_map_iff in H as (j' & [= <- <-] & _). reflexivity. }
  split.
  - apply Hitems. apply (Permutation_in _ Hperm).
    now apply In_firstn in Hk.
  - assert (Hin : In (k', Dim.get k' profile) sorted).
    { apply (Permutation_in _ (Permutation_sym Hperm)).
      unfold Dim.items. apply List.in_map_iff. exists k'.
      split; [reflexivity | destruct k'; cbn; tauto]. }
    rewrite <- (List.firstn_skipn 2 sorted) in Hin.
    apply List.in_app_or in Hin as [Hin|Hin].
    + exfalso. apply Hk'. apply List.in_map_iff.
      now exists (k', Dim.get k' profile).
    + exact (sorted_split 2 sorted (sorted_by_sorted _) _ _ Hk Hin).
Qed.

End Sorting.

Lemma sorted_by_length (before : Z -> Z -> bool) (l : list (Dim.key * Z)) :
  List.length (Analyzer.sorted_by before l) = List.length l.
Proof. apply Permutation_length, sorted_by_permutation. Qed.

(** X9: the summary names two strengths and two weaknesses; a strength
    scores at least as much as every dimension that is not named as a
    strength, and a weakness at most as much as every dimension that is
    not named as a weakness; when all five scores are equal, the same
    two dimensions, the first two in key order, are named as both. *)
Theorem summary_strengths_and_weaknesses (profile : Dim.t Z) :
  Analyzer.make_summary profile
  = "Strong in "
    ++ PyStr.join ", " (List.map (fun s => Analyzer.display_names (fst s))
                                 (strengths profile))
    ++ ". Needs improvement in "
    ++ PyStr.join ", " (List.map (fun w => Analyzer.display_names (fst w))
                                 (weaknesses profile))
    ++ "."
  /\ List.length (strengths profile) = 2%nat
  /\ List.length (weaknesses profile) = 2%nat
  /\ (forall k v k',
        In (k, v) (strengths profile) ->
        ~ In k' (List.map fst (strengths profile)) ->
        v = Dim.get k profile /\ Dim.get k' profile <= v)
  /\ (forall k v k',
        In (k, v) (weaknesses profile) ->
        ~ In k' (List.map fst (weaknesses profile)) ->
        v = Dim.get k profile /\ v <= Dim.get k' profile)
  /\ (forall v,
        strengths (Dim.mk v v v v v)
        = [(Dim.Structure, v); (Dim.Documentation, v)]
        /\ weaknesses (Dim.mk v v v v v)
           = [(Dim.Structure, v); (Dim.Documentation, v)]).
Proof.
  split; [reflexivity|].
  split; [unfold strengths; rewrite List.length_firstn, sorted_by_length;
          reflexivity|].
  split; [unfold weaknesses; rewrite List.length_firstn, sorted_by_length;
          reflexivity|].
  split; [|split].
  - intros k v k' Hk Hk'.
    destruct (first_two_before_the_rest Z.geb) with (3 := Hk) (4 := Hk')
      as [Hv Hb].
    + intros a b H. apply Z.geb_le. destruct (Z.geb_spec a b); [discriminate|lia].
    + intros a b c H1 H2. apply Z.geb_le in H1. apply Z.geb_le in H2.
      apply Z.geb_le. lia.
    + split; [exact Hv|]. apply Z.geb_le in Hb. lia.
  - intros k v k' Hk Hk'.
    destruct (first_two_before_the_rest Z.leb) with (3 := Hk) (4 := Hk')
      as [Hv Hb].
    + intros a b H. apply Z.leb_le. apply Z.leb_gt in H. lia.
    + intros a b c H1 H2. apply Z.leb_le in H1. apply Z.leb_le in H2.
      apply Z.leb_le. lia.
    + split; [exact Hv|]. now apply Z.leb_le in Hb.
  - intro v. unfold strengths, weaknesses, Analyzer.sorted_by, Dim.items.
    cbn [Dim.keys List.map Dim.get Dim.structure Dim.documentation Dim.tests
         Dim.commits Dim.dependencies List.fold_right Analyzer.insert_by
         snd].
    assert (Hg : Z.geb v v = true) by (apply Z.geb_le; lia).
    assert (Hl : Z.leb v v = true) by (apply Z.leb_le; lia).
    assert (Hstep : forall bf x y l,
              Analyzer.insert_by bf x (y :: l)
              = if bf (snd x) (snd y) then x :: y :: l
                else y :: Analyzer.insert_by bf x l) by reflexivity.
    repeat (rewrite ?Hg, ?Hl; rewrite Hstep; cbn [snd]).
    rewrite ?Hg, ?Hl. split; reflexivity.
Qed.

(** ** The range of the similarities *)

Lemma sweep_all_spec (leaf : int -> int -> int -> int -> bool) (n : nat) :
  sweep_all leaf n = true ->
  Z.of_nat n < Uint63.wB ->
  forall a b c d e : Z,
    0 <= a < Z.of_nat n -> 0 <= b < Z.of_nat n -> 0 <= c < Z.of_nat n ->
    0 <= d < Z.of_nat n -> 0 <= e < Z.of_nat n ->
    let ia := Uint63.of_Z a in let ib := Uint63.of_Z b in
    let ic := Uint63.of_Z c in let id := Uint63.of_Z d in
    let ie := Uint63.of_Z e in
    leaf (ia * ia + ib * ib + ic * ic + id * id + ie * ie)%uint63
         (ia * 5 + ib * 3 + ic * 0 + id * 4 + ie * 2)%uint63
         (ia * 14 + ib * 12 + ic * 10 + id * 12 + ie * 12)%uint63
         (ia * 18 + ib * 18 + ic * 18 + id * 16 + ie * 18)%uint63
    = true.
Proof.
  intros Hall Hn a b c d e Ha Hb Hc Hd He.
  assert (H0 : Uint63.to_Z 0%uint63 = 0) by reflexivity.
  unfold sweep_all in Hall.
  pose proof (all_from_spec n _ 0%uint63 Hall) as Ha'.
  rewrite H0 in Ha'. specialize (Ha' Hn a Ha). cbv beta in Ha'.
  unfold sweep_documentation in Ha'.
  pose proof (all_from_spec n _ 0%uint63 Ha') as Hb'.
  rewrite H0 in Hb'. specialize (Hb' Hn b Hb). cbv beta in Hb'.
  unfold sweep_tests in Hb'.
  pose proof (all_from_spec n _ 0%uint63 Hb') as Hc'.
  rewrite H0 in Hc'. specialize (Hc' Hn c Hc). cbv beta in Hc'.
  unfold sweep_commits in Hc'.
  pose proof (all_from_spec n _ 0%uint63 Hc') as Hd'.
  rewrite H0 in Hd'. specialize (Hd' Hn d Hd). cbv beta in Hd'.
  unfold sweep_dependencies in Hd'.
  pose proof (all_from_spec n _ 0%uint63 Hd') as He'.
  rewrite H0 in He'. specialize (He' Hn e He). cbv beta in He'.
  exact He'.
Qed.

Lemma sim_range_check63_Z (ss db di da : int) :
  sim_range_check63 ss db di da
  = sim_range_check (Uint63.to_Z ss) (Uint63.to_Z db) (Uint63.to_Z di)
                    (Uint63.to_Z da).
Proof.
  unfold sim_range_check63, sim_range_check. cbv zeta.
  now rewrite !cos63_cos_of, float_of_Z_to_Z.
Qed.

(** Every profile of the data model has its three similarities in
    range: 21^5 profiles, each evaluated in binary64. *)
Lemma sim_range_all_21 : sweep_all sim_range_check63 21 = true.
Proof. vm_cast_no_check (eq_refl true). Qed.

Lemma sim_range_small (a b c d e : Z) :
  0 <= a <= 20 -> 0 <= b <= 20 -> 0 <= c <= 20 -> 0 <= d <= 20 ->
  0 <= e <= 20 ->
  sim_range_check (a * a + b * b + c * c + d * d + e * e)
                  (a * 5 + b * 3 + c * 0 + d * 4 + e * 2)
                  (a * 14 + b * 12 + c * 10 + d * 12 + e * 12)
                  (a * 18 + b * 18 + c * 18 + d * 16 + e * 18) = true.
Proof.
  intros Ha Hb Hc Hd He.
  assert (Hn : Z.of_nat 21 < Uint63.wB) by (rewrite wB_value; lia).
  assert (H21 : Z.of_nat 21 = 21) by reflexivity.
  pose proof (sweep_all_spec sim_range_check63 21 sim_range_all_21 Hn
                a b c d e) as H.
  rewrite H21 in H.
  specialize (H ltac:(lia) ltac:(lia) ltac:(lia) ltac:(lia) ltac:(lia)).
  cbv zeta in H. rewrite sim_range_check63_Z in H.
  pose proof (to_Z_of_small a Ha) as Ea. pose proof (to_Z_of_small b Hb) as Eb.
  pose proof (to_Z_of_small c Hc) as Ec. pose proof (to_Z_of_small d Hd) as Ed.
  pose proof (to_Z_of_small e He) as Ee.
  rewrite (weighted_sum63 a b c d e _ _ _ _ _ Ha Hb Hc Hd He) in H
    by (rewrite ?Ea, ?Eb, ?Ec, ?Ed, ?Ee; lia).
  rewrite (weighted_sum63 a b c d e 5 3 0 4 2 Ha Hb Hc Hd He) in H
    by (intro; discriminate).
  rewrite (weighted_sum63 a b c d e 14 12 10 12 12 Ha Hb Hc Hd He) in H
    by (intro; discriminate).
  rewrite (weighted_sum63 a b c d e 18 18 18 16 18 Ha Hb Hc Hd He) in H
    by (intro; discriminate).
  rewrite Ea, Eb, Ec, Ed, Ee in H.
  exact H.
Qed.

Lemma cosine_similarity_tier (p : Dim.t Z) :
  cosine_similarity p (TIER_PROFILES beginner)
  = cos_of (PrimFloat.sqrt (float_of_Z (sum_squares p)))
           (dot p (TIER_PROFILES beginner)) mag_beginner
  /\ cosine_similarity p (TIER_PROFILES intermediate)
     = cos_of (PrimFloat.sqrt (float_of_Z (sum_squares p)))
              (dot p (TIER_PROFILES intermediate)) mag_intermediate
  /\ cosine_similarity p (TIER_PROFILES advanced)
     = cos_of (PrimFloat.sqrt (float_of_Z (sum_squares p)))
              (dot p (TIER_PROFILES advanced)) mag_advanced.
Proof. repeat split; reflexivity. Qed.

(** X10: the similarity of a profile of the data model to a tier
    reference is a number between 0 and 1 + 2^-52 (never negative, never
    undefined), and so is the similarity [match_tier] returns; the upper
    end is reached: the "advanced" reference has similarity 1 + 2^-52 to
    itself. *)
Theorem cosine_similarity_in_unit_range :
  (forall (p : Dim.t Z) (t : tier),
     in_range p ->
     in_unit (cosine_similarity p (TIER_PROFILES t)) = true
     /\ in_unit (snd (match_tier p)) = true)
  /\ cosine_similarity (TIER_PROFILES advanced) (TIER_PROFILES advanced)
     = 0x1.0000000000001p+0%float.
Proof.
  split; [|vm_compute; reflexivity].
  intros p t Hp.
  assert (Hall : forall t',
            in_unit (cosine_similarity p (TIER_PROFILES t')) = true).
  { destruct p as [a b c d e].
    pose proof Hp as Hf.
    apply in_range_fields in Hf as (Ha & Hb & Hc & Hd & He).
    pose proof (sim_range_small a b c d e Ha Hb Hc Hd He) as H.
    destruct (sums_by_dimension a b c d e) as (Es & Eb & Ei & Ea).
    cbv zeta in Es, Eb, Ei, Ea.
    rewrite <- Es, <- Eb, <- Ei, <- Ea in H.
    unfold sim_range_check in H. cbv zeta in H.
    destruct (cosine_similarity_tier (Dim.mk a b c d e)) as (Cb & Ci & Ca).
    rewrite <- Cb, <- Ci, <- Ca in H.
    apply andb_true_iff in H as [H H3]. apply andb_true_iff in H as [H1 H2].
    intros []; assumption. }
  split; [apply Hall|].
  destruct (match_tier_found p Hp) as [t' ->]. apply Hall.
Qed.

Lemma cosine_similarity_in_unit_range_witness :
  let p := Dim.mk 12 6 6 20 10 in
  in_range p
  /\ in_unit (cosine_similarity p (TIER_PROFILES intermediate)) = true
  /\ in_unit (snd (match_tier p)) = true.
Proof.
  intro p. split; [exact in_range_example|].
  exact (proj1 cosine_similarity_in_unit_range p intermediate
               in_range_example).
Defined.

(** ** Gaps and roadmap together *)

Lemma compute_gaps_get (p : Dim.t Z) (t : tier) (k : Dim.key) :
  Dim.get k (compute_gaps p t)
  = Z.max 0 (Dim.get k (TIER_PROFILES (tier_above t)) - Dim.get k p).
Proof.
  unfold compute_gaps. rewrite next_tier_above. destruct k; reflexivity.
Qed.

Lemma high_message_inj (d d' : Dim.key) :
  Analyzer.high_message d = Analyzer.high_message d' -> d = d'.
Proof.
  intro H. apply String.eqb_eq in H.
  destruct d, d'; try reflexivity; vm_compute in H; discriminate.
Qed.

Lemma medium_message_inj (d d' : Dim.key) :
  Analyzer.medium_message d = Analyzer.medium_message d' -> d = d'.
Proof.
  intro H. apply String.eqb_eq in H.
  destruct d, d'; try reflexivity; vm_compute in H; discriminate.
Qed.

Lemma roadmap_member (gaps profile : Dim.t Z) (s : string) :
  In s (Analyzer._generate_roadmap gaps profile) ->
  s = Analyzer.fallback_message \/ In s (roadmap_messages gaps profile).
Proof.
  rewrite generate_roadmap_messages. intro H. apply In_firstn in H.
  destruct (roadmap_messages gaps profile) as [|m ms].
  - destruct H as [<-|[]]. now left.
  - now right.
Qed.

Lemma high_in_roadmap (gaps profile : Dim.t Z) (d : Dim.key) :
  In (Analyzer.high_message d) (Analyzer._generate_roadmap gaps profile) ->
  Dim.get d gaps > 8.
Proof.
  intro H. apply roadmap_member in H as [H|H].
  - pose proof (priority_high d) as Hp. rewrite H, priority_fallback in Hp.
    discriminate.
  - pose proof (priority_high d) as Hp.
    apply roadmap_messages_origin in H
      as [(_ & d' & E & Hg)|[(Hq & _)|(Hq & _)]]; try congruence.
    apply high_message_inj in E. now subst.
Qed.

Lemma medium_in_roadmap (gaps profile : Dim.t Z) (d : Dim.key) :
  In (Analyzer.medium_message d) (Analyzer._generate_roadmap gaps profile) ->
  4 <= Dim.get d gaps <= 8.
Proof.
  intro H. apply roadmap_member in H as [H|H].
  - pose proof (priority_medium d) as Hp. rewrite H, priority_fallback in Hp.
    discriminate.
  - pose proof (priority_medium d) as Hp.
    apply roadmap_messages_origin in H
      as [(Hq & _)|[(_ & d' & E & Hg)|(Hq & _)]]; try congruence.
    apply medium_message_inj in E. now subst.
Qed.

(** X11: what the roadmap says about a dimension follows its shortfall,
    the reference score of the tier above minus the score of the
    profile: a shortfall above 8 always puts the high-priority message
    of the dimension in the roadmap; the high-priority message appears
    only then; the medium-priority message appears only for a shortfall
    from 4 to 8; so a dimension less than 4 points short is never
    mentioned. *)
Theorem roadmap_follows_shortfall (p : Dim.t Z) (t : tier) (d : Dim.key) :
  let roadmap := Analyzer._generate_roadmap (compute_gaps p t) p in
  let shortfall := Dim.get d (TIER_PROFILES (tier_above t)) - Dim.get d p in
  (8 < shortfall <-> In (Analyzer.high_message d) roadmap)
  /\ (In (Analyzer.medium_message d) roadmap -> 4 <= shortfall <= 8)
  /\ (shortfall < 4 ->
      ~ In (Analyzer.high_message d) roadmap
      /\ ~ In (Analyzer.medium_message d) roadmap).
Proof.
  intros roadmap shortfall.
  assert (Hgap : Dim.get d (compute_gaps p t) = Z.max 0 shortfall)
    by apply compute_gaps_get.
  assert (Hhigh : In (Analyzer.high_message d) roadmap -> 8 < shortfall).
  { intro H. apply high_in_roadmap in H. lia. }
  assert (Hmed : In (Analyzer.medium_message d) roadmap ->
                 4 <= shortfall <= 8).
  { intro H. apply medium_in_roadmap in H. lia. }
  split; [split; [|exact Hhigh]|split; [exact Hmed|]].
  - intro H.
    assert (Hg : Dim.get d (compute_gaps p t) > 8) by lia.
    unfold roadmap. rewrite generate_roadmap_messages.
    assert (Hin : In (Analyzer.high_message d)
                     (List.firstn 5 (roadmap_messages (compute_gaps p t) p))).
    { unfold roadmap_messages. apply In_firstn_app.
      - rewrite List.length_map. apply high_dimensions_length.
      - apply List.in_map. apply List.filter_In. split.
        + destruct d; cbn; tauto.
        + apply Z.gtb_lt. lia. }
    destruct (roadmap_messages (compute_gaps p t) p); [destruct Hin|exact Hin].
  - intro H. split; intro Hin; [apply Hhigh in Hin | apply Hmed in Hin]; lia.
Qed.

Lemma roadmap_follows_shortfall_witness :
  let p := Dim.mk 12 6 6 20 10 in
  let roadmap :=
    Analyzer._generate_roadmap (compute_gaps p intermediate) p in
  Dim.get Dim.Commits (TIER_PROFILES (tier_above intermediate))
  - Dim.get Dim.Commits p < 4
  /\ ~ In (Analyzer.high_message Dim.Commits) roadmap
  /\ ~ In (Analyzer.medium_message Dim.Commits) roadmap.
Proof.
  intros p roadmap.
  assert (H : Dim.get Dim.Commits (TIER_PROFILES (tier_above intermediate))
              - Dim.get Dim.Commits p < 4) by (cbn; lia).
  split; [exact H|].
  exact (proj2 (proj2 (roadmap_follows_shortfall p intermediate Dim.Commits))
               H).
Defined.

(** ** The commits signal again *)

Lemma counts_from_lowered (cs : list Commit) :
  conventional_count cs
  = count_if is_conventional
      (List.firstn 50 (List.map (fun c => PyStr.lower (get_message c)) cs))
  /\ descriptive_count cs
     = count_if is_descriptive
         (List.firstn 50 (List.map (fun c => PyStr.lower (get_message c)) cs)).
Proof.
  unfold conventional_count, descriptive_count.
  rewrite !List.firstn_map, !count_if_map. split; reflexivity.
Qed.

(** X12: the commits score reads the messages only through their
    lower-case forms: two commit lists whose messages agree once
    lower-cased get the same score, whatever the other fields hold. *)
Theorem signal_commits_case_insensitive (self self' : SignalDetector) :
  List.map (fun c => PyStr.lower (get_message c)) (commits self)
  = List.map (fun c => PyStr.lower (get_message c)) (commits self') ->
  fst (signal_commits self) = fst (signal_commits self').
Proof.
  intro H. rewrite !signal_commits_score.
  destruct (counts_from_lowered (commits self)) as [-> ->].
  destruct (counts_from_lowered (commits self')) as [-> ->].
  assert (Hlen : List.length (commits self) = List.length (commits self')).
  { now rewrite <- (List.length_map (fun c => PyStr.lower (get_message c))),
      H, List.length_map. }
  rewrite <- H, Hlen.
  destruct (commits self), (commits self'); try discriminate; reflexivity.
Qed.

Lemma signal_commits_case_insensitive_witness :
  let self :=
    detector_of_commits [commit_of "FEAT: Add The Parser Module"] in
  let self' :=
    detector_of_commits
      [ {| message := Some "feat: add the parser module";
           author := "someone else"; date := "2023-05-05"; sha := "abc" |} ]
  in
  List.map (fun c => PyStr.lower (get_message c)) (commits self)
  = List.map (fun c => PyStr.lower (get_message c)) (commits self')
  /\ fst (signal_commits self) = fst (signal_commits self').
Proof.
  intros self self'.
  assert (H : List.map (fun c => PyStr.lower (get_message c)) (commits self)
              = List.map (fun c => PyStr.lower (get_message c))
                         (commits self')) by reflexivity.
  split; [exact H|].
  exact (signal_commits_case_insensitive self self' H).
Defined.

(** X13: only the first 50 commits can earn points, but the whole list
    divides them: the score times the number of commits is at most 40
    times the number of inspected commits; so a list of more than 100
    commits scores at most 19, and a list of more than 2000 scores 0. *)
Theorem signal_commits_cap (self : SignalDetector) :
  let n := Z.of_nat (List.length (commits self)) in
  let score := fst (signal_commits self) in
  score * n <= 40 * Z.min 50 n
  /\ (100 < n -> score <= 19)
  /\ (2000 < n -> score = 0).
Proof.
  intros n score.
  assert (H : score * n <= 40 * Z.min 50 n).
  { subst score. rewrite signal_commits_score.
    destruct (commits self) as [|c cs] eqn:E; [subst n; cbn; lia|].
    fold n. pose proof (counts_le_inspected (c :: cs)) as [H0 Hk].
    fold n in Hk.
    set (k := conventional_count (c :: cs) + descriptive_count (c :: cs))
      in *.
    assert (Hn : 0 < n) by (subst n; cbn [List.length]; lia).
    pose proof (Z.mul_div_le (k * 20) n Hn) as Hd.
    assert (0 <= k * 20 / n) by (apply Z.div_pos; lia).
    assert (Z.min 20 (k * 20 / n) * n <= (k * 20 / n) * n)
      by (apply Z.mul_le_mono_nonneg_r; lia).
    lia. }
  pose proof (signal_commits_range self) as Hr. fold score in Hr.
  split; [exact H|]. split; intro Hn.
  - assert (score * n <= 2000) by lia. nia.
  - assert (score * n <= 2000) by lia. nia.
Qed.

Lemma signal_commits_cap_witness :
  let self := detector_of_commits (List.repeat (commit_of "feat: x") 101) in
  100 < Z.of_nat (List.length (commits self))
  /\ fst (signal_commits self) <= 19.
Proof.
  intro self.
  assert (H : 100 < Z.of_nat (List.length (commits self)))
    by (vm_compute; reflexivity).
  split; [exact H|].
  exact (proj1 (proj2 (signal_commits_cap self)) H).
Defined.

(** ** The repository URL *)

Lemma append_assoc (a b c : string) :
  ((a ++ b) ++ c = a ++ (b ++ c))%string.
Proof. induction a as [|x a IH]; cbn; [reflexivity | now rewrite IH]. Qed.

Lemma chars_append (a b : string) :
  chars (a ++ b) = (chars a ++ chars b)%list.
Proof. induction a as [|x a IH]; cbn; [reflexivity | now rewrite IH]. Qed.

Lemma last_char (s : string) :
  s <> EmptyString ->
  exists r a, s = (r ++ String a EmptyString)%string.
Proof.
  induction s as [|c s IH]; intro H; [contradiction|].
  destruct s as [|c' s'].
  - now exists EmptyString, c.
  - destruct IH as (r & a & E); [discriminate|].
    exists (String c r), a. cbn. now rewrite <- E.
Qed.

Lemma rstrip_all (c : ascii) (t : string) :
  List.Forall (eq c) (chars t) -> Fetcher.rstrip c t = EmptyString.
Proof.
  induction t as [|a t IH]; intro H; [reflexivity|].
  cbn [chars] in H. apply List.Forall_cons_iff in H as [<- H].
  cbn [Fetcher.rstrip]. rewrite (IH H). now rewrite Ascii.eqb_refl.
Qed.

Lemma rstrip_append_all (c : ascii) (s t : string) :
  List.Forall (eq c) (chars t) ->
  Fetcher.rstrip c (s ++ t) = Fetcher.rstrip c s.
Proof.
  intro H. induction s as [|a s IH]; cbn [append Fetcher.rstrip].
  - now apply rstrip_all.
  - now rewrite IH.
Qed.

Lemma rstrip_keeps (c a : ascii) (s : string) :
  a <> c ->
  Fetcher.rstrip c (s ++ String a EmptyString)
  = (s ++ String a EmptyString)%string.
Proof.
  intro Ha. induction s as [|b s IH]; cbn [append Fetcher.rstrip].
  - destruct (Ascii.eqb_spec a c); [contradiction | reflexivity].
  - rewrite IH. destruct s; reflexivity.
Qed.

Lemma split_append_sep (sep : ascii) (a b : string) :
  PyStr.split sep (a ++ String sep b)
  = (PyStr.split sep a ++ PyStr.split sep b)%list.
Proof.
  induction a as [|c a IH]; cbn [append PyStr.split].
  - now rewrite Ascii.eqb_refl.
  - destruct (Ascii.eqb c sep); [now rewrite IH|].
    rewrite IH. destruct (PyStr.split sep a) as [|h t] eqn:E;
      [now apply split_nonempty in E | reflexivity].
Qed.

Lemma split_whole (sep : ascii) (s : string) :
  ~ In sep (chars s) -> PyStr.split sep s = [s].
Proof.
  induction s as [|c s IH]; intro H; [reflexivity|].
  cbn [PyStr.split]. destruct (Ascii.eqb_spec c sep) as [->|Hc];
    [exfalso; apply H; now left|].
  rewrite IH; [reflexivity | intro Hin; apply H; now right].
Qed.

Lemma from_end_last_two (l : list string) (x y : string) :
  Fetcher.from_end 2 (l ++ [x; y]) = Exc.Returned x
  /\ Fetcher.from_end 1 (l ++ [x; y]) = Exc.Returned y.
Proof.
  unfold Fetcher.from_end. rewrite List.length_app. cbn [List.length].
  split.
  - destruct (Nat.ltb_spec (List.length l + 2) 2); [lia|].
    replace (List.length l + 2 - 2)%nat with (List.length l) by lia.
    now rewrite List.nth_middle.
  - destruct (Nat.ltb_spec (List.length l + 2) 1); [lia|].
    replace (List.length l + 2 - 1)%nat with (S (List.length l)) by lia.
    change (l ++ [x; y])%list with (l ++ x :: [y])%list.
    rewrite List.app_nth2 by lia.
    replace (S (List.length l) - List.length l)%nat with 1%nat by lia.
    reflexivity.
Qed.

(** X14: the fetcher reads owner and repository off the end of the URL:
    for every URL made of anything, "/", an owner without "/", "/", a
    non-empty repository name without "/" and any number of trailing
    "/", it keeps that owner and that repository; and a URL that has no
    "/" left once its trailing "/" are removed raises [IndexError]. *)
Theorem fetcher_init_owner_and_repo :
  (forall base owner repo slashes : string,
     ~ In "/"%char (chars owner) ->
     ~ In "/"%char (chars repo) ->
     repo <> EmptyString ->
     List.Forall (eq "/"%char) (chars slashes) ->
     let url := (base ++ "/" ++ owner ++ "/" ++ repo ++ slashes)%string in
     Fetcher.init url
     = Exc.Returned {| Fetcher.owner := owner; Fetcher.repo := repo;
                       Fetcher.repo_url := url |})
  /\ (forall url : string,
        ~ In "/"%char (chars (Fetcher.rstrip "/" url)) ->
        Fetcher.init url = Exc.Raised "list index out of range").
Proof.
  split.
  - intros base owner repo slashes Ho Hr Hne Hs url.
    unfold Fetcher.init.
    assert (E : Fetcher.rstrip "/" url
                = (base ++ String "/" (owner ++ String "/" repo))%string).
    { destruct (last_char repo Hne) as (r & a & ->).
      assert (Ha : a <> "/"%char).
      { intros ->. apply Hr. rewrite chars_append.
        apply List.in_or_app. right. now left. }
      unfold url.
      change ("/" ++ owner ++ "/" ++ (r ++ String a EmptyString) ++ slashes)%string
        with (String "/" (owner ++ String "/"
                            ((r ++ String a EmptyString) ++ slashes)))%string.
      replace (base ++ String "/" (owner ++ String "/"
                 ((r ++ String a EmptyString) ++ slashes)))%string
        with (((base ++ String "/" (owner ++ String "/" r))
               ++ String a EmptyString) ++ slashes)%string.
      - rewrite rstrip_append_all by exact Hs.
        rewrite rstrip_keeps by exact Ha.
        repeat (rewrite ?append_assoc; cbn [append]). reflexivity.
      - repeat (rewrite ?append_assoc; cbn [append]). reflexivity. }
    rewrite E. rewrite !split_append_sep.
    rewrite (split_whole "/" owner Ho), (split_whole "/" repo Hr).
    destruct (from_end_last_two (PyStr.split "/" base) owner repo)
      as [H2 H1].
    cbn [app]. rewrite H2. cbn [Exc.bind]. rewrite H1. reflexivity.
  - intros url H. unfold Fetcher.init.
    rewrite (split_whole "/" _ H). reflexivity.
Qed.

Lemma fetcher_init_owner_and_repo_witness :
  let url := ("https://github.com" ++ "/" ++ "octocat" ++ "/"
              ++ "hello-world" ++ "//")%string in
  ~ In "/"%char (chars "octocat")
  /\ ~ In "/"%char (chars "hello-world")
  /\ "hello-world" <> EmptyString
  /\ List.Forall (eq "/"%char) (chars "//")
  /\ Fetcher.init url
     = Exc.Returned {| Fetcher.owner := "octocat";
                       Fetcher.repo := "hello-world";
                       Fetcher.repo_url := url |}.
Proof.
  intro url.
  assert (Ho : ~ In "/"%char (chars "octocat")).
  { cbn. intros H. repeat (destruct H as [H|H]; [discriminate|]).
    exact H. }
  assert (Hr : ~ In "/"%char (chars "hello-world")).
  { cbn. intros H. repeat (destruct H as [H|H]; [discriminate|]).
    exact H. }
  assert (Hne : "hello-world" <> EmptyString) by discriminate.
  assert (Hs : List.Forall (eq "/"%char) (chars "//"))
    by (repeat constructor).
  split; [exact Ho | split; [exact Hr | split; [exact Hne|]]].
  split; [exact Hs|].
  exact (proj1 fetcher_init_owner_and_repo "https://github.com" "octocat"
               "hello-world" "//" Ho Hr Hne Hs).
Defined.

(** ** The fetch stages *)

Lemma count_if_none {A : Type} (f : A -> bool) (l : list A) :
  (forall x, In x l -> f x = false) -> count_if f l = 0.
Proof.
  induction l as [|x l IH]; intro H; [reflexivity|].
  rewrite count_if_cons, (H x) by now left.
  rewrite IH; [reflexivity|]. intros y Hy. apply H. now right.
Qed.

Section FetchStages.

Variable raise_for_status :
  forall A : Type, Fetcher.Response A -> Exc.outcome unit.
Variable b64decode_utf8 : string -> Exc.outcome string.

Lemma get_readme_not_200 (r : Fetcher.Response Fetcher.ReadmeJson) :
  Fetcher.status_code r <> 200 ->
  Fetcher.get_readme (Exc.Returned r) = Exc.Returned EmptyString.
Proof.
  intro H. unfold Fetcher.get_readme. cbn [Exc.bind].
  destruct (Z.eqb_spec (Fetcher.status_code r) 200); [contradiction|].
  reflexivity.
Qed.

(** X15: a README request that is answered with a status other than 200
    is not a failure: [get_readme] returns the empty string without
    consulting the body, and when the five other stages return, the
    analysis succeeds with documentation score 0 and the rationale
    "No README found". *)
Theorem missing_readme_is_not_fatal
    (r : Fetcher.Response Fetcher.ReadmeJson)
    (repo_info : Analyzer.RepoInfo) (tree : list FileTreeEntry)
    (commits : list Commit) (branches : list string)
    (languages : list (string * Z)) :
  Fetcher.status_code r <> 200 ->
  Fetcher.get_readme (Exc.Returned r) = Exc.Returned EmptyString
  /\ exists report,
       Analyzer.analyze b64decode_utf8
         {| Analyzer.get_repo_info := Exc.Returned repo_info;
            Analyzer.get_file_tree := Exc.Returned tree;
            Analyzer.get_readme := Fetcher.get_readme (Exc.Returned r);
            Analyzer.get_commits := Exc.Returned commits;
            Analyzer.get_branches := Exc.Returned branches;
            Analyzer.get_languages := Exc.Returned languages |}
       = Analyzer.Success report
       /\ Dim.documentation (Analyzer.profile report) = 0
       /\ Dim.documentation (Analyzer.signals report) = "No README found".
Proof.
  intro H. rewrite (get_readme_not_200 r H). split; [reflexivity|].
  destruct (analyze_returned b64decode_utf8 repo_info tree EmptyString
              commits branches languages) as (t & _ & Ha).
  cbv zeta in Ha. eexists. split; [exact Ha|].
  split; reflexivity.
Qed.

(** X16: the tree request is fatal where the README request is not:
    when [raise_for_status] raises on the response, [get_file_tree]
    raises the same exception, and the analysis returns the error record
    with its text, whatever the later stages would have done. *)
Theorem tree_http_error_is_fatal
    (r : Fetcher.Response Fetcher.TreeJson) (e : string)
    (repo_info : Analyzer.RepoInfo)
    (readme : Exc.outcome string)
    (commits : Exc.outcome (list Commit))
    (branches : Exc.outcome (list string))
    (languages : Exc.outcome (list (string * Z))) :
  raise_for_status Fetcher.TreeJson r = Exc.Raised e ->
  Fetcher.get_file_tree raise_for_status (Exc.Returned r) = Exc.Raised e
  /\ Analyzer.analyze b64decode_utf8
       {| Analyzer.get_repo_info := Exc.Returned repo_info;
          Analyzer.get_file_tree :=
            Fetcher.get_file_tree raise_for_status (Exc.Returned r);
          Analyzer.get_readme := readme;
          Analyzer.get_commits := commits;
          Analyzer.get_branches := branches;
          Analyzer.get_languages := languages |}
     = Analyzer.Failure {| Analyzer.error := "Analysis failed: " ++ e;
                           Analyzer.error_status := "error" |}.
Proof.
  intro H.
  assert (E : Fetcher.get_file_tree raise_for_status (Exc.Returned r)
              = Exc.Raised e).
  { unfold Fetcher.get_file_tree. cbn [Exc.bind]. now rewrite H. }
  split; [exact E|]. apply analyze_failure.
  unfold first_failure.
  cbn [Analyzer.get_repo_info Analyzer.get_file_tree]. now rewrite E.
Qed.

Lemma no_message_no_points (c : Commit) :
  get_message c = EmptyString ->
  is_conventional (PyStr.lower (get_message c)) = false
  /\ is_descriptive (PyStr.lower (get_message c)) = false.
Proof. intros ->. split; reflexivity. Qed.

(** X17: [get_commits] builds one record per item of the response, each
    with its message key present; an item without a message reads as the
    empty message, which earns nothing: when no item has a message the
    commits score is 0, however many commits there are. *)
Theorem get_commits_one_record_per_item
    (r : Fetcher.Response (list Fetcher.CommitJson))
    (items : list Fetcher.CommitJson) :
  raise_for_status (list Fetcher.CommitJson) r = Exc.Returned tt ->
  Fetcher.json r = Exc.Returned items ->
  exists cs,
    Fetcher.get_commits raise_for_status (Exc.Returned r) = Exc.Returned cs
    /\ List.length cs = List.length items
    /\ List.Forall (fun c => message c <> None) cs
    /\ (List.Forall
          (fun i => Fetcher.body_message (Fetcher.body_of i) = None) items ->
        forall tree readme branches languages,
          fst (signal_commits (init tree readme cs branches languages)) = 0).
Proof.
  intros Hs Hj. exists (List.map Fetcher.commit_record items).
  split; [unfold Fetcher.get_commits; cbn [Exc.bind]; now rewrite Hs, Hj|].
  split; [apply List.length_map|].
  split; [apply List.Forall_forall; intros c Hc;
          apply List.in_map_iff in Hc as (i & <- & _); discriminate|].
  intros Hnone tree readme branches languages.
  rewrite signal_commits_score. cbn [init Signals.commits].
  set (cs := List.map Fetcher.commit_record items).
  assert (Hempty : List.Forall (fun c => get_message c = EmptyString) cs).
  { apply List.Forall_forall. intros c Hc.
    apply List.in_map_iff in Hc as (i & <- & Hi).
    rewrite List.Forall_forall in Hnone. specialize (Hnone i Hi).
    unfold Fetcher.commit_record, get_message. cbn [message].
    now rewrite Hnone. }
  assert (Hzero : forall f : Commit -> bool,
            (forall c, get_message c = EmptyString -> f c = false) ->
            count_if f (List.firstn 50 cs) = 0).
  { intros f Hf. apply count_if_none.
    intros c Hc. apply In_firstn in Hc. apply Hf.
    rewrite List.Forall_forall in Hempty. now apply Hempty. }
  unfold conventional_count, descriptive_count.
  rewrite !Hzero by (intros c Hc; now apply no_message_no_points).
  destruct cs; reflexivity.
Qed.

End FetchStages.

Lemma missing_readme_is_not_fatal_witness :
  let r := {| Fetcher.status_code := 404;
              Fetcher.json := @Exc.Raised Fetcher.ReadmeJson "no body" |} in
  Fetcher.status_code r <> 200
  /\ Fetcher.get_readme (Exc.Returned r) = Exc.Returned EmptyString
  /\ exists report,
       Analyzer.analyze (fun s => Exc.Returned s)
         {| Analyzer.get_repo_info :=
              Exc.Returned {| Analyzer.name := None;
                              Analyzer.description := None;
                              Analyzer.stars := 0; Analyzer.forks := 0 |};
            Analyzer.get_file_tree := Exc.Returned [entry_of "src/a.py"];
            Analyzer.get_readme := Fetcher.get_readme (Exc.Returned r);
            Analyzer.get_commits := Exc.Returned [commit_of "feat: x"];
            Analyzer.get_branches := Exc.Returned ["main"];
            Analyzer.get_languages := Exc.Returned [] |}
       = Analyzer.Success report
       /\ Dim.documentation (Analyzer.profile report) = 0
       /\ Dim.documentation (Analyzer.signals report) = "No README found".
Proof.
  intro r.
  assert (H : Fetcher.status_code r <> 200) by discriminate.
  split; [exact H|].
  exact (missing_readme_is_not_fatal (fun s => Exc.Returned s) r _ _ _ _ _ H).
Defined.

Lemma tree_http_error_is_fatal_witness :
  let r := {| Fetcher.status_code := 404;
              Fetcher.json := @Exc.Raised Fetcher.TreeJson "no body" |} in
  let repo_info := {| Analyzer.name := None; Analyzer.description := None;
                      Analyzer.stars := 0; Analyzer.forks := 0 |} in
  sample_raise_for_status Fetcher.TreeJson r
  = Exc.Raised "404 Client Error: Not Found"
  /\ Fetcher.get_file_tree sample_raise_for_status (Exc.Returned r)
     = Exc.Raised "404 Client Error: Not Found"
  /\ Analyzer.analyze (fun s => Exc.Returned s)
       {| Analyzer.get_repo_info := Exc.Returned repo_info;
          Analyzer.get_file_tree :=
            Fetcher.get_file_tree sample_raise_for_status (Exc.Returned r);
          Analyzer.get_readme := Exc.Returned "Overview";
          Analyzer.get_commits := Exc.Returned [];
          Analyzer.get_branches := Exc.Returned [];
          Analyzer.get_languages := Exc.Returned [] |}
     = Analyzer.Failure
         {| Analyzer.error :=
              "Analysis failed: " ++ "404 Client Error: Not Found";
            Analyzer.error_status := "error" |}.
Proof.
  intros r repo_info.
  assert (H : sample_raise_for_status Fetcher.TreeJson r
              = Exc.Raised "404 Client Error: Not Found") by reflexivity.
  split; [exact H|].
  exact (tree_http_error_is_fatal sample_raise_for_status
           (fun s => Exc.Returned s) r _ repo_info _ _ _ _ H).
Defined.

Lemma get_commits_one_record_per_item_witness :
  let r := {| Fetcher.status_code := 200;
              Fetcher.json := Exc.Returned sample_commit_items |} in
  sample_raise_for_status (list Fetcher.CommitJson) r = Exc.Returned tt
  /\ Fetcher.json r = Exc.Returned sample_commit_items
  /\ exists cs,
       Fetcher.get_commits sample_raise_for_status (Exc.Returned r)
       = Exc.Returned cs
       /\ List.length cs = List.length sample_commit_items
       /\ List.Forall (fun c => message c <> None) cs
       /\ (List.Forall
             (fun i => Fetcher.body_message (Fetcher.body_of i) = None)
             sample_commit_items ->
           forall tree readme branches languages,
             fst (signal_commits (init tree readme cs branches languages))
             = 0).
Proof.
  intro r.
  assert (Hs : sample_raise_for_status (list Fetcher.CommitJson) r
               = Exc.Returned tt) by reflexivity.
  assert (Hj : Fetcher.json r = Exc.Returned sample_commit_items)
    by reflexivity.
  split; [exact Hs | split; [exact Hj|]].
  exact (get_commits_one_record_per_item sample_raise_for_status r
           sample_commit_items Hs Hj).
Defined.

(** ** The route *)

Lemma fetcher_init_raises (url : string) (e : string) :
  Fetcher.init url = Exc.Raised e -> e = "list index out of range".
Proof.
  unfold Fetcher.init, Fetcher.from_end. cbv zeta.
  destruct (Nat.ltb _ 2); cbn [Exc.bind]; [now intros [= <-]|].
  destruct (Nat.ltb _ 1); cbn [Exc.bind]; [now intros [= <-]|].
  discriminate.
Qed.

(** X18: the route answers 400 exactly when the URL is missing or blank,
    without building a fetcher; 500 exactly when the URL is not blank
    and the fetcher cannot be built from it, with the message
    "Analysis failed: list index out of range"; and 200 in every other
    case, also when the analysis failed: a fetch failure reaches the
    client as the error record of [analyze] under status 200. *)
Theorem route_status_codes
    (b64decode_utf8 : string -> Exc.outcome string)
    (network : Fetcher.GitHubFetcher -> Analyzer.GitHubFetcher)
    (repo_url_field : option string) :
  let repo_url := App.strip (Fetcher.or_empty repo_url_field) in
  let response := App.analyze b64decode_utf8 network repo_url_field in
  (snd response = 400 <-> repo_url = EmptyString)
  /\ (repo_url = EmptyString ->
      response = (App.ErrorOnly "Please provide a repository URL", 400))
  /\ (snd response = 500
      <-> repo_url <> EmptyString
          /\ exists e, Fetcher.init repo_url = Exc.Raised e)
  /\ (snd response = 500 ->
      response
      = (App.ErrorOnly "Analysis failed: list index out of range", 500))
  /\ (forall fetcher,
        repo_url <> EmptyString ->
        Fetcher.init repo_url = Exc.Returned fetcher ->
        response
        = (App.Result (Analyzer.analyze b64decode_utf8 (network fetcher)),
           200)
        /\ forall e,
             first_failure (network fetcher) = Some e ->
             response
             = (App.Result
                  (Analyzer.Failure
                     {| Analyzer.error := "Analysis failed: " ++ e;
                        Analyzer.error_status := "error" |}), 200)).
Proof.
  intros repo_url response. subst response. unfold App.analyze.
  fold repo_url. destruct repo_url as [|c u] eqn:E; cbn [PyStr.truthy negb].
  - cbn [snd].
    split; [tauto|].
    split; [intros _; reflexivity|].
    split; [split; [discriminate | intros (H & _); now contradiction H]|].
    split; [discriminate|].
    intros f H. now contradiction H.
  - destruct (Fetcher.init (String c u)) as [f|e] eqn:Ei; cbn [snd].
    + split; [split; discriminate|].
      split; [discriminate|].
      split; [split; [discriminate | intros (_ & e & He); discriminate]|].
      split; [discriminate|].
      intros f' _ [= <-]. split; [reflexivity|].
      intros e He.
      now rewrite (analyze_failure b64decode_utf8 (network f) e He).
    + pose proof (fetcher_init_raises _ _ Ei) as ->.
      split; [split; discriminate|].
      split; [discriminate|].
      split; [split; [intros _; split; [discriminate | eexists; reflexivity]
                     | reflexivity]|].
      split; [intros _; reflexivity|].
      intros f _ H. discriminate.
Qed.

Lemma route_status_codes_witness :
  let network := fun _ : Fetcher.GitHubFetcher => failing_fetcher in
  let field := Some "  https://github.com/octocat/hello-world/  " in
  let repo_url := App.strip (Fetcher.or_empty field) in
  let fetcher := {| Fetcher.owner := "octocat";
                    Fetcher.repo := "hello-world";
                    Fetcher.repo_url := repo_url |} in
  repo_url <> EmptyString
  /\ Fetcher.init repo_url = Exc.Returned fetcher
  /\ first_failure (network fetcher) = Some "404 Client Error: Not Found"
  /\ App.analyze (fun s => Exc.Returned s) network field
     = (App.Result
          (Analyzer.Failure
             {| Analyzer.error :=
                  "Analysis failed: " ++ "404 Client Error: Not Found";
                Analyzer.error_status := "error" |}), 200).
Proof.
  intros network field repo_url fetcher.
  assert (Hne : repo_url <> EmptyString) by discriminate.
  assert (Hi : Fetcher.init repo_url = Exc.Returned fetcher)
    by (vm_compute; reflexivity).
  assert (Hf : first_failure (network fetcher)
               = Some "404 Client Error: Not Found") by reflexivity.
  split; [exact Hne | split; [exact Hi | split; [exact Hf|]]].
  exact (proj2 (proj2 (proj2 (proj2 (proj2
           (route_status_codes (fun s => Exc.Returned s) network field))))
           fetcher Hne Hi) _ Hf).
Defined.
